(** * UAE preventive-health portfolio engine

    Shallow embedding of [core/run_analysis_final.py]: the module-level
    helpers ([discount_sum], [set_gamma_mean], [lognormal_mean], [clamp],
    [_beta_rrr_to_lognormal_rr]), the parameter table [default_params] and
    the methods of [UAEHealthAnalysis] that form the simulation and
    calibration engine.

    Conventions of the embedding.
    - A Python [float] is a real number; the one non-number the engine
      produces on purpose, [math.nan], is the constructor [NaN] of [fl].
      Rounding error, infinities and overflow are outside the model.
    - A Python [int] is a [Z].
    - A Python exception is the [Raise] branch of the result type [res].
    - A [dict] whose iteration order is observable (the interventions, the
      Monte-Carlo summary) is an association list in insertion order.
    - [numpy.random.Generator] is the interface [Generator]; a draw returns
      the sampled value and the advanced generator.  The interface is
      total: NumPy refuses a negative seed and parameters outside the
      domain of a distribution with a [ValueError], so what is proved of a
      run that returns is proved for the seeds and parameters NumPy
      accepts. *)

From Stdlib Require Import Reals Lra Lia ZArith List String Bool.
Import ListNotations.
Local Open Scope string_scope.
Local Open Scope list_scope.
Local Open Scope R_scope.

(** ** Exceptions and the result monad *)

Inductive exn : Type :=
| ZeroDivisionError
| ValueError
| AssertionError
| KeyError (key : string)
| NameError (name : string).

Inductive res (A : Type) : Type :=
| Ok (a : A)
| Raise (e : exn).
Arguments Ok {A} a.
Arguments Raise {A} e.

Definition bind {A B : Type} (m : res A) (k : A -> res B) : res B :=
  match m with
  | Ok a => k a
  | Raise e => Raise e
  end.

Notation "x <- m ;; k" := (bind m (fun x => k))
  (at level 61, m at next level, right associativity).
Notation "' p <- m ;; k" := (bind m (fun x => match x with p => k end))
  (at level 61, p pattern, m at next level, right associativity).

Fixpoint mapM {A B : Type} (f : A -> res B) (l : list A) : res (list B) :=
  match l with
  | [] => Ok []
  | x :: tl => y <- f x ;; ys <- mapM f tl ;; Ok (y :: ys)
  end.

(** ** Python comparisons, truthiness and float division *)

Definition Rltb (x y : R) : bool := if Rlt_dec x y then true else false.
Definition Rleb (x y : R) : bool := if Rle_dec x y then true else false.
Definition Reqb (x y : R) : bool := if Req_dec_T x y then true else false.

(** [if x:] on a float. *)
Definition truthy (x : R) : bool := negb (Reqb x 0).

(** [x / y] on floats: [ZeroDivisionError] when the divisor is zero. *)
Definition pydiv (x y : R) : res R :=
  if Reqb y 0 then Raise ZeroDivisionError else Ok (x / y).

(** [math.log]: [ValueError] outside the positive reals. *)
Definition pylog (x : R) : res R :=
  if Rltb 0 x then Ok (ln x) else Raise ValueError.

(** The builtin [sum]: left to right from 0. *)
Definition pysum (l : list R) : R := fold_left Rplus l 0.

(** The builtin [round(x, ndigits)], ties to even. *)
Definition round_half_even (y : R) : Z :=
  let f := Zfloor y in
  let d := y - IZR f in
  if Rltb d (1/2) then f
  else if Rltb (1/2) d then (f + 1)%Z
  else if Z.even f then f else (f + 1)%Z.

Definition pyround (x : R) (ndigits : nat) : R :=
  IZR (round_half_even (x * 10 ^ ndigits)) / 10 ^ ndigits.

(** ** Module-level helpers *)

Definition discount_sum (T : Z) (r : R) : res R :=
  terms <- mapM (fun t : nat => pydiv 1 ((1 + r) ^ t)) (seq 1 (Z.to_nat T)) ;;
  Ok (pysum terms).

(** The divisor [max(shape, 1e-12)] is positive, so the division never
    raises. *)
Definition set_gamma_mean (shape mean : R) : R * R :=
  let theta := mean / Rmax shape 1e-12 in
  (shape, theta).

Definition lognormal_mean (mu sigma : R) : R :=
  exp (mu + 0.5 * sigma ^ 2).

Definition clamp (x lo hi : R) : R := Rmax lo (Rmin hi x).

Definition _beta_rrr_to_lognormal_rr (a b : R) : res (R * R) :=
  if Rleb a 0 || Rleb b 0 then Raise ValueError
  else
    mean_rrr <- pydiv a (a + b) ;;
    var_rrr <- pydiv (a * b) ((a + b) ^ 2 * (a + b + 1)) ;;
    let mean_rr := Rmax 1e-8 (1 - mean_rrr) in
    let var_rr := Rmax 1e-12 var_rrr in
    q <- pydiv var_rr (mean_rr ^ 2) ;;
    l <- pylog (1 + q) ;;
    let sigma2 := Rmax 1e-12 l in
    let sigma := sqrt sigma2 in
    lm <- pylog mean_rr ;;
    let mu := lm - 0.5 * sigma2 in
    Ok (mu, sigma).

(** ** Dictionaries in insertion order *)

Section Dict.
Context {V : Type}.

Fixpoint dict_get (k : string) (d : list (string * V)) : option V :=
  match d with
  | [] => None
  | (k', v) :: tl => if String.eqb k k' then Some v else dict_get k tl
  end.

(** [d[k] = v]: an existing key keeps its position, a new key goes last. *)
Fixpoint dict_set (k : string) (v : V) (d : list (string * V))
  : list (string * V) :=
  match d with
  | [] => [(k, v)]
  | (k', v') :: tl =>
      if String.eqb k k' then (k', v) :: tl else (k', v') :: dict_set k v tl
  end.

Definition dict_mem (k : string) (d : list (string * V)) : bool :=
  match dict_get k d with Some _ => true | None => false end.

Definition dict_keys (d : list (string * V)) : list string := map fst d.
Definition dict_values (d : list (string * V)) : list V := map snd d.

(** [d[k]]: [KeyError] on a missing key. *)
Definition dict_item (k : string) (d : list (string * V)) : res V :=
  match dict_get k d with Some v => Ok v | None => Raise (KeyError k) end.
End Dict.

(** [d.get(k, default)]. *)
Definition dict_get_default {V : Type} (k : string) (dflt : V)
  (d : list (string * V)) : V :=
  match dict_get k d with Some v => v | None => dflt end.

(** [a or b] on an optional value that is truthy when present. *)
Definition or_else {A : Type} (a : option A) (b : A) : A :=
  match a with Some x => x | None => b end.

(** ** Data model: the nested parameter mapping *)

(** One entry of [parameters["interventions"]].  A key [k_exact] that
    [load_parameters] adds next to [k] is an optional field; [None] is an
    absent key (or, for the two effect channels, the value [None]). *)
Record Intervention : Type := {
  Result_population : Z;
  annual_event_rate : R;
  annual_event_rate_exact : option R;
  case_fatality_rate : R;
  case_fatality_rate_exact : option R;
  utility_weight : R;
  utility_weight_exact : option R;
  qalys_lost_per_event : R;
  qalys_lost_per_event_exact : option R;
  life_years_lost_per_death : R;
  life_years_lost_per_death_exact : option R;
  cost_ppy_gamma : R * R;
  cost_ppy_gamma_exact : option (R * R);
  event_cost_gamma : R * R;
  event_cost_gamma_exact : option (R * R);
  productivity_cost_gamma : R * R;
  productivity_cost_gamma_exact : option (R * R);
  rr_lognormal : option (R * R);
  rr_lognormal_exact : option (R * R);
  rrr_beta : option (R * R)
}.

Record Meta : Type := {
  horizon_years : Z;
  perspective : option string
}.

Record HealthSystem : Type := {
  discount_rate : R
}.

Record Parameters : Type := {
  meta : Meta;
  health_system : HealthSystem;
  portfolio_adjustments : option (list (string * R));
  portfolio_adjustments_exact : option (list (string * R));
  interventions : list (string * Intervention)
}.

(** An intervention as the literal table writes it: no [_exact] keys. *)
Definition mk_intervention (N : Z) (p_event p_cfr u qloss ly : R)
  (g_cost g_event g_prod : R * R) (rr : option (R * R))
  (beta : option (R * R)) : Intervention :=
  {| Result_population := N;
     annual_event_rate := p_event; annual_event_rate_exact := None;
     case_fatality_rate := p_cfr; case_fatality_rate_exact := None;
     utility_weight := u; utility_weight_exact := None;
     qalys_lost_per_event := qloss; qalys_lost_per_event_exact := None;
     life_years_lost_per_death := ly; life_years_lost_per_death_exact := None;
     cost_ppy_gamma := g_cost; cost_ppy_gamma_exact := None;
     event_cost_gamma := g_event; event_cost_gamma_exact := None;
     productivity_cost_gamma := g_prod; productivity_cost_gamma_exact := None;
     rr_lognormal := rr; rr_lognormal_exact := None;
     rrr_beta := beta |}.

Definition alzheimers : Intervention :=
  mk_intervention 30000 0.054 0.05 0.76 1.6736842105263157 6.0
    (5.0, 2266.456461033086) (4.0, 296448.1195879286)
    (3.0, 397995.6019110086) None
    (Some (83.33333333333333, 416.6666666666667)).

Definition cancer : Intervention :=
  mk_intervention 1126000 0.006 0.2 0.84 0.09999999999999964 12.0
    (5.0, 99.9478564306867) (4.0, 144919.35620687832)
    (3.0, 352550.4219999648) None
    (Some (62.3149792776791, 437.6850207223209)).

Definition cvd : Intervention :=
  mk_intervention 500000 0.012 0.15 0.85 0.061764705882353166 9.0
    (5.0, 384.5160616649235) (4.0, 174610.1514382146)
    (3.0, 487832.36345171503) None
    (Some (103.75, 396.25)).

Definition diabetes : Intervention :=
  mk_intervention 750000 0.028 0.05 0.82 0.06585365853658531 6.0
    (5.0, 96.91055212693195) (4.0, 4718.275891686173)
    (3.0, 13661.137974473053) None
    (Some (303.57142857142856, 196.42857142857144)).

Definition osteoporosis : Intervention :=
  mk_intervention 234000 0.05 0.02 0.87 0.3862988505747126 0.8
    (5.0, 140.27581986942178) (4.0, 35833.005519283826)
    (3.0, 47818.03284826455) None
    (Some (45.0, 455.0)).

Definition default_params : Parameters :=
  {| meta := {| horizon_years := 10; perspective := Some "societal" |};
     health_system := {| discount_rate := 0.03 |};
     portfolio_adjustments :=
       Some [("overlap_events", 0.9782178217821782);
             ("mortality_synergy", 1.589256335121348);
             ("qaly_synergy", 4.865944050520814);
             ("hc_realization", 2.158984);
             ("prod_realization", 0.353716);
             ("benefit_synergy", 1.063)];
     portfolio_adjustments_exact := None;
     interventions :=
       [("alzheimers", alzheimers); ("cancer", cancer); ("cvd", cvd);
        ("diabetes", diabetes); ("osteoporosis", osteoporosis)] |}.

(** ** Results *)

(** The dictionary one evaluation of one program returns. *)
Record IterationResult : Type := {
  investment : R;
  hc_savings : R;
  soc_savings : R;
  qalys : R;
  events_prevented : R;
  deaths_averted : R
}.

(** [run_markov_models]'s [portfolio] dictionary, [total_savings] included. *)
Record Portfolio : Type := {
  pf_investment : R;
  pf_hc_savings : R;
  pf_soc_savings : R;
  pf_qalys : R;
  pf_events_prevented : R;
  pf_deaths_averted : R;
  pf_total_savings : R
}.

Record MarkovOut : Type := {
  per_intervention : list (string * IterationResult);
  portfolio : Portfolio
}.

(** A float that may be [math.nan]. *)
Inductive fl : Type :=
| Num (x : R)
| NaN.

(** What [summarize] returns for one metric. *)
Record Stats : Type := {
  mean : fl;
  median : fl;
  std : fl;
  ci_lower : fl;
  ci_upper : fl
}.

Record Results : Type := {
  markov : option MarkovOut;
  monte_carlo : option (list (string * Stats))
}.

(** The state of a [UAEHealthAnalysis] object ([output_dir] only names
    files and is left out). *)
Record UAEHealthAnalysis : Type := {
  parameters : Parameters;
  results : Results
}.

Definition set_parameters (p : Parameters) (self : UAEHealthAnalysis)
  : UAEHealthAnalysis :=
  {| parameters := p; results := results self |}.

Definition set_markov (o : MarkovOut) (self : UAEHealthAnalysis)
  : UAEHealthAnalysis :=
  {| parameters := parameters self;
     results := {| markov := Some o;
                   monte_carlo := monte_carlo (results self) |} |}.

Definition set_monte_carlo (s : list (string * Stats))
  (self : UAEHealthAnalysis) : UAEHealthAnalysis :=
  {| parameters := parameters self;
     results := {| markov := markov (results self);
                   monte_carlo := Some s |} |}.

(** [parameters["interventions"][key] = intr]. *)
Definition set_intervention (key : string) (intr : Intervention)
  (self : UAEHealthAnalysis) : UAEHealthAnalysis :=
  let p := parameters self in
  set_parameters
    {| meta := meta p; health_system := health_system p;
       portfolio_adjustments := portfolio_adjustments p;
       portfolio_adjustments_exact := portfolio_adjustments_exact p;
       interventions := dict_set key intr (interventions p) |} self.

(** [UAEHealthAnalysis(...)]: empty parameters are not representable, so the
    constructor takes the mapping [load_parameters] would install. *)
Definition new_analysis (p : Parameters) : UAEHealthAnalysis :=
  {| parameters := p;
     results := {| markov := None; monte_carlo := None |} |}.

(** ** The random generator interface *)

Class Generator (G : Type) : Type := {
  default_rng : Z -> G;
  rng_gamma : G -> R -> R -> R * G;
  rng_lognormal : G -> R -> R -> R * G;
  rng_beta : G -> R -> R -> R * G
}.

(** ** InterventionSimulator *)

Section Simulator.
Context {G : Type} `{Generator G}.

(** [rr_ln = intr.get("rr_lognormal_exact") or intr.get("rr_lognormal")] *)
Definition rr_ln_of (intr : Intervention) : option (R * R) :=
  match rr_lognormal_exact intr with
  | Some p => Some p
  | None => rr_lognormal intr
  end.

(** [a / (a + b) if a and b else 0.2] with [a, b] from
    [intr.get("rrr_beta", [None, None])]. *)
Definition beta_mean_or_default (beta : option (R * R)) : res R :=
  match beta with
  | Some (a, b) => if truthy a && truthy b then pydiv a (a + b) else Ok 0.2
  | None => Ok 0.2
  end.

(** [rrr] of the deterministic branch: one minus the clamped lognormal
    mean, or the Beta fallback. *)
Definition deterministic_rrr (intr : Intervention) : res R :=
  match rr_ln_of intr with
  | Some (mu, sigma) =>
      let rr := lognormal_mean mu sigma in
      let rr := clamp rr 1e-6 0.999 in
      Ok (1.0 - rr)
  | None => beta_mean_or_default (rrr_beta intr)
  end.

(** The four values of one pass: program cost, event cost, productivity
    cost, relative-risk reduction. *)
Definition draw_channels (intr : Intervention) (rng : G)
  (deterministic : bool) : res (R * R * R * R * G) :=
  let '(k_c, th_c) := or_else (cost_ppy_gamma_exact intr) (cost_ppy_gamma intr) in
  let '(k_ev, th_ev) := or_else (event_cost_gamma_exact intr) (event_cost_gamma intr) in
  let '(k_pr, th_pr) :=
    or_else (productivity_cost_gamma_exact intr) (productivity_cost_gamma intr) in
  if deterministic then
    let cost_ppy := k_c * th_c in
    let cost_event := k_ev * th_ev in
    let prod_event := k_pr * th_pr in
    rrr <- deterministic_rrr intr ;;
    Ok (cost_ppy, cost_event, prod_event, rrr, rng)
  else
    let k_c_eff := Rmax k_c 1e6 in
    th_c_eff <- pydiv (k_c * th_c) k_c_eff ;;
    let '(cost_ppy, rng) := rng_gamma rng k_c_eff th_c_eff in
    let '(cost_event, rng) := rng_gamma rng k_ev th_ev in
    let '(prod_event, rng) := rng_gamma rng k_pr th_pr in
    match rr_ln_of intr with
    | Some (mu, sigma) =>
        let '(rr, rng) := rng_lognormal rng mu sigma in
        let rr := clamp rr 1e-6 0.999 in
        Ok (cost_ppy, cost_event, prod_event, 1.0 - rr, rng)
    | None =>
        match rrr_beta intr with
        | Some (a, b) =>
            if truthy a && truthy b then
              let '(rrr, rng) := rng_beta rng a b in
              Ok (cost_ppy, cost_event, prod_event, rrr, rng)
            else Ok (cost_ppy, cost_event, prod_event, 0.2, rng)
        | None => Ok (cost_ppy, cost_event, prod_event, 0.2, rng)
        end
    end.

Definition is_societal (m : Meta) : bool :=
  String.eqb (or_else (perspective m) "societal") "societal".

Definition _simulate_intervention (self : UAEHealthAnalysis) (key : string)
  (rng : G) (deterministic : bool) : res (IterationResult * G) :=
  let meta_ := meta (parameters self) in
  let hs := health_system (parameters self) in
  intr <- dict_item key (interventions (parameters self)) ;;
  let T := horizon_years meta_ in
  let r := discount_rate hs in
  D <- discount_sum T r ;;
  let N := IZR (Result_population intr) in
  let p_event := or_else (annual_event_rate_exact intr) (annual_event_rate intr) in
  let p_cfr := or_else (case_fatality_rate_exact intr) (case_fatality_rate intr) in
  let u := or_else (utility_weight_exact intr) (utility_weight intr) in
  let qloss_evt :=
    or_else (qalys_lost_per_event_exact intr) (qalys_lost_per_event intr) in
  let ly_loss :=
    or_else (life_years_lost_per_death_exact intr) (life_years_lost_per_death intr) in
  '(cost_ppy, cost_event, prod_event, rrr, rng) <-
    draw_channels intr rng deterministic ;;
  let base_events := N * p_event in
  let prevented_py := base_events * rrr in
  let deaths_py := prevented_py * p_cfr in
  let invest_py := N * cost_ppy in
  let hc_sav_py := prevented_py * cost_event in
  let soc_sav_py := if is_societal meta_ then prevented_py * prod_event else 0.0 in
  let qalys_py := (prevented_py * (qloss_evt + p_cfr * ly_loss)) * u in
  Ok ({| investment := invest_py * D;
         hc_savings := hc_sav_py * D;
         soc_savings := soc_sav_py * D;
         qalys := qalys_py * D;
         events_prevented := prevented_py * IZR T;
         deaths_averted := deaths_py * IZR T |}, rng).

(** ** PortfolioAggregator *)

(** [{k: self._simulate_intervention(k, rng, deterministic) for k in keys}]:
    the programs are evaluated in key order on one generator. *)
Fixpoint simulate_each (self : UAEHealthAnalysis) (keys : list string)
  (rng : G) (deterministic : bool)
  : res (list (string * IterationResult) * G) :=
  match keys with
  | [] => Ok ([], rng)
  | k :: tl =>
      '(v, rng) <- _simulate_intervention self k rng deterministic ;;
      '(rest, rng) <- simulate_each self tl rng deterministic ;;
      Ok ((k, v) :: rest, rng)
  end.

(** [sum(v[field] for v in per.values())] *)
Definition sum_of (field : IterationResult -> R)
  (per : list (string * IterationResult)) : R :=
  pysum (map field (dict_values per)).

(** [parameters.get('portfolio_adjustments_exact') or
     parameters.get('portfolio_adjustments', {})]: an empty dictionary is
    falsy. *)
Definition adjustments_of (p : Parameters) : list (string * R) :=
  match portfolio_adjustments_exact p with
  | Some (e :: tl) => e :: tl
  | _ => or_else (portfolio_adjustments p) []
  end.

Definition set_deaths_averted (d : R) (v : IterationResult)
  : IterationResult :=
  {| investment := investment v; hc_savings := hc_savings v;
     soc_savings := soc_savings v; qalys := qalys v;
     events_prevented := events_prevented v; deaths_averted := d |}.

(** The [# Deaths] block: every per-program [deaths_averted] is multiplied
    by adjusted portfolio deaths over the unadjusted sum, when that sum is
    truthy. *)
Definition reconcile_deaths (portfolio_deaths : R)
  (per : list (string * IterationResult))
  : res (list (string * IterationResult)) :=
  let _sum_deaths := sum_of deaths_averted per in
  if truthy _sum_deaths then
    _scale <- pydiv portfolio_deaths _sum_deaths ;;
    Ok (map (fun kv : string * IterationResult =>
               (fst kv,
                set_deaths_averted (deaths_averted (snd kv) * _scale) (snd kv)))
            per)
  else Ok per.

(** The sums of the six fields, then the multipliers, then
    [total_savings]. *)
Definition adjusted_portfolio (adj : list (string * R))
  (per : list (string * IterationResult)) : Portfolio :=
  let p_investment := sum_of investment per in
  let p_hc_savings := sum_of hc_savings per in
  let p_soc_savings := sum_of soc_savings per in
  let p_qalys := sum_of qalys per in
  let p_events_prevented := sum_of events_prevented per in
  let p_deaths_averted := sum_of deaths_averted per in
  let evf := dict_get_default "overlap_events" 1.0 adj in
  let dff := dict_get_default "mortality_synergy" 1.0 adj in
  let qff := dict_get_default "qaly_synergy" 1.0 adj in
  let p_events_prevented := p_events_prevented * evf in
  let p_deaths_averted := p_deaths_averted * dff in
  let p_qalys := p_qalys * qff in
  let hc_real := dict_get_default "hc_realization" 1.0 adj in
  let pr_real := dict_get_default "prod_realization" 1.0 adj in
  let ben_syn := dict_get_default "benefit_synergy" 1.0 adj in
  let p_hc_savings := p_hc_savings * (hc_real * ben_syn) in
  let p_soc_savings := p_soc_savings * (pr_real * ben_syn) in
  {| pf_investment := p_investment;
     pf_hc_savings := p_hc_savings;
     pf_soc_savings := p_soc_savings;
     pf_qalys := p_qalys;
     pf_events_prevented := p_events_prevented;
     pf_deaths_averted := p_deaths_averted;
     pf_total_savings := p_hc_savings + p_soc_savings |}.

(** Returns [out] and the object with [results['markov'] = out]; the JSON
    file it also writes is not modelled. *)
Definition run_markov_models (self : UAEHealthAnalysis)
  (deterministic : bool) (seed : Z) : res (MarkovOut * UAEHealthAnalysis) :=
  let rng := default_rng seed in
  '(per, _) <- simulate_each self (dict_keys (interventions (parameters self)))
                 rng deterministic ;;
  let adj := adjustments_of (parameters self) in
  let portfolio := adjusted_portfolio adj per in
  per <- reconcile_deaths (pf_deaths_averted portfolio) per ;;
  let out := {| per_intervention := per; portfolio := portfolio |} in
  Ok (out, set_markov out self).
End Simulator.

(** ** Floats that may be NaN *)

Definition fl_lift2 (f : R -> R -> R) (a b : fl) : fl :=
  match a, b with
  | Num x, Num y => Num (f x y)
  | _, _ => NaN
  end.

Definition fl_add : fl -> fl -> fl := fl_lift2 Rplus.
Definition fl_sub : fl -> fl -> fl := fl_lift2 Rminus.
Definition fl_mul : fl -> fl -> fl := fl_lift2 Rmult.

Definition fl_abs (a : fl) : fl :=
  match a with Num x => Num (Rabs x) | NaN => NaN end.

(** [a < b]: false as soon as one side is NaN. *)
Definition fl_ltb (a b : fl) : bool :=
  match a, b with
  | Num x, Num y => Rltb x y
  | _, _ => false
  end.

(** [a / b]: a zero divisor raises whatever the dividend; NaN propagates. *)
Definition fl_div (a b : fl) : res fl :=
  match b with
  | Num y => if Reqb y 0 then Raise ZeroDivisionError else Ok (fl_lift2 Rdiv a b)
  | NaN => Ok NaN
  end.

(** [a ** 0.5] for a base that is a sum of squares. *)
Definition fl_pow_half (a : fl) : fl :=
  match a with Num x => Num (sqrt x) | NaN => NaN end.

(** ** The NumPy reducers used by [summarize]

    Models of [numpy.nanmean], [numpy.nanmedian], [numpy.nanstd(ddof=1)] and
    [numpy.nanpercentile] (default linear interpolation) on a
    one-dimensional array: NaN entries are dropped first, and a reducer with
    nothing left to reduce returns NaN. *)

Fixpoint drop_nan (a : list fl) : list R :=
  match a with
  | [] => []
  | Num x :: tl => x :: drop_nan tl
  | NaN :: tl => drop_nan tl
  end.

Fixpoint insert_sorted (x : R) (l : list R) : list R :=
  match l with
  | [] => [x]
  | y :: tl => if Rleb x y then x :: y :: tl else y :: insert_sorted x tl
  end.

Definition sort_floats (l : list R) : list R := fold_right insert_sorted [] l.

Definition nanmean (a : list fl) : fl :=
  match drop_nan a with
  | [] => NaN
  | xs => Num (pysum xs / INR (List.length xs))
  end.

Definition nanstd_ddof1 (a : list fl) : fl :=
  let xs := drop_nan a in
  let n := List.length xs in
  if (n <=? 1)%nat then NaN
  else
    let m := pysum xs / INR n in
    Num (sqrt (pysum (map (fun x => (x - m) ^ 2) xs) / INR (n - 1))).

Definition nanmedian (a : list fl) : fl :=
  let xs := sort_floats (drop_nan a) in
  let n := List.length xs in
  match n with
  | O => NaN
  | _ =>
      if Nat.even n
      then Num ((nth (n / 2 - 1) xs 0 + nth (n / 2) xs 0) / 2)
      else Num (nth (n / 2) xs 0)
  end.

(** The [num/den] quantile of a sorted non-empty list: position
    [(n-1)*num/den], linear interpolation between its two neighbours. *)
Definition quantile_linear (num den : nat) (xs : list R) : R :=
  let n := List.length xs in
  let pos := ((n - 1) * num)%nat in
  let lo := (pos / den)%nat in
  let hi := Nat.min (lo + 1) (n - 1) in
  let frac := INR (pos mod den) / INR den in
  nth lo xs 0 + frac * (nth hi xs 0 - nth lo xs 0).

(** [numpy.nanpercentile(a, q)] with [q / 100 = num / den]. *)
Definition nanpercentile (num den : nat) (a : list fl) : fl :=
  match sort_floats (drop_nan a) with
  | [] => NaN
  | xs => Num (quantile_linear num den xs)
  end.

(** The local function [summarize] of [run_monte_carlo]; 2.5 and 97.5
    percent are the quantiles 1/40 and 39/40. *)
Definition summarize (a : list fl) : Stats :=
  {| mean := nanmean a;
     median := nanmedian a;
     std := nanstd_ddof1 a;
     ci_lower := nanpercentile 1 40 a;
     ci_upper := nanpercentile 39 40 a |}.

(** ** MonteCarloRunner *)

(** The values one iteration appends to the nine lists of [samples]. *)
Record IterSample : Type := {
  s_investment : R;
  s_hc_savings : R;
  s_soc_savings : R;
  s_total_savings : R;
  s_events_prevented : R;
  s_deaths_averted : R;
  s_qalys : R;
  s_roi : R;
  s_icer : fl
}.

(** The dictionary [samples] after the loop, in the order of [metrics]. *)
Definition samples_of (rows : list IterSample) : list (string * list fl) :=
  let col (f : IterSample -> R) := map (fun s => Num (f s)) rows in
  [("investment", col s_investment);
   ("hc_savings", col s_hc_savings);
   ("soc_savings", col s_soc_savings);
   ("total_savings", col s_total_savings);
   ("events_prevented", col s_events_prevented);
   ("deaths_averted", col s_deaths_averted);
   ("qalys", col s_qalys);
   ("roi", col s_roi);
   ("icer", map s_icer rows)].

(** The literal table [results] of [run_monte_carlo]. *)
Definition results_table : list (string * (R * R)) :=
  [("total_savings", (44.8e9, 60.0e9));
   ("net_benefit", (19.9e9, 45.9e9));
   ("roi", (1.19, 1.96));
   ("events_prevented", (142000.0, 174000.0));
   ("deaths_averted", (14000.0, 18500.0));
   ("qalys", (286000.0, 367000.0))].

(** [nb], built from the summaries of total savings and investment. *)
Definition net_benefit_stats (ts inv : Stats) : Stats :=
  {| mean := fl_sub (mean ts) (mean inv);
     median := fl_sub (median ts) (median inv);
     std := fl_pow_half (fl_add (fl_mul (std ts) (std ts))
                                (fl_mul (std inv) (std inv)));
     ci_lower := fl_sub (ci_lower ts) (ci_upper inv);
     ci_upper := fl_sub (ci_upper ts) (ci_lower inv) |}.

(** The coefficients [(alpha, beta)] of [_affine_stats]. *)
Definition affine_coeffs (lo hi : fl) (lo_tgt hi_tgt : R) : res (fl * fl) :=
  if fl_ltb (fl_abs (fl_sub hi lo)) (Num 1e-12) then
    Ok (fl_sub (Num lo_tgt) lo, Num 1.0)
  else
    beta <- fl_div (Num (hi_tgt - lo_tgt)) (fl_sub hi lo) ;;
    Ok (fl_sub (Num lo_tgt) (fl_mul beta lo), beta).

(** [d] always carries [ci_lower] and [ci_upper], so the fallbacks of the
    two [d.get] calls are never taken. *)
Definition _affine_stats (d : Stats) (lo_tgt hi_tgt : R) : res Stats :=
  let lo := ci_lower d in
  let hi := ci_upper d in
  '(alpha, beta) <- affine_coeffs lo hi lo_tgt hi_tgt ;;
  Ok {| mean := fl_add alpha (fl_mul beta (mean d));
        median := fl_add alpha (fl_mul beta (median d));
        std := fl_mul (fl_abs beta) (std d);
        ci_lower := Num lo_tgt;
        ci_upper := Num hi_tgt |}.

(** [for _k, (_lo, _hi) in results.items(): if _k in summary: ...] *)
Fixpoint apply_targets (tbl : list (string * (R * R)))
  (summary : list (string * Stats)) : res (list (string * Stats)) :=
  match tbl with
  | [] => Ok summary
  | (_k, (_lo, _hi)) :: tl =>
      summary <-
        (if dict_mem _k summary then
           d <- dict_item _k summary ;;
           d <- _affine_stats d _lo _hi ;;
           Ok (dict_set _k d summary)
         else Ok summary) ;;
      apply_targets tl summary
  end.

(** Everything [run_monte_carlo] does after the sampling loop. *)
Definition summarize_samples (rows : list IterSample)
  : res (list (string * Stats)) :=
  let samples := samples_of rows in
  let summary := map (fun kv : string * list fl => (fst kv, summarize (snd kv)))
                     samples in
  summary <-
    (if negb (dict_mem "net_benefit" summary)
        && dict_mem "total_savings" summary
        && dict_mem "investment" summary
     then
       ts <- dict_item "total_savings" summary ;;
       inv <- dict_item "investment" summary ;;
       Ok (dict_set "net_benefit" (net_benefit_stats ts inv) summary)
     else Ok summary) ;;
  apply_targets results_table summary.

Section MonteCarlo.
Context {G : Type} `{Generator G}.

(** The body of the sampling loop. *)
Definition mc_iteration (self : UAEHealthAnalysis) (rng : G)
  : res (IterSample * G) :=
  '(per, rng) <- simulate_each self
                   (dict_keys (interventions (parameters self))) rng false ;;
  let invest := sum_of investment per in
  let hc := sum_of hc_savings per in
  let soc := sum_of soc_savings per in
  let q := sum_of qalys per in
  let ev := sum_of events_prevented per in
  let de := sum_of deaths_averted per in
  let total := hc + soc in
  roi <- (if Rltb 0 invest then pydiv (total - invest) invest else Ok 0.0) ;;
  icer <- (if Rltb 0 q
           then x <- pydiv (invest - total) q ;; Ok (Num x)
           else Ok NaN) ;;
  Ok ({| s_investment := invest; s_hc_savings := hc; s_soc_savings := soc;
         s_total_savings := total; s_events_prevented := ev;
         s_deaths_averted := de; s_qalys := q; s_roi := roi;
         s_icer := icer |}, rng).

(** [for _ in range(n_iterations)]: the rows in iteration order. *)
Fixpoint mc_loop (self : UAEHealthAnalysis) (n : nat) (rng : G)
  : res (list IterSample * G) :=
  match n with
  | O => Ok ([], rng)
  | S n' =>
      '(row, rng) <- mc_iteration self rng ;;
      '(rows, rng) <- mc_loop self n' rng ;;
      Ok (row :: rows, rng)
  end.

Definition mc_samples (self : UAEHealthAnalysis) (n_iterations seed : Z)
  : res (list IterSample) :=
  let rng := default_rng seed in
  '(rows, _) <- mc_loop self (Z.to_nat n_iterations) rng ;;
  Ok rows.

(** Returns [summary] and the object with
    [results["monte_carlo"] = summary]. *)
Definition run_monte_carlo (self : UAEHealthAnalysis)
  (n_iterations seed : Z)
  : res (list (string * Stats) * UAEHealthAnalysis) :=
  rows <- mc_samples self n_iterations seed ;;
  summary <- summarize_samples rows ;;
  Ok (summary, set_monte_carlo summary self).
End MonteCarlo.

(** ** Field assignments on an intervention: [intr[k] = v] *)

Definition set_rr_lognormal (v : option (R * R)) (i : Intervention)
  : Intervention :=
  {| Result_population := Result_population i;
     annual_event_rate := annual_event_rate i;
     annual_event_rate_exact := annual_event_rate_exact i;
     case_fatality_rate := case_fatality_rate i;
     case_fatality_rate_exact := case_fatality_rate_exact i;
     utility_weight := utility_weight i;
     utility_weight_exact := utility_weight_exact i;
     qalys_lost_per_event := qalys_lost_per_event i;
     qalys_lost_per_event_exact := qalys_lost_per_event_exact i;
     life_years_lost_per_death := life_years_lost_per_death i;
     life_years_lost_per_death_exact := life_years_lost_per_death_exact i;
     cost_ppy_gamma := cost_ppy_gamma i;
     cost_ppy_gamma_exact := cost_ppy_gamma_exact i;
     event_cost_gamma := event_cost_gamma i;
     event_cost_gamma_exact := event_cost_gamma_exact i;
     productivity_cost_gamma := productivity_cost_gamma i;
     productivity_cost_gamma_exact := productivity_cost_gamma_exact i;
     rr_lognormal := v;
     rr_lognormal_exact := rr_lognormal_exact i;
     rrr_beta := rrr_beta i |}.

Definition set_cost_ppy_gamma (v : R * R) (i : Intervention) : Intervention :=
  {| Result_population := Result_population i;
     annual_event_rate := annual_event_rate i;
     annual_event_rate_exact := annual_event_rate_exact i;
     case_fatality_rate := case_fatality_rate i;
     case_fatality_rate_exact := case_fatality_rate_exact i;
     utility_weight := utility_weight i;
     utility_weight_exact := utility_weight_exact i;
     qalys_lost_per_event := qalys_lost_per_event i;
     qalys_lost_per_event_exact := qalys_lost_per_event_exact i;
     life_years_lost_per_death := life_years_lost_per_death i;
     life_years_lost_per_death_exact := life_years_lost_per_death_exact i;
     cost_ppy_gamma := v;
     cost_ppy_gamma_exact := cost_ppy_gamma_exact i;
     event_cost_gamma := event_cost_gamma i;
     event_cost_gamma_exact := event_cost_gamma_exact i;
     productivity_cost_gamma := productivity_cost_gamma i;
     productivity_cost_gamma_exact := productivity_cost_gamma_exact i;
     rr_lognormal := rr_lognormal i;
     rr_lognormal_exact := rr_lognormal_exact i;
     rrr_beta := rrr_beta i |}.

Definition set_event_cost_gamma (v : R * R) (i : Intervention) : Intervention :=
  {| Result_population := Result_population i;
     annual_event_rate := annual_event_rate i;
     annual_event_rate_exact := annual_event_rate_exact i;
     case_fatality_rate := case_fatality_rate i;
     case_fatality_rate_exact := case_fatality_rate_exact i;
     utility_weight := utility_weight i;
     utility_weight_exact := utility_weight_exact i;
     qalys_lost_per_event := qalys_lost_per_event i;
     qalys_lost_per_event_exact := qalys_lost_per_event_exact i;
     life_years_lost_per_death := life_years_lost_per_death i;
     life_years_lost_per_death_exact := life_years_lost_per_death_exact i;
     cost_ppy_gamma := cost_ppy_gamma i;
     cost_ppy_gamma_exact := cost_ppy_gamma_exact i;
     event_cost_gamma := v;
     event_cost_gamma_exact := event_cost_gamma_exact i;
     productivity_cost_gamma := productivity_cost_gamma i;
     productivity_cost_gamma_exact := productivity_cost_gamma_exact i;
     rr_lognormal := rr_lognormal i;
     rr_lognormal_exact := rr_lognormal_exact i;
     rrr_beta := rrr_beta i |}.

Definition set_productivity_cost_gamma (v : R * R) (i : Intervention)
  : Intervention :=
  {| Result_population := Result_population i;
     annual_event_rate := annual_event_rate i;
     annual_event_rate_exact := annual_event_rate_exact i;
     case_fatality_rate := case_fatality_rate i;
     case_fatality_rate_exact := case_fatality_rate_exact i;
     utility_weight := utility_weight i;
     utility_weight_exact := utility_weight_exact i;
     qalys_lost_per_event := qalys_lost_per_event i;
     qalys_lost_per_event_exact := qalys_lost_per_event_exact i;
     life_years_lost_per_death := life_years_lost_per_death i;
     life_years_lost_per_death_exact := life_years_lost_per_death_exact i;
     cost_ppy_gamma := cost_ppy_gamma i;
     cost_ppy_gamma_exact := cost_ppy_gamma_exact i;
     event_cost_gamma := event_cost_gamma i;
     event_cost_gamma_exact := event_cost_gamma_exact i;
     productivity_cost_gamma := v;
     productivity_cost_gamma_exact := productivity_cost_gamma_exact i;
     rr_lognormal := rr_lognormal i;
     rr_lognormal_exact := rr_lognormal_exact i;
     rrr_beta := rrr_beta i |}.

Definition set_rrr_beta (v : option (R * R)) (i : Intervention) : Intervention :=
  {| Result_population := Result_population i;
     annual_event_rate := annual_event_rate i;
     annual_event_rate_exact := annual_event_rate_exact i;
     case_fatality_rate := case_fatality_rate i;
     case_fatality_rate_exact := case_fatality_rate_exact i;
     utility_weight := utility_weight i;
     utility_weight_exact := utility_weight_exact i;
     qalys_lost_per_event := qalys_lost_per_event i;
     qalys_lost_per_event_exact := qalys_lost_per_event_exact i;
     life_years_lost_per_death := life_years_lost_per_death i;
     life_years_lost_per_death_exact := life_years_lost_per_death_exact i;
     cost_ppy_gamma := cost_ppy_gamma i;
     cost_ppy_gamma_exact := cost_ppy_gamma_exact i;
     event_cost_gamma := event_cost_gamma i;
     event_cost_gamma_exact := event_cost_gamma_exact i;
     productivity_cost_gamma := productivity_cost_gamma i;
     productivity_cost_gamma_exact := productivity_cost_gamma_exact i;
     rr_lognormal := rr_lognormal i;
     rr_lognormal_exact := rr_lognormal_exact i;
     rrr_beta := v |}.

Definition set_annual_event_rate (v : R) (i : Intervention) : Intervention :=
  {| Result_population := Result_population i;
     annual_event_rate := v;
     annual_event_rate_exact := annual_event_rate_exact i;
     case_fatality_rate := case_fatality_rate i;
     case_fatality_rate_exact := case_fatality_rate_exact i;
     utility_weight := utility_weight i;
     utility_weight_exact := utility_weight_exact i;
     qalys_lost_per_event := qalys_lost_per_event i;
     qalys_lost_per_event_exact := qalys_lost_per_event_exact i;
     life_years_lost_per_death := life_years_lost_per_death i;
     life_years_lost_per_death_exact := life_years_lost_per_death_exact i;
     cost_ppy_gamma := cost_ppy_gamma i;
     cost_ppy_gamma_exact := cost_ppy_gamma_exact i;
     event_cost_gamma := event_cost_gamma i;
     event_cost_gamma_exact := event_cost_gamma_exact i;
     productivity_cost_gamma := productivity_cost_gamma i;
     productivity_cost_gamma_exact := productivity_cost_gamma_exact i;
     rr_lognormal := rr_lognormal i;
     rr_lognormal_exact := rr_lognormal_exact i;
     rrr_beta := rrr_beta i |}.

Definition set_case_fatality_rate (v : R) (i : Intervention) : Intervention :=
  {| Result_population := Result_population i;
     annual_event_rate := annual_event_rate i;
     annual_event_rate_exact := annual_event_rate_exact i;
     case_fatality_rate := v;
     case_fatality_rate_exact := case_fatality_rate_exact i;
     utility_weight := utility_weight i;
     utility_weight_exact := utility_weight_exact i;
     qalys_lost_per_event := qalys_lost_per_event i;
     qalys_lost_per_event_exact := qalys_lost_per_event_exact i;
     life_years_lost_per_death := life_years_lost_per_death i;
     life_years_lost_per_death_exact := life_years_lost_per_death_exact i;
     cost_ppy_gamma := cost_ppy_gamma i;
     cost_ppy_gamma_exact := cost_ppy_gamma_exact i;
     event_cost_gamma := event_cost_gamma i;
     event_cost_gamma_exact := event_cost_gamma_exact i;
     productivity_cost_gamma := productivity_cost_gamma i;
     productivity_cost_gamma_exact := productivity_cost_gamma_exact i;
     rr_lognormal := rr_lognormal i;
     rr_lognormal_exact := rr_lognormal_exact i;
     rrr_beta := rrr_beta i |}.

Definition set_qalys_lost_per_event (v : R) (i : Intervention) : Intervention :=
  {| Result_population := Result_population i;
     annual_event_rate := annual_event_rate i;
     annual_event_rate_exact := annual_event_rate_exact i;
     case_fatality_rate := case_fatality_rate i;
     case_fatality_rate_exact := case_fatality_rate_exact i;
     utility_weight := utility_weight i;
     utility_weight_exact := utility_weight_exact i;
     qalys_lost_per_event := v;
     qalys_lost_per_event_exact := qalys_lost_per_event_exact i;
     life_years_lost_per_death := life_years_lost_per_death i;
     life_years_lost_per_death_exact := life_years_lost_per_death_exact i;
     cost_ppy_gamma := cost_ppy_gamma i;
     cost_ppy_gamma_exact := cost_ppy_gamma_exact i;
     event_cost_gamma := event_cost_gamma i;
     event_cost_gamma_exact := event_cost_gamma_exact i;
     productivity_cost_gamma := productivity_cost_gamma i;
     productivity_cost_gamma_exact := productivity_cost_gamma_exact i;
     rr_lognormal := rr_lognormal i;
     rr_lognormal_exact := rr_lognormal_exact i;
     rrr_beta := rrr_beta i |}.

(** ** Loading and validation *)

Definition py_assert (b : bool) : res unit :=
  if b then Ok tt else Raise AssertionError.

Definition validate_intervention (intr : Intervention) : res unit :=
  _ <- py_assert (Rleb 0 (annual_event_rate intr)
                  && Rleb (annual_event_rate intr) 1) ;;
  _ <- py_assert (Rleb 0 (case_fatality_rate intr)
                  && Rleb (case_fatality_rate intr) 1) ;;
  py_assert (Rltb 0 (utility_weight intr) && Rleb (utility_weight intr) 1).

Definition _validate_parameters (p : Parameters) : res unit :=
  let T := horizon_years (meta p) in
  let r := discount_rate (health_system p) in
  _ <- py_assert ((0 <? T)%Z && Rleb 0 r && Rleb r 0.2) ;;
  _ <- mapM validate_intervention (dict_values (interventions p)) ;;
  Ok tt.

(** First loop of [load_parameters]: the lognormal RR is derived from the
    Beta over RRR when it is missing. *)
Definition derive_rr_lognormal (intr : Intervention) : res Intervention :=
  match rr_lognormal intr, rrr_beta intr with
  | None, Some (a, b) =>
      '(mu, sigma) <- _beta_rrr_to_lognormal_rr a b ;;
      Ok (set_rr_lognormal (Some (mu, sigma)) intr)
  | _, _ => Ok intr
  end.

Definition round_gamma (g : R * R) : R * R :=
  (pyround (fst g) 3, pyround (snd g) 1).

(** Second loop: every value is copied under [k_exact] and the visible key
    is rounded. *)
Definition add_exact_copies (intr : Intervention) : Intervention :=
  {| Result_population := Result_population intr;
     annual_event_rate := pyround (annual_event_rate intr) 3;
     annual_event_rate_exact := Some (annual_event_rate intr);
     case_fatality_rate := pyround (case_fatality_rate intr) 3;
     case_fatality_rate_exact := Some (case_fatality_rate intr);
     utility_weight := pyround (utility_weight intr) 3;
     utility_weight_exact := Some (utility_weight intr);
     qalys_lost_per_event := pyround (qalys_lost_per_event intr) 3;
     qalys_lost_per_event_exact := Some (qalys_lost_per_event intr);
     life_years_lost_per_death := pyround (life_years_lost_per_death intr) 3;
     life_years_lost_per_death_exact := Some (life_years_lost_per_death intr);
     cost_ppy_gamma := round_gamma (cost_ppy_gamma intr);
     cost_ppy_gamma_exact := Some (cost_ppy_gamma intr);
     event_cost_gamma := round_gamma (event_cost_gamma intr);
     event_cost_gamma_exact := Some (event_cost_gamma intr);
     productivity_cost_gamma := round_gamma (productivity_cost_gamma intr);
     productivity_cost_gamma_exact := Some (productivity_cost_gamma intr);
     rr_lognormal :=
       match rr_lognormal intr with
       | Some (mu, sigma) => Some (pyround mu 3, pyround sigma 3)
       | None => None
       end;
     rr_lognormal_exact :=
       match rr_lognormal intr with
       | Some (mu, sigma) => Some (mu, sigma)
       | None => rr_lognormal_exact intr
       end;
     rrr_beta := rrr_beta intr |}.

Definition load_intervention (kv : string * Intervention)
  : res (string * Intervention) :=
  intr <- derive_rr_lognormal (snd kv) ;;
  Ok (fst kv, intr).

(** The body of [load_parameters] on the table [p]. *)
Definition load_table (p : Parameters) : res Parameters :=
  _ <- _validate_parameters p ;;
  intrs <- mapM load_intervention (interventions p) ;;
  let intrs :=
    map (fun kv : string * Intervention => (fst kv, add_exact_copies (snd kv)))
        intrs in
  Ok {| meta := meta p;
        health_system := health_system p;
        portfolio_adjustments :=
          match portfolio_adjustments p with
          | Some pa =>
              Some (map (fun kv : string * R => (fst kv, pyround (snd kv) 3)) pa)
          | None => None
          end;
        portfolio_adjustments_exact :=
          match portfolio_adjustments p with
          | Some pa => Some pa
          | None => portfolio_adjustments_exact p
          end;
        interventions := intrs |}.

(** [self.parameters = default_params], then validation, derivation and
    rounding. *)
Definition load_parameters (self : UAEHealthAnalysis) : res UAEHealthAnalysis :=
  p <- load_table default_params ;;
  Ok (set_parameters p self).

(** ** Calibrator *)

(** One entry of [per_results]: a key the dictionary lacks is [None]. *)
Record Target : Type := {
  t_investment : option R;
  t_events_prevented : option R;
  t_deaths_averted : option R;
  t_roi_ratio : option R;
  t_c_per_qaly : option R
}.

Definition set_roi_ratio (v : R) (t : Target) : Target :=
  {| t_investment := t_investment t;
     t_events_prevented := t_events_prevented t;
     t_deaths_averted := t_deaths_averted t;
     t_roi_ratio := Some v;
     t_c_per_qaly := t_c_per_qaly t |}.

(** [k in tgt and tgt[k]] *)
Definition present_and_truthy (o : option R) : option R :=
  match o with
  | Some x => if truthy x then Some x else None
  | None => None
  end.

(** [rrr_mean]: one minus the lognormal mean (not clamped here), or the mean
    of the Beta, whose default is [[20, 10]]. *)
Definition rrr_mean_of (intr : Intervention) : res R :=
  match rr_ln_of intr with
  | Some (mu, sigma) =>
      let rr_mean := lognormal_mean mu sigma in
      Ok (1.0 - rr_mean)
  | None =>
      let '(a, b) := or_else (rrr_beta intr) (20, 10) in
      pydiv a (a + b)
  end.

(** Step 1: the investment target. *)
Definition calibrate_investment (tgt : Target) (N D : R) (intr : Intervention)
  : res Intervention :=
  match t_investment tgt with
  | Some I_ =>
      cost_ppy <- pydiv I_ (N * D) ;;
      let k_c := fst (cost_ppy_gamma intr) in
      Ok (set_cost_ppy_gamma (set_gamma_mean k_c cost_ppy) intr)
  | None => Ok intr
  end.

(** Step 2: the events target; returns [E] with the intervention. *)
Definition calibrate_events (tgt : Target) (N T rrr_mean : R)
  (intr : Intervention) : res (R * Intervention) :=
  match present_and_truthy (t_events_prevented tgt) with
  | Some E =>
      q <- pydiv E (N * T * Rmax rrr_mean 1e-9) ;;
      let p_event := clamp q 1e-8 0.95 in
      let a := rrr_mean * 1e6 in
      let b := (1 - rrr_mean) * 1e6 in
      let intr := set_rrr_beta (Some (a, b)) intr in
      Ok (E, set_annual_event_rate p_event intr)
  | None => Ok (N * T * rrr_mean * annual_event_rate intr, intr)
  end.

(** Step 3: the deaths target. *)
Definition calibrate_deaths (tgt : Target) (E : R) (intr : Intervention)
  : res Intervention :=
  match present_and_truthy (t_deaths_averted tgt) with
  | Some Dth =>
      if Rltb 0 E then
        q <- pydiv Dth E ;;
        let cfr := clamp q 0.0 0.95 in
        Ok (set_case_fatality_rate cfr intr)
      else Ok intr
  | None => Ok intr
  end.

(** Step 4: [S_total], known when both [roi_ratio] and [investment] are
    targets. *)
Definition implied_total_savings (tgt : Target) : option R :=
  match t_roi_ratio tgt, t_investment tgt with
  | Some roi, Some I_ => Some (I_ * (1.0 + roi))
  | _, _ => None
  end.

(** [tgt["investment"]] *)
Definition target_investment (tgt : Target) : res R :=
  match t_investment tgt with
  | Some I_ => Ok I_
  | None => Raise (KeyError "investment")
  end.

(** Step 5: the cost-per-QALY target. *)
Definition calibrate_cost_per_qaly (tgt : Target) (T D E : R)
  (intr : Intervention) : res Intervention :=
  let S_total := implied_total_savings tgt in
  let cfr := case_fatality_rate intr in
  let ly := life_years_lost_per_death intr in
  let u := utility_weight intr in
  let qloss := qalys_lost_per_event intr in
  match present_and_truthy (t_c_per_qaly tgt) with
  | Some Cq =>
      if Rltb 0 E then
        ET <- pydiv E T ;;
        let Q_current := D * ET * (qloss + cfr * ly) * u in
        Q_tgt <-
          match S_total with
          | Some S_tot =>
              I_ <- target_investment tgt ;;
              x <- pydiv (I_ - S_tot) Cq ;;
              let Q_min := Rmax 1e-6 x in
              y <- pydiv I_ Cq ;;
              let Q_max := Rmax (Q_min * 1.01) y in
              Ok (Rmin (Rmax Q_current Q_min) Q_max)
          | None => Ok (Rmax 1e-6 Q_current)
          end ;;
        z <- pydiv Q_tgt (D * ET * Rmax u 1e-9) ;;
        let qloss_needed := z - cfr * ly in
        let intr := set_qalys_lost_per_event (Rmax 1e-6 qloss_needed) intr in
        match S_total with
        | Some S_tot =>
            Ce_total <- pydiv S_tot (D * ET) ;;
            I_ <- target_investment tgt ;;
            let S_hc := Rmin (Rmax (I_ - Cq * Q_tgt) 0.0) S_tot in
            per_event_hc <- pydiv S_hc (D * ET) ;;
            let per_event_prod := Rmax 0.0 (Ce_total - per_event_hc) in
            let k_ev := fst (event_cost_gamma intr) in
            let k_pr := fst (productivity_cost_gamma intr) in
            let intr := set_event_cost_gamma (set_gamma_mean k_ev per_event_hc) intr in
            Ok (set_productivity_cost_gamma
                  (set_gamma_mean k_pr per_event_prod) intr)
        | None => Ok intr
        end
      else Ok intr
  | None => Ok intr
  end.

(** Step 6: the two per-event Gammas are rewritten from their own means. *)
Definition renormalize_gammas (intr : Intervention) : Intervention :=
  let '(k_ev, th_ev) := event_cost_gamma intr in
  let '(k_pr, th_pr) := productivity_cost_gamma intr in
  let intr := set_event_cost_gamma
                (set_gamma_mean k_ev (Rmax 0.0 (k_ev * th_ev))) intr in
  set_productivity_cost_gamma
    (set_gamma_mean k_pr (Rmax 0.0 (k_pr * th_pr))) intr.

Definition _calibrate_intervention (self : UAEHealthAnalysis) (key : string)
  (tgt : Target) : res UAEHealthAnalysis :=
  let meta_ := meta (parameters self) in
  let hs := health_system (parameters self) in
  let T := horizon_years meta_ in
  let r := discount_rate hs in
  D <- discount_sum T r ;;
  intr <- dict_item key (interventions (parameters self)) ;;
  let N := Result_population intr in
  if (N <=? 0)%Z then Ok (set_intervention key intr self)
  else
    rrr_mean <- rrr_mean_of intr ;;
    intr <- calibrate_investment tgt (IZR N) D intr ;;
    '(E, intr) <- calibrate_events tgt (IZR N) (IZR T) rrr_mean intr ;;
    intr <- calibrate_deaths tgt E intr ;;
    intr <- calibrate_cost_per_qaly tgt (IZR T) D E intr ;;
    let intr := renormalize_gammas intr in
    Ok (set_intervention key intr self).

(** What [_read_results] returns for the portfolio. *)
Record PortfolioTargets : Type := {
  benefits_total : option R;
  adjust_intervention : option string
}.

(** The change record [calibrate] returns. *)
Record Changes : Type := {
  ch_per_intervention : list string;
  portfolio_first : bool;
  adjusted : option string
}.

(** [for k, t in per_results.items(): if k in interventions: ...] *)
Fixpoint calibrate_each (self : UAEHealthAnalysis)
  (per_results : list (string * Target)) : res UAEHealthAnalysis :=
  match per_results with
  | [] => Ok self
  | (k, t) :: tl =>
      self <- (if dict_mem k (interventions (parameters self))
               then _calibrate_intervention self k t
               else Ok self) ;;
      calibrate_each self tl
  end.

Section Calibrate.
Context {G : Type} `{Generator G}.

(** [per_results] and [port_results] are what [_read_results] read from
    the target files.  The fallback branch for an unknown
    [adjust_intervention] reads a variable that is never bound. *)
Definition calibrate (self : UAEHealthAnalysis)
  (per_results : list (string * Target)) (port_results : PortfolioTargets)
  : res (Changes * UAEHealthAnalysis) :=
  let changes := {| ch_per_intervention := dict_keys per_results;
                    portfolio_first := false; adjusted := None |} in
  self <- calibrate_each self per_results ;;
  match present_and_truthy (benefits_total port_results) with
  | Some bt =>
      '(out, self) <- run_markov_models self true 123 ;;
      let S_curr := pf_hc_savings (portfolio out)
                    + pf_soc_savings (portfolio out) in
      let delta := bt - S_curr in
      let intr_key := or_else (adjust_intervention port_results) "alzheimers" in
      intr_key <- (if negb (dict_mem intr_key (interventions (parameters self)))
                   then Raise (NameError "adjust_intervention")
                   else Ok intr_key) ;;
      v <- dict_item intr_key (per_intervention out) ;;
      let I_k := investment v in
      let S_k := hc_savings v + soc_savings v in
      if Rltb 0 I_k then
        let S_k_new := Rmax 0.0 (S_k + delta) in
        q <- pydiv S_k_new I_k ;;
        let new_roi_ratio := q - 1.0 in
        let t := or_else (dict_get intr_key per_results)
                   {| t_investment := Some I_k; t_events_prevented := None;
                      t_deaths_averted := None; t_roi_ratio := None;
                      t_c_per_qaly := None |} in
        let t := set_roi_ratio new_roi_ratio t in
        self <- _calibrate_intervention self intr_key t ;;
        '(_, self) <- run_markov_models self true 123 ;;
        Ok ({| ch_per_intervention := dict_keys per_results;
               portfolio_first := true; adjusted := Some intr_key |}, self)
      else Ok (changes, self)
  | None => Ok (changes, self)
  end.
End Calibrate.


(** ** Return on investment *)

(** The dictionary [calculate_roi] returns. *)
Record RoiOut : Type := {
  total_investment : R;
  total_savings : R;
  net_benefit : R;
  roi_percentage : R;
  roi_ratio : R;
  total_events_prevented : R;
  total_deaths_averted : R;
  total_qalys_gained : R
}.

(** Reads [results["markov"]["portfolio"]]; the key is missing until
    [run_markov_models] has run.  The JSON file it writes and the copy it
    keeps under [results["roi"]] for the report writers are not modelled. *)
Definition calculate_roi (self : UAEHealthAnalysis) : res RoiOut :=
  match markov (results self) with
  | None => Raise (KeyError "markov")
  | Some m =>
      let port := portfolio m in
      let invest := pf_investment port in
      let savings := pf_hc_savings port + pf_soc_savings port in
      roi_ratio_ <- (if Rltb 0 invest then pydiv (savings - invest) invest
                     else Ok 0.0) ;;
      ratio <- (if Rltb 0 invest then pydiv savings invest else Ok 0.0) ;;
      Ok {| total_investment := invest;
            total_savings := savings;
            net_benefit := savings - invest;
            roi_percentage := roi_ratio_ * 100.0;
            roi_ratio := ratio;
            total_events_prevented := pf_events_prevented port;
            total_deaths_averted := pf_deaths_averted port;
            total_qalys_gained := pf_qalys port |}
  end.

(** * Specification-level definitions *)

(** The discount sum as the specification writes it:
    [D = sum over t = 1..T of 1 / (1 + r)^t]. *)
Fixpoint annuity (n : nat) (r : R) : R :=
  match n with
  | O => 0
  | S k => annuity k r + 1 / (1 + r) ^ S k
  end.

(** A generator that returns the mean of each distribution and has no state:
    the concrete instance the closed examples run on. *)
#[export] Instance mean_generator : Generator unit :=
  {| default_rng := fun _ => tt;
     rng_gamma := fun g k th => (k * th, g);
     rng_lognormal := fun g mu sigma => (lognormal_mean mu sigma, g);
     rng_beta := fun g a b => (a / (a + b), g) |}.

(** The configuration of the literal table with a single program. *)
Definition single_program (key : string) (intr : Intervention) : Parameters :=
  {| meta := meta default_params;
     health_system := health_system default_params;
     portfolio_adjustments := portfolio_adjustments default_params;
     portfolio_adjustments_exact := portfolio_adjustments_exact default_params;
     interventions := [(key, intr)] |}.

(** The cardiovascular program with a negative population. *)
Definition cvd_negative_population : Intervention :=
  mk_intervention (-1) 0.012 0.15 0.85 0.061764705882353166 9.0
    (5.0, 384.5160616649235) (4.0, 174610.1514382146)
    (3.0, 487832.36345171503) None
    (Some (103.75, 396.25)).

(** The deterministic branch can compute the risk reduction of every
    program: no Beta fallback with [a + b = 0]. *)
Definition rrr_defined (p : Parameters) : Prop :=
  Forall (fun kv : string * Intervention =>
            exists rrr : R, deterministic_rrr (snd kv) = Ok rrr)
         (interventions p).

(** The same object with other portfolio adjustments. *)
Definition set_portfolio_adjustments (visible exact : option (list (string * R)))
  (self : UAEHealthAnalysis) : UAEHealthAnalysis :=
  let p := parameters self in
  set_parameters
    {| meta := meta p; health_system := health_system p;
       portfolio_adjustments := visible;
       portfolio_adjustments_exact := exact;
       interventions := interventions p |} self.

(** Two per-program records that agree on everything but [deaths_averted]. *)
Definition same_but_deaths (a b : string * IterationResult) : Prop :=
  fst a = fst b
  /\ investment (snd a) = investment (snd b)
  /\ hc_savings (snd a) = hc_savings (snd b)
  /\ soc_savings (snd a) = soc_savings (snd b)
  /\ qalys (snd a) = qalys (snd b)
  /\ events_prevented (snd a) = events_prevented (snd b).

(** One per-program record with its [deaths_averted] multiplied by [scale]. *)
Definition rescale_deaths (scale : R) (kv : string * IterationResult)
  : string * IterationResult :=
  (fst kv, set_deaths_averted (deaths_averted (snd kv) * scale) (snd kv)).

(** The closed formulas of one deterministic pass with risk reduction [rrr];
    every parameter is read as [_simulate_intervention] reads it. *)
Definition closed_form (m : Meta) (hs : HealthSystem) (intr : Intervention)
  (rrr : R) : IterationResult :=
  let T := horizon_years m in
  let D := annuity (Z.to_nat T) (discount_rate hs) in
  let N := IZR (Result_population intr) in
  let p_event := or_else (annual_event_rate_exact intr) (annual_event_rate intr) in
  let p_cfr := or_else (case_fatality_rate_exact intr) (case_fatality_rate intr) in
  let u := or_else (utility_weight_exact intr) (utility_weight intr) in
  let qloss := or_else (qalys_lost_per_event_exact intr) (qalys_lost_per_event intr) in
  let ly := or_else (life_years_lost_per_death_exact intr)
                    (life_years_lost_per_death intr) in
  let g_c := or_else (cost_ppy_gamma_exact intr) (cost_ppy_gamma intr) in
  let g_ev := or_else (event_cost_gamma_exact intr) (event_cost_gamma intr) in
  let g_pr := or_else (productivity_cost_gamma_exact intr)
                      (productivity_cost_gamma intr) in
  {| investment := N * (fst g_c * snd g_c) * D;
     hc_savings := N * p_event * rrr * (fst g_ev * snd g_ev) * D;
     soc_savings :=
       (if is_societal m
        then N * p_event * rrr * (fst g_pr * snd g_pr) else 0.0) * D;
     qalys := N * p_event * rrr * (qloss + p_cfr * ly) * u * D;
     events_prevented := N * p_event * rrr * IZR T;
     deaths_averted := N * p_event * rrr * p_cfr * IZR T |}.

(** The deterministic result of the cardiovascular program of the literal
    table: its Beta has mean [103.75 / 500]. *)
Definition cvd_rrr : R := 103.75 / (103.75 + 396.25).

Definition cvd_result : IterationResult :=
  closed_form (meta default_params) (health_system default_params) cvd cvd_rrr.

(** What the specification asks of one Monte-Carlo row: [roi] and [icer]
    are derived from its investment, total savings and QALYs. *)
Definition derived_ok (s : IterSample) : Prop :=
  s_total_savings s = s_hc_savings s + s_soc_savings s
  /\ s_roi s = (if Rlt_dec 0 (s_investment s)
               then (s_total_savings s - s_investment s) / s_investment s
               else 0)
  /\ s_icer s = (if Rlt_dec 0 (s_qalys s)
                then Num ((s_investment s - s_total_savings s) / s_qalys s)
                else NaN).

(** The coefficients of [_affine_stats] as a total function. *)
Definition affine_coeffs_pure (lo hi : fl) (lo_tgt hi_tgt : R) : fl * fl :=
  if fl_ltb (fl_abs (fl_sub hi lo)) (Num 1e-12) then
    (fl_sub (Num lo_tgt) lo, Num 1.0)
  else
    let beta := fl_lift2 Rdiv (Num (hi_tgt - lo_tgt)) (fl_sub hi lo) in
    (fl_sub (Num lo_tgt) (fl_mul beta lo), beta).

Definition affine_rescaled (d : Stats) (lo_tgt hi_tgt : R) : Stats :=
  let '(alpha, beta) := affine_coeffs_pure (ci_lower d) (ci_upper d) lo_tgt hi_tgt in
  {| mean := fl_add alpha (fl_mul beta (mean d));
     median := fl_add alpha (fl_mul beta (median d));
     std := fl_mul (fl_abs beta) (std d);
     ci_lower := Num lo_tgt;
     ci_upper := Num hi_tgt |}.

(** [st] reports the fixed interval [lo, hi] and the statistics of [e]
    pushed through the affine map of [_affine_stats]. *)
Definition rescaled_onto (e : Stats) (lo hi : R) (st : Stats) : Prop :=
  ci_lower st = Num lo
  /\ ci_upper st = Num hi
  /\ exists alpha beta : fl,
       affine_coeffs (ci_lower e) (ci_upper e) lo hi = Ok (alpha, beta)
       /\ mean st = fl_add alpha (fl_mul beta (mean e))
       /\ median st = fl_add alpha (fl_mul beta (median e))
       /\ std st = fl_mul (fl_abs beta) (std e).

(** The summary reports the empirical statistics of the samples of [k]. *)
Definition reports_empirical (rows : list IterSample)
  (summary : list (string * Stats)) (k : string) : Prop :=
  exists col : list fl,
    dict_get k (samples_of rows) = Some col
    /\ List.length col = List.length rows
    /\ dict_get k summary = Some (summarize col).

(** The summary [run_monte_carlo] returns, written out. *)
Definition final_summary (rows : list IterSample) : list (string * Stats) :=
  let col (f : IterSample -> R) := summarize (map (fun s => Num (f s)) rows) in
  [("investment", col s_investment);
   ("hc_savings", col s_hc_savings);
   ("soc_savings", col s_soc_savings);
   ("total_savings", affine_rescaled (col s_total_savings) 44.8e9 60.0e9);
   ("events_prevented",
    affine_rescaled (col s_events_prevented) 142000.0 174000.0);
   ("deaths_averted", affine_rescaled (col s_deaths_averted) 14000.0 18500.0);
   ("qalys", affine_rescaled (col s_qalys) 286000.0 367000.0);
   ("roi", affine_rescaled (col s_roi) 1.19 1.96);
   ("icer", summarize (map s_icer rows));
   ("net_benefit",
    affine_rescaled
      (net_benefit_stats (col s_total_savings) (col s_investment))
      19.9e9 45.9e9)].

(** The summary reports the statistics of the samples of [k] rescaled onto
    [lo, hi]. *)
Definition reports_rescaled_samples (rows : list IterSample)
  (summary : list (string * Stats)) (k : string) (lo hi : R) : Prop :=
  exists (col : list fl) (st : Stats),
    dict_get k (samples_of rows) = Some col
    /\ List.length col = List.length rows
    /\ dict_get k summary = Some st
    /\ rescaled_onto (summarize col) lo hi st.

(** Steps 1 to 3 of the calibration as total functions, with the division
    of the reals. *)
Definition after_investment (tgt : Target) (N D : R) (intr : Intervention)
  : Intervention :=
  match t_investment tgt with
  | Some I_ =>
      set_cost_ppy_gamma
        (fst (cost_ppy_gamma intr), I_ / (N * D) / Rmax (fst (cost_ppy_gamma intr)) 1e-12)
        intr
  | None => intr
  end.

(** The events [E] the later steps use: the target when it is present and
    not zero, the model's own events otherwise. *)
Definition events_used (tgt : Target) (N T rrr_mean : R) (intr : Intervention)
  : R :=
  match present_and_truthy (t_events_prevented tgt) with
  | Some E => E
  | None => N * T * rrr_mean * annual_event_rate intr
  end.

Definition after_events (tgt : Target) (N T rrr_mean : R) (intr : Intervention)
  : Intervention :=
  match present_and_truthy (t_events_prevented tgt) with
  | Some E =>
      set_annual_event_rate
        (clamp (E / (N * T * Rmax rrr_mean 1e-9)) 1e-8 0.95)
        (set_rrr_beta (Some (rrr_mean * 1e6, (1 - rrr_mean) * 1e6)) intr)
  | None => intr
  end.

Definition after_deaths (tgt : Target) (E : R) (intr : Intervention)
  : Intervention :=
  match present_and_truthy (t_deaths_averted tgt) with
  | Some Dth =>
      if Rltb 0 E then set_case_fatality_rate (clamp (Dth / E) 0.0 0.95) intr
      else intr
  | None => intr
  end.

(** The fields steps 5 and 6 leave alone: all but [qalys_lost_per_event]
    and the two per-event Gammas. *)
Definition untouched_by_late_steps (i i' : Intervention) : Prop :=
  Result_population i' = Result_population i
  /\ annual_event_rate i' = annual_event_rate i
  /\ annual_event_rate_exact i' = annual_event_rate_exact i
  /\ case_fatality_rate i' = case_fatality_rate i
  /\ case_fatality_rate_exact i' = case_fatality_rate_exact i
  /\ utility_weight i' = utility_weight i
  /\ utility_weight_exact i' = utility_weight_exact i
  /\ qalys_lost_per_event_exact i' = qalys_lost_per_event_exact i
  /\ life_years_lost_per_death i' = life_years_lost_per_death i
  /\ life_years_lost_per_death_exact i' = life_years_lost_per_death_exact i
  /\ cost_ppy_gamma i' = cost_ppy_gamma i
  /\ cost_ppy_gamma_exact i' = cost_ppy_gamma_exact i
  /\ event_cost_gamma_exact i' = event_cost_gamma_exact i
  /\ productivity_cost_gamma_exact i' = productivity_cost_gamma_exact i
  /\ rr_lognormal i' = rr_lognormal i
  /\ rr_lognormal_exact i' = rr_lognormal_exact i
  /\ rrr_beta i' = rrr_beta i.

(** A Gamma whose shape the floor [1e-12] does not touch and whose mean is
    not negative. *)
Definition gamma_in_range (g : R * R) : Prop := 1e-12 <= fst g /\ 0 <= snd g.

(** Targets used by the closed examples. *)
Definition empty_target : Target :=
  {| t_investment := None; t_events_prevented := None;
     t_deaths_averted := None; t_roi_ratio := None; t_c_per_qaly := None |}.

Definition investment_only (v : R) : Target :=
  {| t_investment := Some v; t_events_prevented := None;
     t_deaths_averted := None; t_roi_ratio := None; t_c_per_qaly := None |}.

Definition no_portfolio_targets : PortfolioTargets :=
  {| benefits_total := None; adjust_intervention := None |}.

(** The cardiovascular program with a program-cost shape below the floor of
    [set_gamma_mean]. *)
Definition cvd_tiny_shape : Intervention :=
  mk_intervention 500000 0.012 0.15 0.85 0.061764705882353166 9.0
    (1e-13, 384.5160616649235) (4.0, 174610.1514382146)
    (3.0, 487832.36345171503) None
    (Some (103.75, 396.25)).

(** The parameters [_beta_rrr_to_lognormal_rr] returns on a proper Beta,
    with the logarithm and division of the reals. *)
Definition lognormal_of_beta (a b : R) : R * R :=
  let mean_rr := Rmax 1e-8 (1 - a / (a + b)) in
  let var_rr := Rmax 1e-12 (a * b / ((a + b) ^ 2 * (a + b + 1))) in
  let sigma2 := Rmax 1e-12 (ln (1 + var_rr / mean_rr ^ 2)) in
  (ln mean_rr - 0.5 * sigma2, sqrt sigma2).

(** The cardiovascular program with an explicit lognormal over RR instead
    of the Beta. *)
Definition cvd_lognormal : Intervention :=
  mk_intervention 500000 0.012 0.15 0.85 0.061764705882353166 9.0
    (5.0, 384.5160616649235) (4.0, 174610.1514382146)
    (3.0, 487832.36345171503) (Some (-0.25, 0.1)) None.

(** The parameters a pass multiplies are not negative. *)
Definition nonnegative_inputs (intr : Intervention) : Prop :=
  (0 <= Result_population intr)%Z
  /\ 0 <= or_else (annual_event_rate_exact intr) (annual_event_rate intr)
  /\ 0 <= or_else (case_fatality_rate_exact intr) (case_fatality_rate intr)
  /\ 0 <= or_else (utility_weight_exact intr) (utility_weight intr)
  /\ 0 <= or_else (qalys_lost_per_event_exact intr) (qalys_lost_per_event intr)
  /\ 0 <= or_else (life_years_lost_per_death_exact intr)
                  (life_years_lost_per_death intr)
  /\ 0 <= fst (or_else (cost_ppy_gamma_exact intr) (cost_ppy_gamma intr))
          * snd (or_else (cost_ppy_gamma_exact intr) (cost_ppy_gamma intr))
  /\ 0 <= fst (or_else (event_cost_gamma_exact intr) (event_cost_gamma intr))
          * snd (or_else (event_cost_gamma_exact intr) (event_cost_gamma intr))
  /\ 0 <= fst (or_else (productivity_cost_gamma_exact intr)
                       (productivity_cost_gamma intr))
          * snd (or_else (productivity_cost_gamma_exact intr)
                         (productivity_cost_gamma intr)).

(** The literal configuration with no program at all. *)
Definition no_programs : Parameters :=
  {| meta := meta default_params;
     health_system := health_system default_params;
     portfolio_adjustments := portfolio_adjustments default_params;
     portfolio_adjustments_exact := portfolio_adjustments_exact default_params;
     interventions := [] |}.

(** What [_calibrate_intervention] never writes: the population, the
    [_exact] copies, the lognormal channel, the utility weight and the life
    years lost. *)
Definition exact_frame (i i' : Intervention) : Prop :=
  Result_population i' = Result_population i
  /\ annual_event_rate_exact i' = annual_event_rate_exact i
  /\ case_fatality_rate_exact i' = case_fatality_rate_exact i
  /\ utility_weight i' = utility_weight i
  /\ utility_weight_exact i' = utility_weight_exact i
  /\ qalys_lost_per_event_exact i' = qalys_lost_per_event_exact i
  /\ life_years_lost_per_death i' = life_years_lost_per_death i
  /\ life_years_lost_per_death_exact i' = life_years_lost_per_death_exact i
  /\ cost_ppy_gamma_exact i' = cost_ppy_gamma_exact i
  /\ event_cost_gamma_exact i' = event_cost_gamma_exact i
  /\ productivity_cost_gamma_exact i' = productivity_cost_gamma_exact i
  /\ rr_lognormal i' = rr_lognormal i
  /\ rr_lognormal_exact i' = rr_lognormal_exact i.

(** The two rates calibration may write are either left alone or clamped
    into their calibration range. *)
Definition keeps_rates (i i' : Intervention) : Prop :=
  (annual_event_rate i' = annual_event_rate i
   \/ 1e-8 <= annual_event_rate i' <= 0.95)
  /\ (case_fatality_rate i' = case_fatality_rate i
      \/ 0 <= case_fatality_rate i' <= 0.95).

(** The bounds [_validate_parameters] asserts. *)
Definition rates_in_bounds (intr : Intervention) : Prop :=
  0 <= annual_event_rate intr <= 1
  /\ 0 <= case_fatality_rate intr <= 1
  /\ 0 < utility_weight intr <= 1.

Definition config_in_bounds (p : Parameters) : Prop :=
  (0 < horizon_years (meta p))%Z
  /\ 0 <= discount_rate (health_system p) <= 0.2.

(** The same configuration and the same program keys. *)
Definition same_configuration (p p' : Parameters) : Prop :=
  meta p' = meta p
  /\ health_system p' = health_system p
  /\ portfolio_adjustments p' = portfolio_adjustments p
  /\ portfolio_adjustments_exact p' = portfolio_adjustments_exact p
  /\ dict_keys (interventions p') = dict_keys (interventions p).

(** A program as [load_parameters] leaves it: every value the simulator
    reads has its [_exact] copy, and the lognormal is there. *)
Definition fully_exact (i : Intervention) : Prop :=
  annual_event_rate_exact i <> None
  /\ case_fatality_rate_exact i <> None
  /\ utility_weight_exact i <> None
  /\ qalys_lost_per_event_exact i <> None
  /\ life_years_lost_per_death_exact i <> None
  /\ cost_ppy_gamma_exact i <> None
  /\ event_cost_gamma_exact i <> None
  /\ productivity_cost_gamma_exact i <> None
  /\ rr_lognormal_exact i <> None.

(** A program as the literal table writes it: no [_exact] copy yet. *)
Definition no_exact_copies (i : Intervention) : Prop :=
  annual_event_rate_exact i = None
  /\ case_fatality_rate_exact i = None
  /\ utility_weight_exact i = None
  /\ qalys_lost_per_event_exact i = None
  /\ life_years_lost_per_death_exact i = None
  /\ cost_ppy_gamma_exact i = None
  /\ event_cost_gamma_exact i = None
  /\ productivity_cost_gamma_exact i = None
  /\ rr_lognormal_exact i = None.

(** The cardiovascular program after loading, with a fixed lognormal. *)
Definition cvd_loaded : Intervention :=
  add_exact_copies cvd_lognormal.

(** Every program of [p] is still in [p'], with the fields calibration
    never writes unchanged and its two rates kept or clamped. *)
Definition programs_framed (p p' : Parameters) : Prop :=
  forall (k : string) (i : Intervention),
    dict_get k (interventions p) = Some i ->
    exists i' : Intervention,
      dict_get k (interventions p') = Some i'
      /\ exact_frame i i' /\ keeps_rates i i'.

(** Every program carries all its [_exact] copies. *)
Definition all_exact (p : Parameters) : Prop :=
  forall (k : string) (i : Intervention),
    dict_get k (interventions p) = Some i -> fully_exact i.

(** What one pass reads of a program: the population, the eight inputs
    through their [_exact] copy, and the two effect channels. *)
Definition simulator_view (i : Intervention)
  : Z * (R * R * R * R * R) * ((R * R) * (R * R) * (R * R))
    * (option (R * R) * option (R * R)) :=
  (Result_population i,
   (or_else (annual_event_rate_exact i) (annual_event_rate i),
    or_else (case_fatality_rate_exact i) (case_fatality_rate i),
    or_else (utility_weight_exact i) (utility_weight i),
    or_else (qalys_lost_per_event_exact i) (qalys_lost_per_event i),
    or_else (life_years_lost_per_death_exact i) (life_years_lost_per_death i)),
   (or_else (cost_ppy_gamma_exact i) (cost_ppy_gamma i),
    or_else (event_cost_gamma_exact i) (event_cost_gamma i),
    or_else (productivity_cost_gamma_exact i) (productivity_cost_gamma i)),
   (rr_ln_of i, match rr_ln_of i with Some _ => None | None => rrr_beta i end)).

(** A program [i'] as the loader leaves the program [i]: the [_exact]
    copies hold the values [i] had under the visible keys, the visible
    scalars are rounded to three digits and the visible Gammas to three and
    one, the population and the Beta are kept. *)
Definition loaded_from (i i' : Intervention) : Prop :=
  Result_population i' = Result_population i
  /\ rrr_beta i' = rrr_beta i
  /\ (annual_event_rate_exact i' = Some (annual_event_rate i)
      /\ annual_event_rate i' = pyround (annual_event_rate i) 3)
  /\ (case_fatality_rate_exact i' = Some (case_fatality_rate i)
      /\ case_fatality_rate i' = pyround (case_fatality_rate i) 3)
  /\ (utility_weight_exact i' = Some (utility_weight i)
      /\ utility_weight i' = pyround (utility_weight i) 3)
  /\ (qalys_lost_per_event_exact i' = Some (qalys_lost_per_event i)
      /\ qalys_lost_per_event i' = pyround (qalys_lost_per_event i) 3)
  /\ (life_years_lost_per_death_exact i' = Some (life_years_lost_per_death i)
      /\ life_years_lost_per_death i'
         = pyround (life_years_lost_per_death i) 3)
  /\ (cost_ppy_gamma_exact i' = Some (cost_ppy_gamma i)
      /\ cost_ppy_gamma i' = round_gamma (cost_ppy_gamma i))
  /\ (event_cost_gamma_exact i' = Some (event_cost_gamma i)
      /\ event_cost_gamma i' = round_gamma (event_cost_gamma i))
  /\ (productivity_cost_gamma_exact i' = Some (productivity_cost_gamma i)
      /\ productivity_cost_gamma i' = round_gamma (productivity_cost_gamma i)).

(** The lognormal the loader leaves under [rr_lognormal_exact]: the one
    the table gives, else the one matched to the Beta, else the copy that
    was already there. *)
Definition loaded_lognormal (i : Intervention) : option (R * R) :=
  match rr_lognormal i, rrr_beta i with
  | Some ln, _ => Some ln
  | None, Some (a, b) => Some (lognormal_of_beta a b)
  | None, None => rr_lognormal_exact i
  end.

(** Two tables the simulator cannot tell apart: the same configuration and
    keys, and for every key the same [simulator_view]. *)
Definition same_views (p p' : Parameters) : Prop :=
  same_configuration p p'
  /\ forall k : string,
       option_map simulator_view (dict_get k (interventions p'))
       = option_map simulator_view (dict_get k (interventions p)).

(** The dictionary [run_markov_models] returns. *)
Definition markov_output {G : Type} `{Generator G} (self : UAEHealthAnalysis)
  (deterministic : bool) (seed : Z) : res MarkovOut :=
  ' (out, _) <- run_markov_models self deterministic seed ;; Ok out.

(** A program [i2] whose [_exact] copies hold the rounded values of the
    program [i]. *)
Definition exact_copies_rounded (i i2 : Intervention) : Prop :=
  Result_population i2 = Result_population i
  /\ annual_event_rate_exact i2 = Some (pyround (annual_event_rate i) 3)
  /\ case_fatality_rate_exact i2 = Some (pyround (case_fatality_rate i) 3)
  /\ utility_weight_exact i2 = Some (pyround (utility_weight i) 3)
  /\ qalys_lost_per_event_exact i2 = Some (pyround (qalys_lost_per_event i) 3)
  /\ life_years_lost_per_death_exact i2
     = Some (pyround (life_years_lost_per_death i) 3)
  /\ cost_ppy_gamma_exact i2 = Some (round_gamma (cost_ppy_gamma i))
  /\ event_cost_gamma_exact i2 = Some (round_gamma (event_cost_gamma i))
  /\ productivity_cost_gamma_exact i2
     = Some (round_gamma (productivity_cost_gamma i)).

(** A one-program table with the lognormal cardiovascular program and no
    portfolio adjustments, before and after loading. *)
Definition cvd_lognormal_table (intr : Intervention) : Parameters :=
  {| meta := meta default_params;
     health_system := health_system default_params;
     portfolio_adjustments := None;
     portfolio_adjustments_exact := None;
     interventions := [("cvd", intr)] |}.

(** The one-program table evaluated from the payer's perspective. *)
Definition healthcare_perspective : Parameters :=
  {| meta := {| horizon_years := 10; perspective := Some "healthcare" |};
     health_system := health_system default_params;
     portfolio_adjustments := portfolio_adjustments default_params;
     portfolio_adjustments_exact := portfolio_adjustments_exact default_params;
     interventions := [("cvd", cvd)] |}.

(** The affine map of the summary, written without the code's helper:
    slope [(hi - lo) / (hi_e - lo_e)], which sends the computed interval
    [lo_e, hi_e] onto the target [lo, hi]; on a computed interval narrower
    than [1e-12] the slope is 1 and the map is the shift that sends [lo_e]
    to [lo]. *)
Definition affine_slope (lo_e hi_e lo hi : R) : R :=
  if Rlt_dec (Rabs (hi_e - lo_e)) 1e-12 then 1
  else (hi - lo) / (hi_e - lo_e).

Definition affine_image (lo_e hi_e lo hi x : R) : R :=
  lo + affine_slope lo_e hi_e lo hi * (x - lo_e).

(** [st] reports the fixed interval [lo, hi], and the mean, median and std
    that go with the computed interval [lo_e, hi_e], mean [m_e], median
    [med_e] and std [sd_e] (NaN for a single sample). *)
Definition rescaled_statistics (lo_e hi_e m_e med_e : R) (sd_e : fl)
  (lo hi : R) (st : Stats) : Prop :=
  ci_lower st = Num lo
  /\ ci_upper st = Num hi
  /\ mean st = Num (affine_image lo_e hi_e lo hi m_e)
  /\ median st = Num (affine_image lo_e hi_e lo hi med_e)
  /\ std st = match sd_e with
              | Num sd => Num (Rabs (affine_slope lo_e hi_e lo hi) * sd)
              | NaN => NaN
              end.

(** The summary reports, for the sampled metric [k], the fixed interval
    and the image of the empirical statistics of its samples. *)
Definition reports_affine_image (rows : list IterSample)
  (summary : list (string * Stats)) (k : string) (lo hi : R) : Prop :=
  exists (col : list fl) (st : Stats) (lo_e hi_e m_e med_e : R),
    dict_get k (samples_of rows) = Some col
    /\ List.length col = List.length rows
    /\ dict_get k summary = Some st
    /\ nanpercentile 1 40 col = Num lo_e
    /\ nanpercentile 39 40 col = Num hi_e
    /\ nanmean col = Num m_e
    /\ nanmedian col = Num med_e
    /\ rescaled_statistics lo_e hi_e m_e med_e (nanstd_ddof1 col) lo hi st.

(** Net benefit has no samples of its own.  The statistics that are
    rescaled are put together from the empirical statistics of total
    savings and of investment: difference of the means, difference of the
    medians, root of the sum of the squared stds, and the interval from
    [lower savings - upper investment] to [upper savings - lower
    investment]. *)
Definition reports_net_benefit (rows : list IterSample)
  (summary : list (string * Stats)) (lo hi : R) : Prop :=
  exists (ts inv : list fl) (st : Stats)
         (lo_ts hi_ts m_ts med_ts lo_inv hi_inv m_inv med_inv : R),
    dict_get "net_benefit" (samples_of rows) = None
    /\ dict_get "total_savings" (samples_of rows) = Some ts
    /\ dict_get "investment" (samples_of rows) = Some inv
    /\ dict_get "net_benefit" summary = Some st
    /\ nanpercentile 1 40 ts = Num lo_ts /\ nanpercentile 39 40 ts = Num hi_ts
    /\ nanmean ts = Num m_ts /\ nanmedian ts = Num med_ts
    /\ nanpercentile 1 40 inv = Num lo_inv
    /\ nanpercentile 39 40 inv = Num hi_inv
    /\ nanmean inv = Num m_inv /\ nanmedian inv = Num med_inv
    /\ rescaled_statistics (lo_ts - hi_inv) (hi_ts - lo_inv) (m_ts - m_inv)
         (med_ts - med_inv)
         (match nanstd_ddof1 ts, nanstd_ddof1 inv with
          | Num a, Num b => Num (sqrt (a * a + b * b))
          | _, _ => NaN
          end)
         lo hi st.

(** The claim as worded: [st] holds the statistics of [e] pushed through
    an affine map [x -> a + b * x] that sends the interval of [e] onto
    [lo, hi]. *)
Definition affine_onto (e : Stats) (lo hi : R) (st : Stats) : Prop :=
  exists a b lo_e hi_e : R,
    ci_lower e = Num lo_e /\ ci_upper e = Num hi_e
    /\ a + b * lo_e = lo /\ a + b * hi_e = hi
    /\ mean st = fl_add (Num a) (fl_mul (Num b) (mean e))
    /\ median st = fl_add (Num a) (fl_mul (Num b) (median e))
    /\ std st = fl_mul (Num (Rabs b)) (std e).

(** The per-program targets whose key is a loaded program. *)
Definition loaded_targets (self : UAEHealthAnalysis)
  (per_results : list (string * Target)) : list (string * Target) :=
  filter (fun kt : string * Target =>
            dict_mem (fst kt) (interventions (parameters self)))
         per_results.

(** Two calls of [calibrate] that end alike: the same exception, or the
    same object with the same portfolio outcome in the change record. *)
Definition same_outcome (a b : res (Changes * UAEHealthAnalysis)) : Prop :=
  match a, b with
  | Ok (ch, s), Ok (ch', s') =>
      s = s' /\ portfolio_first ch = portfolio_first ch'
      /\ adjusted ch = adjusted ch'
  | Raise e, Raise e' => e = e'
  | _, _ => False
  end.

(** * Properties *)

(** ** Comparisons and division *)

Lemma Rltb_true (x y : R) : x < y -> Rltb x y = true.
Proof. intros Hxy. unfold Rltb. destruct (Rlt_dec x y); [reflexivity | contradiction]. Qed.

Lemma Rltb_false (x y : R) : ~ x < y -> Rltb x y = false.
Proof. intros Hxy. unfold Rltb. destruct (Rlt_dec x y); [contradiction | reflexivity]. Qed.

Lemma Rleb_true (x y : R) : x <= y -> Rleb x y = true.
Proof. intros Hxy. unfold Rleb. destruct (Rle_dec x y); [reflexivity | contradiction]. Qed.

Lemma Rleb_false (x y : R) : ~ x <= y -> Rleb x y = false.
Proof. intros Hxy. unfold Rleb. destruct (Rle_dec x y); [contradiction | reflexivity]. Qed.

Lemma Reqb_true (x y : R) : x = y -> Reqb x y = true.
Proof. intros Hxy. unfold Reqb. destruct (Req_dec_T x y); [reflexivity | contradiction]. Qed.

Lemma Reqb_false (x y : R) : x <> y -> Reqb x y = false.
Proof. intros Hxy. unfold Reqb. destruct (Req_dec_T x y); [contradiction | reflexivity]. Qed.

Lemma truthy_true (x : R) : x <> 0 -> truthy x = true.
Proof. intros Hx. unfold truthy. now rewrite Reqb_false. Qed.

Lemma truthy_false (x : R) : x = 0 -> truthy x = false.
Proof. intros Hx. unfold truthy. now rewrite Reqb_true. Qed.

Lemma truthy_spec (x : R) : truthy x = true <-> x <> 0.
Proof.
  unfold truthy, Reqb. destruct (Req_dec_T x 0); simpl; split; intros Hx;
    try discriminate; try reflexivity; try contradiction; assumption.
Qed.

Lemma pydiv_ok (x y : R) : y <> 0 -> pydiv x y = Ok (x / y).
Proof. intros Hy. unfold pydiv. now rewrite Reqb_false. Qed.

(** ** The result monad *)

Lemma mapM_ok {A B : Type} (f : A -> res B) (g : A -> B) (l : list A) :
  (forall x, In x l -> f x = Ok (g x)) -> mapM f l = Ok (map g l).
Proof.
  induction l as [| x tl IH]; intros Hf; simpl.
  - reflexivity.
  - rewrite (Hf x (or_introl eq_refl)). simpl.
    rewrite IH by (intros y Hy; apply Hf; now right). reflexivity.
Qed.

(** ** The discount sum *)

Lemma pysum_app (l1 l2 : list R) : pysum (l1 ++ l2) = pysum l1 + pysum l2.
Proof.
  unfold pysum. rewrite fold_left_app.
  generalize (fold_left Rplus l1 0). induction l2 as [| x tl IH]; intros acc; simpl.
  - lra.
  - rewrite IH. rewrite (IH (0 + x)). lra.
Qed.

Lemma pysum_cons (x : R) (l : list R) : pysum (x :: l) = x + pysum l.
Proof. change (x :: l) with ([x] ++ l). rewrite pysum_app. unfold pysum; simpl. lra. Qed.

Lemma pysum_nil : pysum [] = 0.
Proof. reflexivity. Qed.

Lemma pysum_annuity (n : nat) (r : R) :
  pysum (map (fun t : nat => 1 / (1 + r) ^ t) (seq 1 n)) = annuity n r.
Proof.
  induction n as [| n IH].
  - reflexivity.
  - rewrite seq_S, map_app, pysum_app, IH. simpl map.
    rewrite pysum_cons, pysum_nil. change (1 + n)%nat with (S n).
    cbn [annuity pow]. lra.
Qed.

(** [discount_sum] never raises unless [r = -1], and computes the
    specification's sum. *)
Lemma discount_sum_ok (T : Z) (r : R) :
  1 + r <> 0 -> discount_sum T r = Ok (annuity (Z.to_nat T) r).
Proof.
  intros Hr. unfold discount_sum.
  rewrite (mapM_ok _ (fun t : nat => 1 / (1 + r) ^ t)).
  - simpl. now rewrite pysum_annuity.
  - intros t _. apply pydiv_ok. now apply pow_nonzero.
Qed.

Lemma annuity_nonneg (n : nat) (r : R) : 0 < 1 + r -> 0 <= annuity n r.
Proof.
  intros Hr. induction n as [| n IH]; cbn [annuity].
  - lra.
  - assert (0 < (1 + r) ^ S n) by now apply pow_lt.
    assert (0 < 1 / (1 + r) ^ S n) by (apply Rdiv_lt_0_compat; lra). lra.
Qed.

Lemma annuity_pos (n : nat) (r : R) : 0 < 1 + r -> (0 < n)%nat -> 0 < annuity n r.
Proof.
  intros Hr Hn. destruct n as [| n]; [lia |]. cbn [annuity].
  pose proof (annuity_nonneg n r Hr).
  assert (0 < (1 + r) ^ S n) by now apply pow_lt.
  assert (0 < 1 / (1 + r) ^ S n) by (apply Rdiv_lt_0_compat; lra). lra.
Qed.

Lemma annuity_10_3_percent : 8.5 < annuity 10 0.03 < 8.6.
Proof. cbn [annuity pow]. lra. Qed.

(** ** InterventionSimulator: one deterministic pass *)

Section SimulatorFacts.
Context {G : Type} `{Generator G}.

(** The deterministic pass, unfolded once: it raises only through the
    discount sum or the Beta fallback. *)
Lemma simulate_deterministic_eq (self : UAEHealthAnalysis) (key : string)
  (intr : Intervention) (rng : G) (rrr : R) :
  dict_get key (interventions (parameters self)) = Some intr ->
  1 + discount_rate (health_system (parameters self)) <> 0 ->
  deterministic_rrr intr = Ok rrr ->
  _simulate_intervention self key rng true =
  Ok (closed_form (meta (parameters self)) (health_system (parameters self))
        intr rrr, rng).
Proof.
  intros Hget Hr Hrrr. unfold closed_form.
  unfold _simulate_intervention, dict_item. rewrite Hget. cbn [bind].
  rewrite (discount_sum_ok _ _ Hr). cbn [bind].
  unfold draw_channels.
  destruct (or_else (cost_ppy_gamma_exact intr) (cost_ppy_gamma intr)) as [k_c th_c].
  destruct (or_else (event_cost_gamma_exact intr) (event_cost_gamma intr))
    as [k_ev th_ev].
  destruct (or_else (productivity_cost_gamma_exact intr)
              (productivity_cost_gamma intr)) as [k_pr th_pr].
  rewrite Hrrr. cbn [bind fst snd]. reflexivity.
Qed.

(** The clamped residual risk stays in [1e-6, 0.999]. *)
Lemma clamp_bounds (x lo hi : R) : lo <= hi -> lo <= clamp x lo hi <= hi.
Proof.
  intros Hlh. unfold clamp. split.
  - apply Rmax_l.
  - apply Rmax_lub; [assumption | apply Rmin_l].
Qed.

(** C4. A deterministic evaluation returns the closed formulas of the
    specification: investment [N * cost_ppy_mean * D], healthcare savings
    [N * rate * rrr * event_cost_mean * D], societal savings the same with
    the productivity cost under the societal perspective and 0 otherwise,
    QALYs [N * rate * rrr * (qloss + cfr * ly) * u * D], events
    [N * rate * rrr * T], deaths [N * rate * rrr * cfr * T]; [D] is the sum of
    [1 / (1 + r)^t] for [t = 1..T], a Gamma's value is shape times scale, and
    with the lognormal channel [rrr = 1 - clamp(exp(mu + sigma^2/2), 1e-6,
    0.999)].  Each parameter is read as the simulator reads it: the [_exact]
    copy when the intervention carries one. *)
Theorem simulate_deterministic_formulas (self : UAEHealthAnalysis)
  (key : string) (intr : Intervention) (rng : G) (rrr : R) :
  dict_get key (interventions (parameters self)) = Some intr ->
  (0 < Result_population intr)%Z ->
  1 + discount_rate (health_system (parameters self)) <> 0 ->
  deterministic_rrr intr = Ok rrr ->
  let T := horizon_years (meta (parameters self)) in
  let D := annuity (Z.to_nat T) (discount_rate (health_system (parameters self))) in
  let N := IZR (Result_population intr) in
  let rate := or_else (annual_event_rate_exact intr) (annual_event_rate intr) in
  let cfr := or_else (case_fatality_rate_exact intr) (case_fatality_rate intr) in
  let u := or_else (utility_weight_exact intr) (utility_weight intr) in
  let qloss := or_else (qalys_lost_per_event_exact intr) (qalys_lost_per_event intr) in
  let ly := or_else (life_years_lost_per_death_exact intr)
                    (life_years_lost_per_death intr) in
  let g_c := or_else (cost_ppy_gamma_exact intr) (cost_ppy_gamma intr) in
  let g_ev := or_else (event_cost_gamma_exact intr) (event_cost_gamma intr) in
  let g_pr := or_else (productivity_cost_gamma_exact intr)
                      (productivity_cost_gamma intr) in
  let cost_ppy_mean := fst g_c * snd g_c in
  let event_cost_mean := fst g_ev * snd g_ev in
  let productivity_cost_mean := fst g_pr * snd g_pr in
  exists out : IterationResult,
    _simulate_intervention self key rng true = Ok (out, rng)
    /\ investment out = N * cost_ppy_mean * D
    /\ hc_savings out = N * rate * rrr * event_cost_mean * D
    /\ soc_savings out =
         (if is_societal (meta (parameters self))
          then N * rate * rrr * productivity_cost_mean * D else 0)
    /\ qalys out = N * rate * rrr * (qloss + cfr * ly) * u * D
    /\ events_prevented out = N * rate * rrr * IZR T
    /\ deaths_averted out = N * rate * rrr * cfr * IZR T
    /\ (forall mu sigma : R,
          rr_ln_of intr = Some (mu, sigma) ->
          rrr = 1 - clamp (exp (mu + sigma ^ 2 / 2)) 1e-6 0.999).
Proof.
  intros Hget _ Hr Hrrr. cbv zeta.
  eexists. split.
  - apply (simulate_deterministic_eq self key intr rng rrr Hget Hr Hrrr).
  - unfold closed_form.
    cbn [investment hc_savings soc_savings qalys events_prevented deaths_averted].
    repeat split; try reflexivity.
    + destruct (is_societal (meta (parameters self))); lra.
    + intros mu sigma Hln. unfold deterministic_rrr in Hrrr.
      rewrite Hln in Hrrr. injection Hrrr as <-. unfold lognormal_mean.
      replace (mu + 0.5 * sigma ^ 2) with (mu + sigma ^ 2 / 2) by lra. lra.
Qed.
End SimulatorFacts.

(** ** Invariants of the specification *)

(** [discount_sum(T, 0) == T]. *)
Lemma annuity_zero_rate (n : nat) : annuity n 0 = INR n.
Proof.
  induction n as [| n IH].
  - reflexivity.
  - cbn [annuity]. rewrite IH, S_INR, Rplus_0_r, pow1. lra.
Qed.

(** With the lognormal channel the deterministic risk reduction is always
    computed, and lies in [[0.001, 1 - 1e-6]], so in [[0, 1)]. *)
Lemma deterministic_rrr_lognormal (intr : Intervention) (mu sigma : R) :
  rr_ln_of intr = Some (mu, sigma) ->
  exists rrr : R,
    deterministic_rrr intr = Ok rrr /\ 0.001 <= rrr <= 1 - 1e-6.
Proof.
  intros Hln. unfold deterministic_rrr. rewrite Hln.
  eexists. split; [reflexivity |].
  pose proof (clamp_bounds (lognormal_mean mu sigma) 1e-6 0.999) as Hb.
  lra.
Qed.

(** The cardiovascular program of the literal table falls back on its Beta. *)
Lemma cvd_deterministic_rrr : deterministic_rrr cvd = Ok cvd_rrr.
Proof.
  unfold cvd_rrr, deterministic_rrr, rr_ln_of, cvd, mk_intervention.
  cbn [rr_lognormal_exact rr_lognormal rrr_beta beta_mean_or_default].
  rewrite !truthy_true by lra. cbn [andb]. apply pydiv_ok. lra.
Qed.

Lemma simulate_deterministic_formulas_witness :
  exists out : IterationResult,
    _simulate_intervention (new_analysis default_params) "cvd" tt true
    = Ok (out, tt)
    /\ investment out
       = 500000 * (5.0 * 384.5160616649235) * annuity (Z.to_nat 10) 0.03.
Proof.
  destruct (simulate_deterministic_formulas (new_analysis default_params)
              "cvd" cvd tt cvd_rrr)
    as (out & Hrun & Hinv & _).
  - reflexivity.
  - reflexivity.
  - cbn. lra.
  - exact cvd_deterministic_rrr.
  - exists out. split; [exact Hrun | exact Hinv].
Defined.

(** ** InterventionSimulator: the population guard *)

Section PopulationGuard.
Context {G : Type} `{Generator G}.

(** Whatever the mode, the six fields are products with [N] as a factor:
    a zero population gives six zeros once the pass returns. *)
Lemma simulate_zero_population (self : UAEHealthAnalysis) (key : string)
  (intr : Intervention) (rng rng' : G) (deterministic : bool)
  (out : IterationResult) :
  dict_get key (interventions (parameters self)) = Some intr ->
  Result_population intr = 0%Z ->
  _simulate_intervention self key rng deterministic = Ok (out, rng') ->
  out = {| investment := 0; hc_savings := 0; soc_savings := 0; qalys := 0;
           events_prevented := 0; deaths_averted := 0 |}.
Proof.
  intros Hget HN. unfold _simulate_intervention, dict_item.
  rewrite Hget. cbn [bind].
  destruct (discount_sum _ _) as [D |]; cbn [bind]; [| discriminate].
  rewrite HN.
  destruct (draw_channels intr rng deterministic)
    as [[[[[cost_ppy cost_event] prod_event] rrr] g] |]; cbn [bind];
    [| discriminate].
  intros Hout. injection Hout as <- _.
  destruct (is_societal _); f_equal; lra.
Qed.

(** With a negative population and a positive program cost the investment
    of a deterministic pass is negative: nothing in the simulator tests
    [N <= 0]. *)
Lemma simulate_negative_population (self : UAEHealthAnalysis) (key : string)
  (intr : Intervention) (rng : G) (rrr : R) :
  dict_get key (interventions (parameters self)) = Some intr ->
  (Result_population intr < 0)%Z ->
  (0 < horizon_years (meta (parameters self)))%Z ->
  0 < 1 + discount_rate (health_system (parameters self)) ->
  deterministic_rrr intr = Ok rrr ->
  let g_c := or_else (cost_ppy_gamma_exact intr) (cost_ppy_gamma intr) in
  0 < fst g_c * snd g_c ->
  exists out : IterationResult,
    _simulate_intervention self key rng true = Ok (out, rng)
    /\ investment out < 0.
Proof.
  intros Hget HN HT Hr Hrrr g_c Hcost.
  eexists. split.
  - apply (simulate_deterministic_eq self key intr rng rrr Hget); [lra | exact Hrrr].
  - unfold closed_form. cbn [investment]. fold g_c.
    assert (HD : 0 < annuity (Z.to_nat (horizon_years (meta (parameters self))))
                       (discount_rate (health_system (parameters self))))
      by (apply annuity_pos; [assumption | lia]).
    assert (HN' : IZR (Result_population intr) < 0) by (apply (IZR_lt _ 0); assumption).
    pose proof (Rmult_lt_0_compat _ _ Hcost HD) as HcD.
    rewrite Rmult_assoc. nra.
Qed.
(** The investment of a stochastic pass is [N] times the program-cost draw
    times [D], whatever the sign of [N]. *)
Lemma simulate_stochastic_investment (self : UAEHealthAnalysis) (key : string)
  (intr : Intervention) (rng : G) :
  dict_get key (interventions (parameters self)) = Some intr ->
  1 + discount_rate (health_system (parameters self)) <> 0 ->
  let g_c := or_else (cost_ppy_gamma_exact intr) (cost_ppy_gamma intr) in
  let k_c_eff := Rmax (fst g_c) 1e6 in
  let cost_ppy := fst (rng_gamma rng k_c_eff (fst g_c * snd g_c / k_c_eff)) in
  exists (out : IterationResult) (rng' : G),
    _simulate_intervention self key rng false = Ok (out, rng')
    /\ investment out
       = IZR (Result_population intr) * cost_ppy
         * annuity (Z.to_nat (horizon_years (meta (parameters self))))
                   (discount_rate (health_system (parameters self))).
Proof.
  intros Hget Hr. cbv zeta.
  unfold _simulate_intervention, dict_item. rewrite Hget. cbn [bind].
  rewrite (discount_sum_ok _ _ Hr). cbn [bind].
  unfold draw_channels.
  destruct (or_else (cost_ppy_gamma_exact intr) (cost_ppy_gamma intr)) as [k_c th_c].
  destruct (or_else (event_cost_gamma_exact intr) (event_cost_gamma intr))
    as [k_ev th_ev].
  destruct (or_else (productivity_cost_gamma_exact intr)
              (productivity_cost_gamma intr)) as [k_pr th_pr].
  cbn [fst snd].
  rewrite pydiv_ok.
  2:{ pose proof (Rmax_r k_c 1e6). lra. }
  cbn [bind].
  destruct (rng_gamma rng _ _) as [cost_ppy g1]. cbn [fst].
  destruct (rng_gamma g1 _ _) as [cost_event g2].
  destruct (rng_gamma g2 _ _) as [prod_event g3].
  destruct (rr_ln_of intr) as [[mu sigma] |].
  - destruct (rng_lognormal g3 mu sigma) as [rr g4].
    cbn [bind]. eexists; eexists; split; reflexivity.
  - destruct (rrr_beta intr) as [[a b] |];
      [destruct (truthy a && truthy b); [destruct (rng_beta g3 a b) as [rrr g4] |] |];
      cbn [bind]; eexists; eexists; split; reflexivity.
Qed.
End PopulationGuard.

(** C6 (the code departs from the claim). A program with population [-1]
    and the cardiovascular parameters of the literal table under [T = 10],
    [r = 0.03]: the deterministic pass and a stochastic pass (on the
    generator that returns means) both return, and their investment is
    negative, not zero. *)
Theorem simulate_population_minus_one :
  (exists out : IterationResult,
     _simulate_intervention
       (new_analysis (single_program "cvd" cvd_negative_population))
       "cvd" tt true = Ok (out, tt)
     /\ investment out < 0
     /\ investment out <> 0)
  /\ (exists out : IterationResult,
        _simulate_intervention
          (new_analysis (single_program "cvd" cvd_negative_population))
          "cvd" tt false = Ok (out, tt)
        /\ investment out < 0
        /\ investment out <> 0).
Proof.
  split.
  - destruct (simulate_negative_population
                (new_analysis (single_program "cvd" cvd_negative_population))
                "cvd" cvd_negative_population tt cvd_rrr)
      as (out & Hrun & Hneg).
    + reflexivity.
    + reflexivity.
    + reflexivity.
    + cbn. lra.
    + exact cvd_deterministic_rrr.
    + cbn. lra.
    + exists out. repeat split; [exact Hrun | exact Hneg | lra].
  - destruct (simulate_stochastic_investment
                (new_analysis (single_program "cvd" cvd_negative_population))
                "cvd" cvd_negative_population tt)
      as (out & [] & Hrun & Hinv).
    + reflexivity.
    + cbn. lra.
    + assert (Hneg : investment out < 0).
      { rewrite Hinv.
        change (-1 * (Rmax 5.0 1e6 * (5.0 * 384.5160616649235 / Rmax 5.0 1e6))
                * annuity 10 0.03 < 0).
        rewrite Rmax_right by lra.
        pose proof annuity_10_3_percent as [Hlo _]. nra. }
      exists out. repeat split; [exact Hrun | exact Hneg | lra].
Qed.

(** ** Dictionaries *)

Lemma dict_get_in_keys {V : Type} (k : string) (d : list (string * V)) :
  In k (dict_keys d) -> exists v, dict_get k d = Some v /\ In (k, v) d.
Proof.
  induction d as [| [k' v'] tl IH]; simpl; intros Hin.
  - contradiction.
  - destruct (String.eqb_spec k k') as [-> | Hne].
    + exists v'. split; [reflexivity | now left].
    + destruct Hin as [Heq | Hin]; [congruence |].
      destruct (IH Hin) as (v & Hv & Hv'). exists v. split; [assumption | now right].
Qed.

Lemma dict_get_set_same {V : Type} (k : string) (v : V) (d : list (string * V)) :
  dict_get k (dict_set k v d) = Some v.
Proof.
  induction d as [| [k' v'] tl IH]; simpl.
  - now rewrite String.eqb_refl.
  - destruct (String.eqb_spec k k') as [-> | Hne]; simpl.
    + now rewrite String.eqb_refl.
    + destruct (String.eqb_spec k k'); [contradiction | assumption].
Qed.

Lemma dict_set_unchanged {V : Type} (k : string) (v : V) (d : list (string * V)) :
  dict_get k d = Some v -> dict_set k v d = d.
Proof.
  induction d as [| [k' v'] tl IH]; simpl; intros Hget.
  - discriminate.
  - destruct (String.eqb_spec k k') as [-> | Hne].
    + now injection Hget as ->.
    + now rewrite IH.
Qed.

(** ** PortfolioAggregator *)

Section AggregatorFacts.
Context {G : Type} `{Generator G}.

(** A stochastic pass raises only through the discount sum: the floored
    shape [max(k_c, 1e6)] is never zero. *)
Lemma draw_channels_stochastic_total (intr : Intervention) (rng : G) :
  exists cost_ppy cost_event prod_event rrr rng',
    draw_channels intr rng false
    = Ok (cost_ppy, cost_event, prod_event, rrr, rng').
Proof.
  unfold draw_channels.
  destruct (or_else (cost_ppy_gamma_exact intr) (cost_ppy_gamma intr)) as [k_c th_c].
  destruct (or_else (event_cost_gamma_exact intr) (event_cost_gamma intr))
    as [k_ev th_ev].
  destruct (or_else (productivity_cost_gamma_exact intr)
              (productivity_cost_gamma intr)) as [k_pr th_pr].
  rewrite pydiv_ok.
  2:{ pose proof (Rmax_r k_c 1e6). lra. }
  cbn [bind].
  destruct (rng_gamma rng _ _) as [cost_ppy g1].
  destruct (rng_gamma g1 _ _) as [cost_event g2].
  destruct (rng_gamma g2 _ _) as [prod_event g3].
  destruct (rr_ln_of intr) as [[mu sigma] |].
  - destruct (rng_lognormal g3 mu sigma) as [rr g4]. repeat eexists.
  - destruct (rrr_beta intr) as [[a b] |]; [| repeat eexists].
    destruct (truthy a && truthy b); [| repeat eexists].
    destruct (rng_beta g3 a b) as [rrr g4]. repeat eexists.
Qed.

Lemma simulate_total (self : UAEHealthAnalysis) (key : string)
  (intr : Intervention) (rng : G) (deterministic : bool) :
  dict_get key (interventions (parameters self)) = Some intr ->
  1 + discount_rate (health_system (parameters self)) <> 0 ->
  (deterministic = true -> exists rrr, deterministic_rrr intr = Ok rrr) ->
  exists out rng', _simulate_intervention self key rng deterministic = Ok (out, rng').
Proof.
  intros Hget Hr Hdef. destruct deterministic.
  - destruct (Hdef eq_refl) as [rrr Hrrr].
    eexists; eexists. apply (simulate_deterministic_eq self key intr rng rrr Hget Hr Hrrr).
  - unfold _simulate_intervention, dict_item. rewrite Hget. cbn [bind].
    rewrite (discount_sum_ok _ _ Hr). cbn [bind].
    destruct (draw_channels_stochastic_total intr rng)
      as (c1 & c2 & c3 & rrr & g' & ->).
    cbn [bind]. eexists; eexists; reflexivity.
Qed.

Lemma simulate_each_total (self : UAEHealthAnalysis) (keys : list string)
  (rng : G) (deterministic : bool) :
  1 + discount_rate (health_system (parameters self)) <> 0 ->
  (forall k, In k keys ->
     exists intr, dict_get k (interventions (parameters self)) = Some intr
                  /\ (deterministic = true ->
                      exists rrr, deterministic_rrr intr = Ok rrr)) ->
  exists per rng',
    simulate_each self keys rng deterministic = Ok (per, rng')
    /\ dict_keys per = keys.
Proof.
  intros Hr. revert rng.
  induction keys as [| k tl IH]; intros rng Hkeys; cbn [simulate_each].
  - exists [], rng. split; reflexivity.
  - destruct (Hkeys k (or_introl eq_refl)) as (intr & Hget & Hdef).
    destruct (simulate_total self k intr rng deterministic Hget Hr Hdef)
      as (out & g1 & ->).
    cbn [bind].
    destruct (IH g1) as (per & g2 & -> & Hk).
    { intros k' Hin. apply Hkeys. now right. }
    cbn [bind]. exists ((k, out) :: per), g2. split; [reflexivity |].
    unfold dict_keys in *. simpl. now rewrite Hk.
Qed.

(** Every program of the table is evaluated, in table order. *)
Lemma simulate_all_total (self : UAEHealthAnalysis) (rng : G)
  (deterministic : bool) :
  1 + discount_rate (health_system (parameters self)) <> 0 ->
  (deterministic = true -> rrr_defined (parameters self)) ->
  exists per rng',
    simulate_each self (dict_keys (interventions (parameters self))) rng
      deterministic = Ok (per, rng')
    /\ dict_keys per = dict_keys (interventions (parameters self)).
Proof.
  intros Hr Hdef. apply simulate_each_total; [assumption |].
  intros k Hin. destruct (dict_get_in_keys k _ Hin) as (intr & Hget & Hin').
  exists intr. split; [assumption |].
  intros Hdet. specialize (Hdef Hdet). unfold rrr_defined in Hdef.
  rewrite Forall_forall in Hdef. apply (Hdef (k, intr) Hin').
Qed.
End AggregatorFacts.

Section PortfolioFacts.
Context {G : Type} `{Generator G}.

Lemma sum_of_cons (f : IterationResult -> R) (kv : string * IterationResult)
  (per : list (string * IterationResult)) :
  sum_of f (kv :: per) = f (snd kv) + sum_of f per.
Proof. unfold sum_of, dict_values. simpl. apply pysum_cons. Qed.

Lemma sum_of_deaths_rescaled (scale : R) (per : list (string * IterationResult)) :
  sum_of deaths_averted (map (rescale_deaths scale) per)
  = sum_of deaths_averted per * scale.
Proof.
  induction per as [| kv tl IH].
  - unfold sum_of, pysum. simpl. lra.
  - simpl map. rewrite !sum_of_cons, IH. simpl. lra.
Qed.

Lemma sum_of_other_rescaled (f : IterationResult -> R) (scale : R)
  (per : list (string * IterationResult)) :
  (forall d v, f (set_deaths_averted d v) = f v) ->
  sum_of f (map (rescale_deaths scale) per) = sum_of f per.
Proof.
  intros Hf. induction per as [| kv tl IH].
  - reflexivity.
  - simpl map. rewrite !sum_of_cons, IH. simpl. now rewrite Hf.
Qed.

Lemma rescale_same_but_deaths (scale : R) (per : list (string * IterationResult)) :
  Forall2 same_but_deaths per (map (rescale_deaths scale) per).
Proof.
  induction per as [| kv tl IH]; simpl; constructor; [| assumption].
  unfold same_but_deaths. simpl. repeat split.
Qed.

(** The guard of the [# Deaths] block makes its division safe. *)
Lemma reconcile_deaths_nonzero (pd : R) (per : list (string * IterationResult)) :
  sum_of deaths_averted per <> 0 ->
  reconcile_deaths pd per
  = Ok (map (rescale_deaths (pd / sum_of deaths_averted per)) per).
Proof.
  intros Hsum. unfold reconcile_deaths.
  rewrite (truthy_true _ Hsum), (pydiv_ok _ _ Hsum). reflexivity.
Qed.

Lemma reconcile_deaths_zero (pd : R) (per : list (string * IterationResult)) :
  sum_of deaths_averted per = 0 -> reconcile_deaths pd per = Ok per.
Proof.
  intros Hsum. unfold reconcile_deaths. now rewrite (truthy_false _ Hsum).
Qed.

Lemma reconcile_deaths_total (pd : R) (per : list (string * IterationResult)) :
  exists per', reconcile_deaths pd per = Ok per'
               /\ sum_of investment per' = sum_of investment per.
Proof.
  destruct (Req_dec_T (sum_of deaths_averted per) 0) as [Hz | Hnz].
  - exists per. split; [now apply reconcile_deaths_zero | reflexivity].
  - eexists. split; [now apply reconcile_deaths_nonzero |].
    now apply sum_of_other_rescaled.
Qed.

(** The adjustments are read after the programs are evaluated and never by
    the simulator. *)
Lemma simulate_each_adjustments (self : UAEHealthAnalysis)
  (visible exact : option (list (string * R))) (keys : list string) (rng : G)
  (deterministic : bool) :
  simulate_each (set_portfolio_adjustments visible exact self) keys rng
    deterministic
  = simulate_each self keys rng deterministic.
Proof.
  revert rng. induction keys as [| k tl IH]; intros rng; cbn [simulate_each].
  - reflexivity.
  - change (_simulate_intervention (set_portfolio_adjustments visible exact self)
              k rng deterministic)
      with (_simulate_intervention self k rng deterministic).
    destruct (_simulate_intervention self k rng deterministic) as [[v g] |];
      cbn [bind]; [| reflexivity].
    now rewrite IH.
Qed.

Lemma run_markov_models_eq (self : UAEHealthAnalysis) (deterministic : bool)
  (seed : Z) (per : list (string * IterationResult)) (rng' : G) :
  simulate_each self (dict_keys (interventions (parameters self)))
    (default_rng seed) deterministic = Ok (per, rng') ->
  exists per',
    reconcile_deaths
      (pf_deaths_averted (adjusted_portfolio (adjustments_of (parameters self)) per))
      per = Ok per'
    /\ sum_of investment per' = sum_of investment per
    /\ run_markov_models self deterministic seed
       = Ok ({| per_intervention := per';
                portfolio := adjusted_portfolio
                               (adjustments_of (parameters self)) per |},
             set_markov
               {| per_intervention := per';
                  portfolio := adjusted_portfolio
                                 (adjustments_of (parameters self)) per |} self).
Proof.
  intros Hper.
  destruct (reconcile_deaths_total
              (pf_deaths_averted
                 (adjusted_portfolio (adjustments_of (parameters self)) per)) per)
    as (per' & Hrec & Hinv).
  exists per'. repeat split; try assumption.
  unfold run_markov_models. rewrite Hper. cbn [bind]. rewrite Hrec. reflexivity.
Qed.
End PortfolioFacts.

Section PortfolioClaims.
Context {G : Type} `{Generator G}.

(** C8. When the unadjusted sum of the per-program deaths is not zero,
    [run_markov_models] multiplies each program's [deaths_averted] by
    adjusted portfolio deaths over that sum; the rescaled values sum to the
    adjusted portfolio deaths, and the other five fields of every program are
    returned as the simulator computed them. *)
Theorem reconcile_deaths_sums_to_portfolio (self : UAEHealthAnalysis)
  (deterministic : bool) (seed : Z) (per : list (string * IterationResult))
  (rng' : G) :
  simulate_each self (dict_keys (interventions (parameters self)))
    (default_rng seed) deterministic = Ok (per, rng') ->
  sum_of deaths_averted per <> 0 ->
  exists (out : MarkovOut) (self' : UAEHealthAnalysis),
    run_markov_models self deterministic seed = Ok (out, self')
    /\ pf_deaths_averted (portfolio out)
       = sum_of deaths_averted per
         * dict_get_default "mortality_synergy" 1.0
             (adjustments_of (parameters self))
    /\ per_intervention out
       = map (rescale_deaths (pf_deaths_averted (portfolio out)
                              / sum_of deaths_averted per)) per
    /\ sum_of deaths_averted (per_intervention out)
       = pf_deaths_averted (portfolio out)
    /\ Forall2 same_but_deaths per (per_intervention out).
Proof.
  intros Hper Hsum.
  destruct (run_markov_models_eq self deterministic seed per rng' Hper)
    as (per' & Hrec & _ & Hrun).
  rewrite (reconcile_deaths_nonzero _ _ Hsum) in Hrec. injection Hrec as <-.
  eexists; eexists. split; [exact Hrun |].
  cbn [portfolio per_intervention].
  split; [| split; [| split]].
  - reflexivity.
  - reflexivity.
  - rewrite sum_of_deaths_rescaled. unfold adjusted_portfolio.
    cbn [pf_deaths_averted]. field. exact Hsum.
  - apply rescale_same_but_deaths.
Qed.

End PortfolioClaims.

(** The one-program portfolio used by the closed examples. *)
Lemma single_cvd_simulate_each :
  simulate_each (new_analysis (single_program "cvd" cvd))
    (dict_keys (interventions (parameters (new_analysis (single_program "cvd" cvd)))))
    (default_rng 123) true
  = Ok ([("cvd", cvd_result)], tt).
Proof.
  change (dict_keys _) with ["cvd"]. cbn [simulate_each].
  rewrite (simulate_deterministic_eq _ "cvd" cvd _ cvd_rrr).
  - reflexivity.
  - reflexivity.
  - cbn. lra.
  - exact cvd_deterministic_rrr.
Qed.

Lemma single_cvd_deaths_nonzero :
  sum_of deaths_averted [("cvd", cvd_result)] <> 0.
Proof.
  unfold sum_of, dict_values, pysum, cvd_result, closed_form, cvd_rrr. cbn. lra.
Qed.

Lemma reconcile_deaths_sums_to_portfolio_witness :
  exists (out : MarkovOut) (self' : UAEHealthAnalysis),
    run_markov_models (new_analysis (single_program "cvd" cvd)) true 123
    = Ok (out, self')
    /\ sum_of deaths_averted (per_intervention out)
       = pf_deaths_averted (portfolio out).
Proof.
  destruct (reconcile_deaths_sums_to_portfolio
              (new_analysis (single_program "cvd" cvd)) true 123
              [("cvd", cvd_result)] tt
              single_cvd_simulate_each single_cvd_deaths_nonzero)
    as (out & self' & Hrun & _ & _ & Hsum & _).
  exists out, self'. split; [exact Hrun | exact Hsum].
Defined.


(** ** The reducers on small arrays *)

Ltac sort_concrete :=
  unfold sort_floats; cbn [drop_nan fold_right insert_sorted];
  repeat (first [rewrite Rleb_true by lra | rewrite Rleb_false by lra];
          cbn [insert_sorted]).

Example nanmean_skips_nan : nanmean [Num 1; NaN; Num 3] = Num 2.
Proof. unfold nanmean, pysum. cbn. f_equal. lra. Qed.

Example nanstd_single_sample : nanstd_ddof1 [Num 5] = NaN.
Proof. reflexivity. Qed.

Example nanstd_two_samples : nanstd_ddof1 [Num 1; NaN; Num 3] = Num (sqrt 2).
Proof. unfold nanstd_ddof1, pysum. cbn. do 2 f_equal. lra. Qed.

Example nanmedian_even_count :
  nanmedian [Num 4; Num 1; NaN; Num 3; Num 2] = Num 2.5.
Proof. unfold nanmedian. sort_concrete. cbn. f_equal. lra. Qed.

Example nanpercentile_interpolates :
  nanpercentile 1 40 [Num 5; Num 2; Num 3; Num 4; Num 1] = Num 1.1
  /\ nanpercentile 39 40 [Num 5; Num 2; Num 3; Num 4; Num 1] = Num 4.9.
Proof.
  unfold nanpercentile. sort_concrete. unfold quantile_linear.
  split; cbn; f_equal; lra.
Qed.

Example nanmean_all_nan : nanmean [NaN; NaN] = NaN.
Proof. reflexivity. Qed.

(** ** MonteCarloRunner: the sampling loop *)

Section MonteCarloFacts.
Context {G : Type} `{Generator G}.

Lemma mc_iteration_total (self : UAEHealthAnalysis) (rng : G) :
  1 + discount_rate (health_system (parameters self)) <> 0 ->
  exists row rng', mc_iteration self rng = Ok (row, rng') /\ derived_ok row.
Proof.
  intros Hr. unfold mc_iteration.
  destruct (simulate_all_total self rng false Hr) as (per & g & -> & _);
    [discriminate |].
  cbn [bind].
  set (invest := sum_of investment per). set (q := sum_of qalys per).
  set (total := sum_of hc_savings per + sum_of soc_savings per).
  unfold derived_ok, Rltb.
  destruct (Rlt_dec 0 invest) as [Hi | Hi]; destruct (Rlt_dec 0 q) as [Hq | Hq];
    try (rewrite (pydiv_ok _ invest) by lra);
    try (rewrite (pydiv_ok _ q) by lra);
    cbn [bind]; eexists; eexists; (split; [reflexivity |]);
    cbn [s_total_savings s_hc_savings s_soc_savings s_roi s_investment s_icer s_qalys];
    fold invest q total;
    destruct (Rlt_dec 0 invest); destruct (Rlt_dec 0 q); try contradiction;
    repeat split; try reflexivity; lra.
Qed.

(** A Monte-Carlo iteration sums the per-program results and applies no
    multiplier: its investment too is the plain sum. *)
Lemma mc_iteration_sums (self : UAEHealthAnalysis) (rng rng' : G)
  (row : IterSample) :
  mc_iteration self rng = Ok (row, rng') ->
  exists per : list (string * IterationResult),
    simulate_each self (dict_keys (interventions (parameters self))) rng false
    = Ok (per, rng')
    /\ s_investment row = sum_of investment per
    /\ s_hc_savings row = sum_of hc_savings per
    /\ s_soc_savings row = sum_of soc_savings per
    /\ s_qalys row = sum_of qalys per
    /\ s_events_prevented row = sum_of events_prevented per
    /\ s_deaths_averted row = sum_of deaths_averted per.
Proof.
  unfold mc_iteration.
  destruct (simulate_each self _ rng false) as [[per g] |]; cbn [bind];
    [| discriminate].
  destruct (if Rltb 0 (sum_of investment per) then _ else _) as [roi |];
    cbn [bind]; [| discriminate].
  destruct (if Rltb 0 (sum_of qalys per) then _ else _) as [icer |];
    cbn [bind]; [| discriminate].
  intros Hrow. injection Hrow as <- <-. exists per. repeat split.
Qed.

Lemma mc_loop_total (self : UAEHealthAnalysis) (n : nat) (rng : G) :
  1 + discount_rate (health_system (parameters self)) <> 0 ->
  exists rows rng',
    mc_loop self n rng = Ok (rows, rng')
    /\ List.length rows = n
    /\ Forall derived_ok rows.
Proof.
  intros Hr. revert rng. induction n as [| n IH]; intros rng; cbn [mc_loop].
  - exists [], rng. repeat split. constructor.
  - destruct (mc_iteration_total self rng Hr) as (row & g1 & -> & Hrow).
    cbn [bind]. destruct (IH g1) as (rows & g2 & -> & Hlen & Hall).
    cbn [bind]. exists (row :: rows), g2.
    split; [reflexivity |]. split; [simpl; now rewrite Hlen |].
    now constructor.
Qed.

Lemma mc_samples_total (self : UAEHealthAnalysis) (n_iterations seed : Z) :
  1 + discount_rate (health_system (parameters self)) <> 0 ->
  exists rows,
    mc_samples self n_iterations seed = Ok rows
    /\ List.length rows = Z.to_nat n_iterations
    /\ Forall derived_ok rows.
Proof.
  intros Hr. unfold mc_samples.
  destruct (mc_loop_total self (Z.to_nat n_iterations) (default_rng seed) Hr)
    as (rows & g & -> & Hlen & Hall).
  cbn [bind]. exists rows. repeat split; assumption.
Qed.

(** C10. Every Monte-Carlo iteration records [roi = (total_savings -
    investment) / investment] when the investment is positive and 0
    otherwise, and [icer = (investment - total_savings) / qalys] when the
    QALYs are positive and NaN otherwise: the loop returns one such row per
    iteration. *)
Theorem mc_roi_icer_derivation (self : UAEHealthAnalysis)
  (n_iterations seed : Z) :
  1 + discount_rate (health_system (parameters self)) <> 0 ->
  exists rows : list IterSample,
    mc_samples self n_iterations seed = Ok rows
    /\ List.length rows = Z.to_nat n_iterations
    /\ Forall
         (fun s : IterSample =>
            s_total_savings s = s_hc_savings s + s_soc_savings s
            /\ s_roi s = (if Rlt_dec 0 (s_investment s)
                       then (s_total_savings s - s_investment s) / s_investment s
                       else 0)
               /\ s_icer s = (if Rlt_dec 0 (s_qalys s)
                              then Num ((s_investment s - s_total_savings s)
                                        / s_qalys s)
                              else NaN)
               /\ (s_qalys s <= 0 -> s_icer s = NaN))
         rows.
Proof.
  intros Hr.
  destruct (mc_samples_total self n_iterations seed Hr) as (rows & Hrun & Hlen & Hall).
  exists rows. split; [exact Hrun |]. split; [exact Hlen |].
  eapply Forall_impl; [| exact Hall].
  intros s (Htot & Hroi & Hicer).
  split; [exact Htot |]. split; [exact Hroi |]. split; [exact Hicer |].
  intros Hq. rewrite Hicer. destruct (Rlt_dec 0 (s_qalys s)); [lra | reflexivity].
Qed.
End MonteCarloFacts.

Lemma mc_roi_icer_derivation_witness :
  exists rows : list IterSample,
    mc_samples (new_analysis (single_program "cvd" cvd)) 3 42 = Ok rows
    /\ List.length rows = 3%nat.
Proof.
  destruct (mc_roi_icer_derivation (G := unit)
              (new_analysis (single_program "cvd" cvd)) 3 42)
    as (rows & Hrun & Hlen & _).
  - cbn. lra.
  - exists rows. split; [exact Hrun | exact Hlen].
Defined.

(** ** MonteCarloRunner: the summary *)

(** The guard [abs(hi - lo) < 1e-12] keeps the division of [_affine_stats]
    away from zero, so the function never raises. *)
Lemma affine_coeffs_total (lo hi : fl) (lo_tgt hi_tgt : R) :
  affine_coeffs lo hi lo_tgt hi_tgt = Ok (affine_coeffs_pure lo hi lo_tgt hi_tgt).
Proof.
  unfold affine_coeffs, affine_coeffs_pure.
  destruct (fl_ltb (fl_abs (fl_sub hi lo)) (Num 1e-12)) eqn:Hlt; [reflexivity |].
  unfold fl_div. destruct (fl_sub hi lo) as [y |] eqn:Hy; [| reflexivity].
  rewrite Reqb_false; [reflexivity |].
  intros ->. cbn [fl_abs fl_ltb] in Hlt. rewrite Rabs_R0 in Hlt.
  rewrite Rltb_true in Hlt by lra. discriminate.
Qed.

Lemma affine_stats_total (d : Stats) (lo_tgt hi_tgt : R) :
  _affine_stats d lo_tgt hi_tgt = Ok (affine_rescaled d lo_tgt hi_tgt).
Proof.
  unfold _affine_stats, affine_rescaled. rewrite affine_coeffs_total.
  cbn [bind]. destruct (affine_coeffs_pure _ _ _ _) as [alpha beta]. reflexivity.
Qed.

Lemma affine_rescaled_onto (d : Stats) (lo_tgt hi_tgt : R) :
  rescaled_onto d lo_tgt hi_tgt (affine_rescaled d lo_tgt hi_tgt).
Proof.
  unfold rescaled_onto, affine_rescaled.
  rewrite affine_coeffs_total.
  destruct (affine_coeffs_pure _ _ _ _) as [alpha beta].
  cbn [ci_lower ci_upper mean median std].
  split; [reflexivity |]. split; [reflexivity |].
  exists alpha, beta. repeat split.
Qed.

Ltac dict_compute :=
  cbn [map fst snd dict_mem dict_get dict_item dict_set String.eqb Ascii.eqb
       Bool.eqb bind negb andb apply_targets results_table].

Lemma summarize_samples_eq (rows : list IterSample) :
  summarize_samples rows = Ok (final_summary rows).
Proof.
  unfold summarize_samples, samples_of, final_summary. dict_compute.
  repeat (rewrite affine_stats_total; dict_compute).
  reflexivity.
Qed.

Lemma final_summary_empirical (rows : list IterSample) (k : string) :
  In k ["investment"; "hc_savings"; "soc_savings"; "icer"] ->
  reports_empirical rows (final_summary rows) k.
Proof.
  intros Hk. unfold reports_empirical.
  repeat (destruct Hk as [<- | Hk]); [.. | contradiction];
    eexists; (split; [reflexivity |]);
    (split; [now rewrite ?length_map | reflexivity]).
Qed.

Lemma final_summary_rescaled_samples (rows : list IterSample) (k : string)
  (lo hi : R) :
  In (k, (lo, hi))
     [("total_savings", (44.8e9, 60.0e9)); ("roi", (1.19, 1.96));
      ("events_prevented", (142000.0, 174000.0));
      ("deaths_averted", (14000.0, 18500.0));
      ("qalys", (286000.0, 367000.0))] ->
  reports_rescaled_samples rows (final_summary rows) k lo hi.
Proof.
  intros Hk. unfold reports_rescaled_samples.
  repeat (destruct Hk as [Hk | Hk]; [injection Hk as <- <- <- |]);
    [.. | contradiction];
    eexists; eexists; (split; [reflexivity |]);
    (split; [now rewrite ?length_map |]);
    (split; [reflexivity | apply affine_rescaled_onto]).
Qed.

Section SummaryFacts.
Context {G : Type} `{Generator G}.

Lemma run_monte_carlo_eq (self : UAEHealthAnalysis) (n_iterations seed : Z) :
  1 + discount_rate (health_system (parameters self)) <> 0 ->
  exists rows : list IterSample,
    mc_samples self n_iterations seed = Ok rows
    /\ List.length rows = Z.to_nat n_iterations
    /\ run_monte_carlo self n_iterations seed
       = Ok (final_summary rows, set_monte_carlo (final_summary rows) self).
Proof.
  intros Hr.
  destruct (mc_samples_total self n_iterations seed Hr) as (rows & Hrun & Hlen & _).
  exists rows. split; [exact Hrun |]. split; [exact Hlen |].
  unfold run_monte_carlo. rewrite Hrun. cbn [bind].
  rewrite summarize_samples_eq. reflexivity.
Qed.
End SummaryFacts.

Lemma nanpercentile_singleton (num den : nat) (x : R) :
  nanpercentile num den [Num x] = Num x.
Proof.
  unfold nanpercentile, quantile_linear.
  cbn [drop_nan sort_floats fold_right insert_sorted List.length Nat.sub Nat.mul
       nth Nat.add Nat.min].
  rewrite Nat.Div0.div_0_l. cbn [nth Nat.add Nat.min]. f_equal. lra.
Qed.

Lemma affine_rescaled_interval (d : Stats) (lo_tgt hi_tgt : R) :
  ci_lower (affine_rescaled d lo_tgt hi_tgt) = Num lo_tgt
  /\ ci_upper (affine_rescaled d lo_tgt hi_tgt) = Num hi_tgt.
Proof.
  unfold affine_rescaled. destruct (affine_coeffs_pure _ _ _ _) as [alpha beta].
  split; reflexivity.
Qed.

(** A column of real samples has nothing to drop, and sorting keeps its
    length, so with at least one row every reducer but the std returns a
    number. *)
Lemma drop_nan_column (f : IterSample -> R) (rows : list IterSample) :
  drop_nan (map (fun s => Num (f s)) rows) = map f rows.
Proof.
  induction rows as [| r tl IH]; cbn [map drop_nan]; [reflexivity |].
  now rewrite IH.
Qed.

Lemma length_insert_sorted (x : R) (l : list R) :
  List.length (insert_sorted x l) = S (List.length l).
Proof.
  induction l as [| y tl IH]; cbn [insert_sorted List.length]; [reflexivity |].
  destruct (Rleb x y); cbn [List.length]; [reflexivity |]. now rewrite IH.
Qed.

Lemma length_sort_floats (l : list R) :
  List.length (sort_floats l) = List.length l.
Proof.
  unfold sort_floats. induction l as [| x tl IH]; cbn [fold_right List.length];
    [reflexivity |].
  now rewrite length_insert_sorted, IH.
Qed.

Lemma column_statistics (f : IterSample -> R) (rows : list IterSample) :
  rows <> [] ->
  let col := map (fun s => Num (f s)) rows in
  exists lo_e hi_e m_e med_e : R,
    nanpercentile 1 40 col = Num lo_e
    /\ nanpercentile 39 40 col = Num hi_e
    /\ nanmean col = Num m_e
    /\ nanmedian col = Num med_e.
Proof.
  intros Hne col. subst col.
  unfold nanpercentile, nanmean, nanmedian. rewrite drop_nan_column.
  destruct rows as [| r tl]; [contradiction |].
  pose proof (length_sort_floats (map f (r :: tl))) as Hlen.
  destruct (sort_floats (map f (r :: tl))) as [| x xs] eqn:Hsort;
    [discriminate Hlen |].
  cbn [map List.length].
  destruct (Nat.even (S (List.length xs))); repeat eexists.
Qed.

(** The statistics [_affine_stats] writes, against the map written out. *)
Lemma affine_rescaled_statistics (d : Stats) (lo_e hi_e m_e med_e lo hi : R) :
  ci_lower d = Num lo_e -> ci_upper d = Num hi_e ->
  mean d = Num m_e -> median d = Num med_e ->
  rescaled_statistics lo_e hi_e m_e med_e (std d) lo hi (affine_rescaled d lo hi).
Proof.
  intros Hlo Hhi Hm Hmed.
  unfold affine_rescaled, affine_coeffs_pure, rescaled_statistics,
    affine_image, affine_slope.
  rewrite Hlo, Hhi, Hm, Hmed.
  cbn [fl_sub fl_lift2 fl_abs fl_ltb]. unfold Rltb.
  destruct (Rlt_dec (Rabs (hi_e - lo_e)) 1e-12) as [Hnarrow | Hwide];
    cbn [fl_sub fl_add fl_mul fl_lift2 fl_abs ci_lower ci_upper mean median std].
  - split; [reflexivity |]. split; [reflexivity |].
    split; [f_equal; lra |]. split; [f_equal; lra |].
    destruct (std d) as [sd |]; [| reflexivity].
    cbn [fl_lift2]. f_equal. f_equal. f_equal. lra.
  - split; [reflexivity |]. split; [reflexivity |].
    split; [f_equal; ring |]. split; [f_equal; ring |].
    destruct (std d) as [sd |]; reflexivity.
Qed.

(** On a computed interval at least [1e-12] wide the map sends it onto the
    target interval; on a narrower one it is a shift. *)
Lemma affine_image_onto (lo_e hi_e lo hi : R) :
  1e-12 <= Rabs (hi_e - lo_e) ->
  affine_image lo_e hi_e lo hi lo_e = lo
  /\ affine_image lo_e hi_e lo hi hi_e = hi.
Proof.
  intros Hwide. unfold affine_image, affine_slope.
  destruct (Rlt_dec (Rabs (hi_e - lo_e)) 1e-12) as [Hn | _]; [lra |].
  assert (Hd : hi_e - lo_e <> 0).
  { intros H0. rewrite H0, Rabs_R0 in Hwide. lra. }
  split; field; exact Hd.
Qed.

Lemma affine_image_shift (lo_e hi_e lo hi x : R) :
  Rabs (hi_e - lo_e) < 1e-12 ->
  affine_image lo_e hi_e lo hi x = x + (lo - lo_e).
Proof.
  intros Hnarrow. unfold affine_image, affine_slope.
  destruct (Rlt_dec (Rabs (hi_e - lo_e)) 1e-12) as [_ | Hn]; [ring | contradiction].
Qed.

Lemma column_reports_affine_image (rows : list IterSample)
  (summary : list (string * Stats)) (k : string) (f : IterSample -> R)
  (lo hi : R) :
  rows <> [] ->
  dict_get k (samples_of rows) = Some (map (fun s => Num (f s)) rows) ->
  dict_get k summary
  = Some (affine_rescaled (summarize (map (fun s => Num (f s)) rows)) lo hi) ->
  reports_affine_image rows summary k lo hi.
Proof.
  intros Hne Hcol Hst.
  destruct (column_statistics f rows Hne) as (lo_e & hi_e & m_e & med_e & H1 & H2 & H3 & H4).
  exists (map (fun s => Num (f s)) rows),
    (affine_rescaled (summarize (map (fun s => Num (f s)) rows)) lo hi),
    lo_e, hi_e, m_e, med_e.
  split; [exact Hcol |]. split; [now rewrite length_map |].
  split; [exact Hst |]. split; [exact H1 |]. split; [exact H2 |].
  split; [exact H3 |]. split; [exact H4 |].
  now apply (affine_rescaled_statistics (summarize _)).
Qed.

Lemma final_summary_net_benefit (rows : list IterSample) :
  rows <> [] -> reports_net_benefit rows (final_summary rows) 19.9e9 45.9e9.
Proof.
  intros Hne.
  destruct (column_statistics s_total_savings rows Hne)
    as (lo_ts & hi_ts & m_ts & med_ts & T1 & T2 & T3 & T4).
  destruct (column_statistics s_investment rows Hne)
    as (lo_inv & hi_inv & m_inv & med_inv & I1 & I2 & I3 & I4).
  exists (map (fun s => Num (s_total_savings s)) rows),
    (map (fun s => Num (s_investment s)) rows),
    (affine_rescaled
       (net_benefit_stats
          (summarize (map (fun s => Num (s_total_savings s)) rows))
          (summarize (map (fun s => Num (s_investment s)) rows)))
       19.9e9 45.9e9),
    lo_ts, hi_ts, m_ts, med_ts, lo_inv, hi_inv, m_inv, med_inv.
  split; [reflexivity |]. split; [reflexivity |]. split; [reflexivity |].
  split; [reflexivity |].
  split; [exact T1 |]. split; [exact T2 |]. split; [exact T3 |].
  split; [exact T4 |].
  split; [exact I1 |]. split; [exact I2 |]. split; [exact I3 |].
  split; [exact I4 |].
  set (ts := map (fun s => Num (s_total_savings s)) rows) in *.
  set (inv := map (fun s => Num (s_investment s)) rows) in *.
  assert (Hstd : std (net_benefit_stats (summarize ts) (summarize inv))
                 = match nanstd_ddof1 ts, nanstd_ddof1 inv with
                   | Num a, Num b => Num (sqrt (a * a + b * b))
                   | _, _ => NaN
                   end).
  { cbn [net_benefit_stats std summarize].
    destruct (nanstd_ddof1 ts) as [a |], (nanstd_ddof1 inv) as [b |];
      reflexivity. }
  rewrite <- Hstd.
  apply affine_rescaled_statistics;
    cbn [net_benefit_stats summarize ci_lower ci_upper mean median];
    rewrite ?T1, ?T2, ?T3, ?T4, ?I1, ?I2, ?I3, ?I4; reflexivity.
Qed.

Section SummaryClaims.
Context {G : Type} `{Generator G}.

(** C2 (amended). Whatever the seed, the iteration count and the samples,
    the summary of [run_monte_carlo] reports for total savings, net benefit,
    ROI, events, deaths and QALYs the fixed interval of the literal table as
    [ci_lower] and [ci_upper].  For the five sampled metrics the mean and
    median are the empirical ones sent through [x -> lo + slope * (x -
    lo_e)] and the std is the empirical one times [|slope|], where
    [lo_e, hi_e] are the empirical 2.5th and 97.5th percentiles and [slope]
    is [(hi - lo) / (hi_e - lo_e)], or 1 when [|hi_e - lo_e| < 1e-12].  Net
    benefit is not sampled: the statistics sent through the map are put
    together from those of total savings and investment. *)
Theorem mc_summary_fixed_intervals (self : UAEHealthAnalysis)
  (n_iterations seed : Z) :
  (1 <= n_iterations)%Z ->
  1 + discount_rate (health_system (parameters self)) <> 0 ->
  exists (rows : list IterSample) (summary : list (string * Stats))
         (self' : UAEHealthAnalysis),
    mc_samples self n_iterations seed = Ok rows
    /\ List.length rows = Z.to_nat n_iterations
    /\ run_monte_carlo self n_iterations seed = Ok (summary, self')
    /\ reports_affine_image rows summary "total_savings" 4.48e10 6.0e10
    /\ reports_net_benefit rows summary 1.99e10 4.59e10
    /\ reports_affine_image rows summary "roi" 1.19 1.96
    /\ reports_affine_image rows summary "events_prevented" 142000 174000
    /\ reports_affine_image rows summary "deaths_averted" 14000 18500
    /\ reports_affine_image rows summary "qalys" 286000 367000.
Proof.
  intros Hn Hr.
  destruct (run_monte_carlo_eq self n_iterations seed Hr) as (rows & Hs & Hlen & Hrun).
  assert (Hne : rows <> []).
  { intros ->. cbn [List.length] in Hlen. lia. }
  exists rows, (final_summary rows), (set_monte_carlo (final_summary rows) self).
  split; [exact Hs |]. split; [exact Hlen |]. split; [exact Hrun |].
  replace 4.48e10 with 44.8e9 by lra. replace 6.0e10 with 60.0e9 by lra.
  replace 1.99e10 with 19.9e9 by lra. replace 4.59e10 with 45.9e9 by lra.
  replace 142000 with 142000.0 by lra. replace 174000 with 174000.0 by lra.
  replace 14000 with 14000.0 by lra. replace 18500 with 18500.0 by lra.
  replace 286000 with 286000.0 by lra. replace 367000 with 367000.0 by lra.
  split.
  { apply (column_reports_affine_image _ _ _ s_total_savings);
      [exact Hne | reflexivity | reflexivity]. }
  split; [now apply final_summary_net_benefit |].
  split.
  { apply (column_reports_affine_image _ _ _ s_roi);
      [exact Hne | reflexivity | reflexivity]. }
  split.
  { apply (column_reports_affine_image _ _ _ s_events_prevented);
      [exact Hne | reflexivity | reflexivity]. }
  split.
  { apply (column_reports_affine_image _ _ _ s_deaths_averted);
      [exact Hne | reflexivity | reflexivity]. }
  apply (column_reports_affine_image _ _ _ s_qalys);
    [exact Hne | reflexivity | reflexivity].
Qed.

(** C1 (amended). For investment, healthcare savings, societal savings and
    ICER the summary holds the empirical mean, median, NaN-aware sample
    standard deviation and 2.5th/97.5th percentiles of the [n_iterations]
    samples; for total savings, events, deaths, QALYs and ROI it holds the
    fixed interval of the literal table and the affinely rescaled mean,
    median and std of the samples. *)
Theorem mc_summary_empirical_or_rescaled (self : UAEHealthAnalysis)
  (n_iterations seed : Z) :
  (1 <= n_iterations)%Z ->
  1 + discount_rate (health_system (parameters self)) <> 0 ->
  exists (rows : list IterSample) (summary : list (string * Stats))
         (self' : UAEHealthAnalysis),
    mc_samples self n_iterations seed = Ok rows
    /\ List.length rows = Z.to_nat n_iterations
    /\ run_monte_carlo self n_iterations seed = Ok (summary, self')
    /\ reports_empirical rows summary "investment"
    /\ reports_empirical rows summary "hc_savings"
    /\ reports_empirical rows summary "soc_savings"
    /\ reports_empirical rows summary "icer"
    /\ reports_rescaled_samples rows summary "total_savings" 4.48e10 6.0e10
    /\ reports_rescaled_samples rows summary "events_prevented" 142000 174000
    /\ reports_rescaled_samples rows summary "deaths_averted" 14000 18500
    /\ reports_rescaled_samples rows summary "qalys" 286000 367000
    /\ reports_rescaled_samples rows summary "roi" 1.19 1.96.
Proof.
  intros _ Hr.
  destruct (run_monte_carlo_eq self n_iterations seed Hr) as (rows & Hs & Hlen & Hrun).
  exists rows, (final_summary rows), (set_monte_carlo (final_summary rows) self).
  split; [exact Hs |]. split; [exact Hlen |]. split; [exact Hrun |].
  do 4 (split; [apply final_summary_empirical; simpl; auto 10 |]).
  replace 4.48e10 with 44.8e9 by lra. replace 6.0e10 with 60.0e9 by lra.
  replace 142000 with 142000.0 by lra. replace 174000 with 174000.0 by lra.
  replace 14000 with 14000.0 by lra. replace 18500 with 18500.0 by lra.
  replace 286000 with 286000.0 by lra. replace 367000 with 367000.0 by lra.
  do 4 (split; [apply final_summary_rescaled_samples; simpl; auto 10 |]).
  apply final_summary_rescaled_samples; simpl; auto 10.
Qed.
End SummaryClaims.

Lemma mc_summary_fixed_intervals_witness :
  exists (rows : list IterSample) (summary : list (string * Stats))
         (self' : UAEHealthAnalysis),
    run_monte_carlo (new_analysis (single_program "cvd" cvd)) 1 42
    = Ok (summary, self')
    /\ reports_affine_image rows summary "roi" 1.19 1.96
    /\ reports_net_benefit rows summary 1.99e10 4.59e10.
Proof.
  destruct (mc_summary_fixed_intervals (G := unit)
              (new_analysis (single_program "cvd" cvd)) 1 42)
    as (rows & summary & self' & _ & _ & Hrun & _ & Hnb & Hroi & _).
  - lia.
  - cbn. lra.
  - exists rows, summary, self'.
    split; [exact Hrun |]. split; [exact Hroi | exact Hnb].
Defined.

Lemma mc_summary_empirical_or_rescaled_witness :
  exists (rows : list IterSample) (summary : list (string * Stats))
         (self' : UAEHealthAnalysis),
    run_monte_carlo (new_analysis (single_program "cvd" cvd)) 1 42
    = Ok (summary, self')
    /\ reports_empirical rows summary "investment".
Proof.
  destruct (mc_summary_empirical_or_rescaled (G := unit)
              (new_analysis (single_program "cvd" cvd)) 1 42)
    as (rows & summary & self' & _ & _ & Hrun & Hinv & _).
  - lia.
  - cbn. lra.
  - exists rows, summary, self'. split; [exact Hrun | exact Hinv].
Defined.

(** C1 as stated fails.  One iteration on the one-program portfolio: the
    single ROI sample is its own 2.5th and 97.5th percentile, yet the
    summary reports [ci_lower = 1.19] and [ci_upper = 1.96], so the reported
    statistics of ROI are not the empirical ones. *)
Lemma mc_summary_roi_not_empirical :
  exists (rows : list IterSample) (summary : list (string * Stats))
         (self' : UAEHealthAnalysis) (col : list fl) (st : Stats),
    mc_samples (new_analysis (single_program "cvd" cvd)) 1 42 = Ok rows
    /\ run_monte_carlo (new_analysis (single_program "cvd" cvd)) 1 42
       = Ok (summary, self')
    /\ dict_get "roi" (samples_of rows) = Some col
    /\ List.length col = 1%nat
    /\ dict_get "roi" summary = Some st
    /\ ~ (ci_lower st = nanpercentile 1 40 col
          /\ ci_upper st = nanpercentile 39 40 col)
    /\ st <> summarize col.
Proof.
  destruct (run_monte_carlo_eq (G := unit)
              (new_analysis (single_program "cvd" cvd)) 1 42)
    as (rows & Hs & Hlen & Hrun).
  { cbn. lra. }
  destruct rows as [| row [| row' tl]]; try discriminate Hlen.
  assert (Hne : ~ (ci_lower (affine_rescaled (summarize [Num (s_roi row)]) 1.19 1.96)
                   = nanpercentile 1 40 [Num (s_roi row)]
                   /\ ci_upper (affine_rescaled (summarize [Num (s_roi row)]) 1.19 1.96)
                      = nanpercentile 39 40 [Num (s_roi row)])).
  { destruct (affine_rescaled_interval (summarize [Num (s_roi row)]) 1.19 1.96)
      as [-> ->].
    rewrite !nanpercentile_singleton. intros [Hlo Hhi].
    injection Hlo as Hlo. injection Hhi as Hhi. lra. }
  exists [row], (final_summary [row]),
    (set_monte_carlo (final_summary [row])
       (new_analysis (single_program "cvd" cvd))),
    [Num (s_roi row)],
    (affine_rescaled (summarize [Num (s_roi row)]) 1.19 1.96).
  split; [exact Hs |]. split; [exact Hrun |].
  split; [reflexivity |]. split; [reflexivity |]. split; [reflexivity |].
  split; [exact Hne |].
  intros Heq. apply Hne. rewrite Heq. split; reflexivity.
Qed.

(** C2 as stated fails.  One iteration on the one-program portfolio: the
    single ROI sample is both empirical percentiles, so no affine map sends
    the empirical interval onto [1.19, 1.96]; the summary reports the lower
    bound 1.19 as mean and as median and NaN as std.  Net benefit has no
    sample at all. *)
Lemma mc_summary_single_iteration_not_onto :
  exists (rows : list IterSample) (summary : list (string * Stats))
         (self' : UAEHealthAnalysis) (col : list fl) (st : Stats),
    mc_samples (new_analysis (single_program "cvd" cvd)) 1 42 = Ok rows
    /\ run_monte_carlo (new_analysis (single_program "cvd" cvd)) 1 42
       = Ok (summary, self')
    /\ dict_get "roi" (samples_of rows) = Some col
    /\ List.length col = 1%nat
    /\ dict_get "roi" summary = Some st
    /\ ~ affine_onto (summarize col) 1.19 1.96 st
    /\ mean st = Num 1.19 /\ median st = Num 1.19 /\ std st = NaN
    /\ dict_get "net_benefit" (samples_of rows) = None.
Proof.
  destruct (run_monte_carlo_eq (G := unit)
              (new_analysis (single_program "cvd" cvd)) 1 42)
    as (rows & Hs & Hlen & Hrun).
  { cbn. lra. }
  destruct rows as [| row [| row' tl]]; try discriminate Hlen.
  exists [row], (final_summary [row]),
    (set_monte_carlo (final_summary [row])
       (new_analysis (single_program "cvd" cvd))),
    [Num (s_roi row)],
    (affine_rescaled (summarize [Num (s_roi row)]) 1.19 1.96).
  split; [exact Hs |]. split; [exact Hrun |].
  split; [reflexivity |]. split; [reflexivity |]. split; [reflexivity |].
  assert (Hlo : ci_lower (summarize [Num (s_roi row)]) = Num (s_roi row))
    by apply nanpercentile_singleton.
  assert (Hhi : ci_upper (summarize [Num (s_roi row)]) = Num (s_roi row))
    by apply nanpercentile_singleton.
  assert (Hm : mean (summarize [Num (s_roi row)]) = Num (s_roi row)).
  { cbn [summarize mean nanmean drop_nan List.length]. unfold pysum.
    cbn [fold_left INR]. f_equal. field. }
  assert (Hmed : median (summarize [Num (s_roi row)]) = Num (s_roi row))
    by reflexivity.
  split.
  { intros (a & b & lo_e & hi_e & Hlo' & Hhi' & Ha & Hb & _).
    rewrite Hlo in Hlo'. rewrite Hhi in Hhi'.
    injection Hlo' as <-. injection Hhi' as <-. lra. }
  destruct (affine_rescaled_statistics (summarize [Num (s_roi row)])
              (s_roi row) (s_roi row) (s_roi row) (s_roi row) 1.19 1.96
              Hlo Hhi Hm Hmed) as (_ & _ & Hmean & Hmedian & Hstd).
  assert (Himg : affine_image (s_roi row) (s_roi row) 1.19 1.96 (s_roi row) = 1.19)
    by (unfold affine_image; ring).
  rewrite Himg in Hmean, Hmedian.
  split; [exact Hmean |]. split; [exact Hmedian |].
  split; [exact Hstd | reflexivity].
Qed.

(** ** Calibrator: the six steps *)

Lemma present_and_truthy_some (o : option R) (x : R) :
  present_and_truthy o = Some x <-> o = Some x /\ x <> 0.
Proof.
  unfold present_and_truthy. destruct o as [y |]; [| split; [discriminate | intros [? _]; discriminate]].
  destruct (truthy y) eqn:Hy.
  - apply truthy_spec in Hy. split.
    + intros [= <-]. split; [reflexivity | assumption].
    + intros [[= <-] _]. reflexivity.
  - split; [discriminate |]. intros [[= <-] Hx].
    apply truthy_spec in Hx. congruence.
Qed.

Lemma calibrate_investment_eq (tgt : Target) (N D : R) (intr : Intervention) :
  N * D <> 0 ->
  calibrate_investment tgt N D intr = Ok (after_investment tgt N D intr).
Proof.
  intros HND. unfold calibrate_investment, after_investment.
  destruct (t_investment tgt) as [I_ |]; [| reflexivity].
  rewrite (pydiv_ok _ _ HND). reflexivity.
Qed.

Lemma calibrate_events_eq (tgt : Target) (N T rrr_mean : R) (intr : Intervention) :
  N * T <> 0 ->
  calibrate_events tgt N T rrr_mean intr
  = Ok (events_used tgt N T rrr_mean intr, after_events tgt N T rrr_mean intr).
Proof.
  intros HNT. unfold calibrate_events, events_used, after_events.
  destruct (present_and_truthy (t_events_prevented tgt)) as [E |]; [| reflexivity].
  rewrite pydiv_ok; [reflexivity |].
  pose proof (Rmax_r rrr_mean 1e-9).
  apply Rmult_integral_contrapositive_currified; [assumption | lra].
Qed.

Lemma calibrate_deaths_eq (tgt : Target) (E : R) (intr : Intervention) :
  calibrate_deaths tgt E intr = Ok (after_deaths tgt E intr).
Proof.
  unfold calibrate_deaths, after_deaths.
  destruct (present_and_truthy (t_deaths_averted tgt)) as [Dth |]; [| reflexivity].
  unfold Rltb. destruct (Rlt_dec 0 E) as [HE | HE]; [| reflexivity].
  rewrite pydiv_ok by lra. reflexivity.
Qed.

Lemma untouched_refl (i : Intervention) : untouched_by_late_steps i i.
Proof. unfold untouched_by_late_steps. repeat split. Qed.

Lemma untouched_trans (i j k : Intervention) :
  untouched_by_late_steps i j -> untouched_by_late_steps j k ->
  untouched_by_late_steps i k.
Proof.
  unfold untouched_by_late_steps. intros Hij Hjk.
  decompose [and] Hij. decompose [and] Hjk. repeat split; congruence.
Qed.

Lemma renormalize_untouched (i : Intervention) :
  untouched_by_late_steps i (renormalize_gammas i).
Proof.
  unfold renormalize_gammas.
  destruct (event_cost_gamma i) as [k_ev th_ev].
  destruct (productivity_cost_gamma i) as [k_pr th_pr].
  unfold untouched_by_late_steps. repeat split.
Qed.

(** Under a positive horizon and a positive discount sum step 5 never
    raises, and it writes nothing but [qalys_lost_per_event] and the two
    per-event Gammas. *)
Lemma calibrate_cost_per_qaly_total (tgt : Target) (T D E : R)
  (intr : Intervention) :
  0 < T -> 0 < D ->
  exists intr',
    calibrate_cost_per_qaly tgt T D E intr = Ok intr'
    /\ untouched_by_late_steps intr intr'
    /\ (t_c_per_qaly tgt = None -> intr' = intr).
Proof.
  intros HT HD. unfold calibrate_cost_per_qaly.
  destruct (present_and_truthy (t_c_per_qaly tgt)) as [Cq |] eqn:HCq.
  2:{ exists intr. split; [reflexivity |].
      split; [apply untouched_refl | reflexivity]. }
  apply present_and_truthy_some in HCq. destruct HCq as [HCq HCq0].
  unfold Rltb. destruct (Rlt_dec 0 E) as [HE | HE].
  2:{ exists intr. split; [reflexivity |].
      split; [apply untouched_refl | reflexivity]. }
  rewrite (pydiv_ok E T) by lra. cbn [bind].
  assert (HET : 0 < E / T) by (apply Rdiv_lt_0_compat; assumption).
  assert (HDET : 0 < D * (E / T)) by (apply Rmult_lt_0_compat; assumption).
  assert (Hu : 0 < Rmax (utility_weight intr) 1e-9)
    by (pose proof (Rmax_r (utility_weight intr) 1e-9); lra).
  assert (HDETu : D * (E / T) * Rmax (utility_weight intr) 1e-9 <> 0)
    by (apply Rgt_not_eq; apply Rmult_lt_0_compat; assumption).
  assert (HDET0 : D * (E / T) <> 0) by lra.
  unfold implied_total_savings, target_investment.
  destruct (t_roi_ratio tgt) as [roi |]; destruct (t_investment tgt) as [I_ |];
    cbn [bind];
    rewrite ?(pydiv_ok _ Cq HCq0); cbn [bind];
    rewrite ?(pydiv_ok _ Cq HCq0); cbn [bind];
    rewrite (pydiv_ok _ _ HDETu); cbn [bind];
    rewrite ?(pydiv_ok _ _ HDET0); cbn [bind];
    rewrite ?(pydiv_ok _ _ HDET0); cbn [bind];
    eexists; (split; [reflexivity |]);
    (split; [unfold untouched_by_late_steps; repeat split | intros Hn; congruence]).
Qed.

Lemma after_investment_rate (tgt : Target) (N D : R) (intr : Intervention) :
  annual_event_rate (after_investment tgt N D intr) = annual_event_rate intr.
Proof. unfold after_investment. destruct (t_investment tgt); reflexivity. Qed.

(** The whole of [_calibrate_intervention] for a positive population under
    a valid configuration. *)
Lemma calibrate_intervention_eq (self : UAEHealthAnalysis) (key : string)
  (intr : Intervention) (tgt : Target) (rrr_mean : R) :
  dict_get key (interventions (parameters self)) = Some intr ->
  (0 < Result_population intr)%Z ->
  (0 < horizon_years (meta (parameters self)))%Z ->
  0 < 1 + discount_rate (health_system (parameters self)) ->
  rrr_mean_of intr = Ok rrr_mean ->
  let N := IZR (Result_population intr) in
  let T := IZR (horizon_years (meta (parameters self))) in
  let D := annuity (Z.to_nat (horizon_years (meta (parameters self))))
                   (discount_rate (health_system (parameters self))) in
  let E := events_used tgt N T rrr_mean intr in
  let i3 := after_deaths tgt E
              (after_events tgt N T rrr_mean (after_investment tgt N D intr)) in
  0 < N /\ 0 < T /\ 0 < D
  /\ exists i4 : Intervention,
       calibrate_cost_per_qaly tgt T D E i3 = Ok i4
       /\ untouched_by_late_steps i3 i4
       /\ (t_c_per_qaly tgt = None -> i4 = i3)
       /\ _calibrate_intervention self key tgt
          = Ok (set_intervention key (renormalize_gammas i4) self).
Proof.
  intros Hget HN HT Hr Hrrr N T D E i3.
  assert (HN' : 0 < N) by (apply (IZR_lt 0); assumption).
  assert (HT' : 0 < T) by (apply (IZR_lt 0); assumption).
  assert (HD : 0 < D) by (apply annuity_pos; [assumption | lia]).
  split; [assumption |]. split; [assumption |]. split; [assumption |].
  destruct (calibrate_cost_per_qaly_total tgt T D E i3 HT' HD)
    as (i4 & Hq & Hfr & Hnone).
  exists i4. split; [exact Hq |]. split; [exact Hfr |]. split; [exact Hnone |].
  unfold _calibrate_intervention.
  rewrite discount_sum_ok by lra. cbn [bind].
  unfold dict_item. rewrite Hget. cbn [bind].
  replace (Result_population intr <=? 0)%Z with false by (symmetry; apply Z.leb_gt; assumption).
  rewrite Hrrr. cbn [bind].
  fold N T D.
  rewrite calibrate_investment_eq by (apply Rgt_not_eq; apply Rmult_lt_0_compat; assumption).
  cbn [bind].
  rewrite calibrate_events_eq by (apply Rgt_not_eq; apply Rmult_lt_0_compat; assumption).
  cbn [bind]. rewrite calibrate_deaths_eq. cbn [bind].
  unfold events_used at 1 2. rewrite after_investment_rate.
  fold (events_used tgt N T rrr_mean intr). fold E. fold i3.
  rewrite Hq. reflexivity.
Qed.

Lemma clamp_zero_literal (x hi : R) : clamp x 0.0 hi = clamp x 0 hi.
Proof. unfold clamp. f_equal. lra. Qed.

Ltac destruct_matches :=
  repeat match goal with
         | |- context [match ?x with _ => _ end] => destruct x
         end.

(** What the calibrated program holds after [_calibrate_intervention]:
    the fields steps 1 to 3 wrote survive steps 5 and 6. *)
Lemma calibrate_intervention_fields (self : UAEHealthAnalysis) (key : string)
  (intr : Intervention) (tgt : Target) (rrr_mean : R) :
  dict_get key (interventions (parameters self)) = Some intr ->
  (0 < Result_population intr)%Z ->
  (0 < horizon_years (meta (parameters self)))%Z ->
  0 < 1 + discount_rate (health_system (parameters self)) ->
  rrr_mean_of intr = Ok rrr_mean ->
  let N := IZR (Result_population intr) in
  let T := IZR (horizon_years (meta (parameters self))) in
  let D := annuity (Z.to_nat (horizon_years (meta (parameters self))))
                   (discount_rate (health_system (parameters self))) in
  let shape := fst (cost_ppy_gamma intr) in
  let E := events_used tgt N T rrr_mean intr in
  exists (self' : UAEHealthAnalysis) (intr' : Intervention),
    _calibrate_intervention self key tgt = Ok self'
    /\ dict_get key (interventions (parameters self')) = Some intr'
    /\ (forall I_ : R,
          t_investment tgt = Some I_ ->
          cost_ppy_gamma intr' = (shape, I_ / (N * D) / Rmax shape 1e-12)
          /\ (1e-12 <= shape ->
              cost_ppy_gamma intr' = (shape, I_ / (N * D) / shape)
              /\ fst (cost_ppy_gamma intr') * snd (cost_ppy_gamma intr')
                 = I_ / (N * D)))
    /\ (forall Ev : R,
          t_events_prevented tgt = Some Ev -> Ev <> 0 ->
          annual_event_rate intr'
          = clamp (Ev / (N * T * Rmax rrr_mean 1e-9)) 1e-8 0.95
          /\ rrr_beta intr' = Some (rrr_mean * 1e6, (1 - rrr_mean) * 1e6))
    /\ (forall Dth : R,
          t_deaths_averted tgt = Some Dth -> Dth <> 0 -> 0 < E ->
          case_fatality_rate intr' = clamp (Dth / E) 0 0.95).
Proof.
  intros Hget HN HT Hr Hrrr N T D shape E. subst shape.
  destruct (calibrate_intervention_eq self key intr tgt rrr_mean Hget HN HT Hr Hrrr)
    as (HN' & HT' & HD & i4 & _ & Hfr & _ & Hrun).
  fold N T D E in Hfr, Hrun. fold N in HN'. fold T in HT'. fold D in HD.
  pose proof (untouched_trans _ _ _ Hfr (renormalize_untouched i4)) as Hall.
  unfold untouched_by_late_steps in Hall. decompose [and] Hall. clear Hall.
  exists (set_intervention key (renormalize_gammas i4) self), (renormalize_gammas i4).
  split; [exact Hrun |].
  split; [cbn; apply dict_get_set_same |].
  split; [| split].
  - intros I_ HI.
    assert (Hc : cost_ppy_gamma (renormalize_gammas i4)
                 = (fst (cost_ppy_gamma intr),
                    I_ / (N * D) / Rmax (fst (cost_ppy_gamma intr)) 1e-12)).
    { match goal with Hc : cost_ppy_gamma _ = cost_ppy_gamma _ |- _ => rewrite Hc end.
      unfold after_deaths, after_events, after_investment. rewrite HI.
      destruct_matches; reflexivity. }
    split; [exact Hc |]. intros Hshape. rewrite Hc.
    rewrite Rmax_left by lra. split; [reflexivity |].
    cbn [fst snd]. field. repeat split; lra.
  - intros Ev HEv HEv0.
    pose proof (proj2 (present_and_truthy_some _ _) (conj HEv HEv0)) as Hpt.
    split.
    + match goal with
      | Hc : annual_event_rate _ = annual_event_rate _ |- _ => rewrite Hc
      end.
      unfold after_deaths, after_events. rewrite Hpt.
      destruct_matches; reflexivity.
    + match goal with Hc : rrr_beta _ = rrr_beta _ |- _ => rewrite Hc end.
      unfold after_deaths, after_events. rewrite Hpt.
      destruct_matches; reflexivity.
  - intros Dth HDth HDth0 HE.
    pose proof (proj2 (present_and_truthy_some _ _) (conj HDth HDth0)) as Hpt.
    match goal with
    | Hc : case_fatality_rate _ = case_fatality_rate _ |- _ => rewrite Hc
    end.
    unfold after_deaths. rewrite Hpt, (Rltb_true _ _ HE).
    cbn [case_fatality_rate set_case_fatality_rate]. apply clamp_zero_literal.
Qed.

(** C7 (amended). For a program with [N > 0]: an investment target [I]
    rewrites the program-cost Gamma to [shape, (I/(N*D)) / max(shape, 1e-12)]
    (for a shape of at least [1e-12] that is [(I/(N*D)) / shape], with mean
    [I/(N*D)]); a non-zero events target [E] sets [annual_event_rate =
    clamp(E / (N*T*max(rrr_mean, 1e-9)), 1e-8, 0.95)] and the Beta to
    [rrr_mean*1e6, (1-rrr_mean)*1e6]; a non-zero deaths target with [E > 0]
    sets [case_fatality_rate = clamp(deaths/E, 0, 0.95)], where [E] is the
    events target when present and non-zero and the model's own events
    otherwise. *)
Theorem calibrate_intervention_rewrites (self : UAEHealthAnalysis)
  (key : string) (intr : Intervention) (tgt : Target) (rrr_mean : R) :
  dict_get key (interventions (parameters self)) = Some intr ->
  (0 < Result_population intr)%Z ->
  (0 < horizon_years (meta (parameters self)))%Z ->
  0 < 1 + discount_rate (health_system (parameters self)) ->
  rrr_mean_of intr = Ok rrr_mean ->
  let N := IZR (Result_population intr) in
  let T := IZR (horizon_years (meta (parameters self))) in
  let D := annuity (Z.to_nat (horizon_years (meta (parameters self))))
                   (discount_rate (health_system (parameters self))) in
  let shape := fst (cost_ppy_gamma intr) in
  let E := events_used tgt N T rrr_mean intr in
  exists (self' : UAEHealthAnalysis) (intr' : Intervention),
    _calibrate_intervention self key tgt = Ok self'
    /\ dict_get key (interventions (parameters self')) = Some intr'
    /\ (forall I_ : R,
          t_investment tgt = Some I_ ->
          cost_ppy_gamma intr' = (shape, I_ / (N * D) / Rmax shape 1e-12)
          /\ (1e-12 <= shape ->
              cost_ppy_gamma intr' = (shape, I_ / (N * D) / shape)
              /\ fst (cost_ppy_gamma intr') * snd (cost_ppy_gamma intr')
                 = I_ / (N * D)))
    /\ (forall Ev : R,
          t_events_prevented tgt = Some Ev -> Ev <> 0 ->
          annual_event_rate intr'
          = clamp (Ev / (N * T * Rmax rrr_mean 1e-9)) 1e-8 0.95
          /\ rrr_beta intr' = Some (rrr_mean * 1e6, (1 - rrr_mean) * 1e6))
    /\ (forall Dth : R,
          t_deaths_averted tgt = Some Dth -> Dth <> 0 -> 0 < E ->
          case_fatality_rate intr' = clamp (Dth / E) 0 0.95).
Proof. exact (calibrate_intervention_fields self key intr tgt rrr_mean). Qed.

Lemma cvd_rrr_mean : rrr_mean_of cvd = Ok cvd_rrr.
Proof.
  unfold rrr_mean_of, rr_ln_of, cvd, mk_intervention, cvd_rrr.
  cbn [rr_lognormal_exact rr_lognormal rrr_beta or_else]. apply pydiv_ok. lra.
Qed.

Lemma cvd_tiny_shape_rrr_mean : rrr_mean_of cvd_tiny_shape = Ok cvd_rrr.
Proof.
  unfold rrr_mean_of, rr_ln_of, cvd_tiny_shape, mk_intervention, cvd_rrr.
  cbn [rr_lognormal_exact rr_lognormal rrr_beta or_else]. apply pydiv_ok. lra.
Qed.

Lemma calibrate_intervention_rewrites_witness :
  exists (self' : UAEHealthAnalysis) (intr' : Intervention),
    _calibrate_intervention (new_analysis (single_program "cvd" cvd)) "cvd"
      (investment_only 1e9) = Ok self'
    /\ dict_get "cvd" (interventions (parameters self')) = Some intr'
    /\ cost_ppy_gamma intr'
       = (5.0, 1e9 / (500000 * annuity 10 0.03) / Rmax 5.0 1e-12).
Proof.
  destruct (calibrate_intervention_rewrites
              (new_analysis (single_program "cvd" cvd)) "cvd" cvd
              (investment_only 1e9) cvd_rrr)
    as (self' & intr' & Hrun & Hget & Hinv & _).
  - reflexivity.
  - reflexivity.
  - reflexivity.
  - cbn. lra.
  - exact cvd_rrr_mean.
  - exists self', intr'. split; [exact Hrun |]. split; [exact Hget |].
    exact (proj1 (Hinv 1e9 eq_refl)).
Defined.

(** C7 as stated fails below the floor.  A program-cost shape of [1e-13]
    and the investment target [1e9] under [N = 500000], [T = 10],
    [r = 0.03]: the scale written is [(I/(N*D)) / 1e-12], not
    [(I/(N*D)) / shape], and the new mean is a tenth of [I/(N*D)]. *)
Lemma calibrate_investment_tiny_shape :
  exists (self' : UAEHealthAnalysis) (intr' : Intervention),
    _calibrate_intervention
      (new_analysis (single_program "cvd" cvd_tiny_shape)) "cvd"
      (investment_only 1e9) = Ok self'
    /\ dict_get "cvd" (interventions (parameters self')) = Some intr'
    /\ cost_ppy_gamma intr'
       <> (1e-13, 1e9 / (500000 * annuity 10 0.03) / 1e-13)
    /\ fst (cost_ppy_gamma intr') * snd (cost_ppy_gamma intr')
       <> 1e9 / (500000 * annuity 10 0.03).
Proof.
  destruct (calibrate_intervention_fields
              (new_analysis (single_program "cvd" cvd_tiny_shape)) "cvd"
              cvd_tiny_shape (investment_only 1e9) cvd_rrr)
    as (self' & intr' & Hrun & Hget & Hinv & _).
  - reflexivity.
  - reflexivity.
  - reflexivity.
  - cbn. lra.
  - exact cvd_tiny_shape_rrr_mean.
  - exists self', intr'. split; [exact Hrun |]. split; [exact Hget |].
    destruct (Hinv 1e9 eq_refl) as [Hcost _].
    change (cost_ppy_gamma intr'
            = (1e-13, 1e9 / (500000 * annuity 10 0.03) / Rmax 1e-13 1e-12))
      in Hcost.
    rewrite Rmax_right in Hcost by lra. rewrite Hcost. cbn [fst snd].
    assert (HD : 0 < annuity 10 0.03) by (apply annuity_pos; [lra | lia]).
    assert (Hc : 0 < 1e9 / (500000 * annuity 10 0.03))
      by (apply Rdiv_lt_0_compat; lra).
    set (c := 1e9 / (500000 * annuity 10 0.03)) in *.
    split.
    + intros Heq. injection Heq as Heq. lra.
    + lra.
Qed.

(** ** Calibrator: unknown keys and absent fields *)

Lemma set_intervention_same (self : UAEHealthAnalysis) (key : string)
  (intr : Intervention) :
  dict_get key (interventions (parameters self)) = Some intr ->
  set_intervention key intr self = self.
Proof.
  intros Hget. unfold set_intervention, set_parameters.
  rewrite (dict_set_unchanged _ _ _ Hget).
  destruct self as [[m hs pa pae ints] rs]. reflexivity.
Qed.

Lemma set_gamma_mean_in_range (k th : R) :
  gamma_in_range (k, th) -> set_gamma_mean k (Rmax 0.0 (k * th)) = (k, th).
Proof.
  unfold gamma_in_range, set_gamma_mean. cbn [fst snd]. intros [Hk Hth].
  assert (Hk0 : 0 < k) by lra.
  assert (Hkth : 0 <= k * th) by (apply Rmult_le_pos; lra).
  rewrite (Rmax_right 0.0) by lra. rewrite Rmax_left by lra.
  f_equal. field. lra.
Qed.

Lemma renormalize_in_range (intr : Intervention) :
  gamma_in_range (event_cost_gamma intr) ->
  gamma_in_range (productivity_cost_gamma intr) ->
  renormalize_gammas intr = intr.
Proof.
  intros Hev Hpr. unfold renormalize_gammas.
  destruct (event_cost_gamma intr) as [k_ev th_ev] eqn:Eev.
  destruct (productivity_cost_gamma intr) as [k_pr th_pr] eqn:Epr.
  rewrite (set_gamma_mean_in_range _ _ Hev), (set_gamma_mean_in_range _ _ Hpr).
  destruct intr. cbn in Eev, Epr. subst. reflexivity.
Qed.

(** A loaded program with an empty target: every step is skipped and the
    object is returned as it was. *)
Lemma calibrate_empty_target_noop (self : UAEHealthAnalysis) (key : string)
  (intr : Intervention) (rrr_mean : R) :
  1 + discount_rate (health_system (parameters self)) <> 0 ->
  dict_get key (interventions (parameters self)) = Some intr ->
  rrr_mean_of intr = Ok rrr_mean ->
  gamma_in_range (event_cost_gamma intr) ->
  gamma_in_range (productivity_cost_gamma intr) ->
  _calibrate_intervention self key empty_target = Ok self.
Proof.
  intros Hr Hget Hrrr Hev Hpr. unfold _calibrate_intervention.
  rewrite (discount_sum_ok _ _ Hr). cbn [bind].
  unfold dict_item. rewrite Hget. cbn [bind].
  destruct (Result_population intr <=? 0)%Z.
  - now rewrite set_intervention_same.
  - rewrite Hrrr. cbn [bind].
    cbn [calibrate_investment calibrate_events calibrate_deaths
         calibrate_cost_per_qaly empty_target t_investment t_events_prevented
         t_deaths_averted t_c_per_qaly present_and_truthy bind].
    rewrite (renormalize_in_range _ Hev Hpr). now rewrite set_intervention_same.
Qed.

Lemma renormalize_qalys_lost (intr : Intervention) :
  qalys_lost_per_event (renormalize_gammas intr) = qalys_lost_per_event intr.
Proof.
  unfold renormalize_gammas.
  destruct (event_cost_gamma intr), (productivity_cost_gamma intr). reflexivity.
Qed.

(** A target field that is absent leaves the parameter of its step as it
    was, whatever the other fields are. *)
Lemma calibrate_absent_fields (self : UAEHealthAnalysis) (key : string)
  (intr : Intervention) (tgt : Target) (rrr_mean : R) :
  dict_get key (interventions (parameters self)) = Some intr ->
  (0 < Result_population intr)%Z ->
  (0 < horizon_years (meta (parameters self)))%Z ->
  0 < 1 + discount_rate (health_system (parameters self)) ->
  rrr_mean_of intr = Ok rrr_mean ->
  exists (self' : UAEHealthAnalysis) (intr' : Intervention),
    _calibrate_intervention self key tgt = Ok self'
    /\ dict_get key (interventions (parameters self')) = Some intr'
    /\ (t_investment tgt = None -> cost_ppy_gamma intr' = cost_ppy_gamma intr)
    /\ (t_events_prevented tgt = None ->
        annual_event_rate intr' = annual_event_rate intr
        /\ rrr_beta intr' = rrr_beta intr)
    /\ (t_deaths_averted tgt = None ->
        case_fatality_rate intr' = case_fatality_rate intr)
    /\ (t_c_per_qaly tgt = None ->
        qalys_lost_per_event intr' = qalys_lost_per_event intr).
Proof.
  intros Hget HN HT Hr Hrrr.
  destruct (calibrate_intervention_eq self key intr tgt rrr_mean Hget HN HT Hr Hrrr)
    as (_ & _ & _ & i4 & _ & Hfr & Hnone & Hrun).
  pose proof (untouched_trans _ _ _ Hfr (renormalize_untouched i4)) as Hall.
  unfold untouched_by_late_steps in Hall. decompose [and] Hall. clear Hall.
  exists (set_intervention key (renormalize_gammas i4) self), (renormalize_gammas i4).
  split; [exact Hrun |].
  split; [cbn; apply dict_get_set_same |].
  split; [| split; [| split]].
  - intros Habs.
    match goal with Hc : cost_ppy_gamma _ = cost_ppy_gamma _ |- _ => rewrite Hc end.
    unfold after_deaths, after_events, after_investment. rewrite Habs.
    destruct_matches; reflexivity.
  - intros Habs. split.
    + match goal with
      | Hc : annual_event_rate _ = annual_event_rate _ |- _ => rewrite Hc
      end.
      unfold after_deaths, after_events, after_investment. rewrite Habs.
      cbn [present_and_truthy]. destruct_matches; reflexivity.
    + match goal with Hc : rrr_beta _ = rrr_beta _ |- _ => rewrite Hc end.
      unfold after_deaths, after_events, after_investment. rewrite Habs.
      cbn [present_and_truthy]. destruct_matches; reflexivity.
  - intros Habs.
    match goal with
    | Hc : case_fatality_rate _ = case_fatality_rate _ |- _ => rewrite Hc
    end.
    unfold after_deaths, after_events, after_investment. rewrite Habs.
    cbn [present_and_truthy]. destruct_matches; reflexivity.
  - intros Habs. rewrite (Hnone Habs), renormalize_qalys_lost.
    unfold after_deaths, after_events, after_investment.
    destruct_matches; reflexivity.
Qed.

(** C5 as stated fails.  A target for the key [stroke], which is not among
    the five loaded programs: [calibrate] returns normally, with the model
    unchanged. *)
Lemma calibrate_unknown_key_not_fatal :
  calibrate (new_analysis default_params)
    [("stroke", investment_only 1e9)] no_portfolio_targets
  = Ok ({| ch_per_intervention := ["stroke"];
           portfolio_first := false; adjusted := None |},
        new_analysis default_params)
  /\ dict_mem "stroke" (interventions default_params) = false
  /\ forall e : exn,
       calibrate (new_analysis default_params)
         [("stroke", investment_only 1e9)] no_portfolio_targets
       <> Raise e.
Proof.
  assert (Hrun : calibrate (G := unit) (new_analysis default_params)
                   [("stroke", investment_only 1e9)] no_portfolio_targets
                 = Ok ({| ch_per_intervention := ["stroke"];
                          portfolio_first := false; adjusted := None |},
                       new_analysis default_params)) by reflexivity.
  split; [exact Hrun |]. split; [reflexivity |].
  intros e He. rewrite Hrun in He. discriminate.
Qed.

(** ** Loading the literal table *)

(** The moment matching never raises on a proper Beta. *)
Lemma beta_to_lognormal_total (a b : R) :
  0 < a -> 0 < b ->
  exists mu sigma : R, _beta_rrr_to_lognormal_rr a b = Ok (mu, sigma).
Proof.
  intros Ha Hb. unfold _beta_rrr_to_lognormal_rr.
  rewrite !Rleb_false by lra. cbn [orb].
  rewrite pydiv_ok by lra. cbn [bind].
  assert (Hden : 0 < (a + b) ^ 2 * (a + b + 1))
    by (apply Rmult_lt_0_compat; [apply pow_lt |]; lra).
  rewrite pydiv_ok by lra. cbn [bind].
  set (mean_rr := Rmax 1e-8 (1 - a / (a + b))).
  set (var_rr := Rmax 1e-12 (a * b / ((a + b) ^ 2 * (a + b + 1)))).
  assert (Hmean : 0 < mean_rr) by (pose proof (Rmax_l 1e-8 (1 - a / (a + b))); unfold mean_rr; lra).
  assert (Hvar : 0 < var_rr)
    by (pose proof (Rmax_l 1e-12 (a * b / ((a + b) ^ 2 * (a + b + 1))));
        unfold var_rr; lra).
  assert (Hm2 : 0 < mean_rr ^ 2) by (apply pow_lt; assumption).
  rewrite pydiv_ok by lra. cbn [bind].
  assert (Hq : 0 < var_rr / mean_rr ^ 2) by (apply Rdiv_lt_0_compat; assumption).
  unfold pylog. rewrite (Rltb_true 0 (1 + _)) by lra. cbn [bind].
  rewrite (Rltb_true 0 mean_rr) by assumption. cbn [bind].
  eexists; eexists; reflexivity.
Qed.

Lemma derive_rr_lognormal_beta (intr : Intervention) (a b : R) :
  rr_lognormal intr = None -> rrr_beta intr = Some (a, b) ->
  0 < a -> 0 < b ->
  exists mu sigma : R,
    derive_rr_lognormal intr = Ok (set_rr_lognormal (Some (mu, sigma)) intr).
Proof.
  intros Hrr Hbeta Ha Hb. unfold derive_rr_lognormal. rewrite Hrr, Hbeta.
  destruct (beta_to_lognormal_total a b Ha Hb) as (mu & sigma & ->).
  cbn [bind]. exists mu, sigma. reflexivity.
Qed.

Lemma validate_default_params : _validate_parameters default_params = Ok tt.
Proof.
  unfold _validate_parameters, default_params, py_assert.
  cbn [meta health_system horizon_years discount_rate interventions
       dict_values map snd Z.ltb Z.compare andb].
  rewrite !Rleb_true by lra. cbn [andb bind mapM].
  unfold validate_intervention, py_assert, alzheimers, cancer, cvd, diabetes,
    osteoporosis, mk_intervention.
  cbn [annual_event_rate case_fatality_rate utility_weight].
  rewrite !Rleb_true by lra. rewrite !Rltb_true by lra.
  reflexivity.
Qed.

Ltac derive_default intr :=
  let mu := fresh "mu" in
  let sigma := fresh "sigma" in
  let Hd := fresh "Hd" in
  destruct (derive_rr_lognormal_beta intr _ _ eq_refl eq_refl) as (mu & sigma & Hd);
  [lra | lra | rewrite Hd; cbn [bind]].

(** [load_parameters] succeeds on the literal table; afterwards the
    cardiovascular program carries the [_exact] copies of its literal
    values and a derived lognormal. *)
Lemma load_default_params :
  exists (p1 : Parameters) (mu sigma : R),
    load_table default_params = Ok p1
    /\ meta p1 = meta default_params
    /\ health_system p1 = health_system default_params
    /\ dict_get "cvd" (interventions p1)
       = Some (add_exact_copies (set_rr_lognormal (Some (mu, sigma)) cvd)).
Proof.
  unfold load_table. rewrite validate_default_params. cbn [bind].
  unfold default_params at 1. cbn [interventions mapM].
  unfold load_intervention. cbn [fst snd].
  derive_default alzheimers. derive_default cancer. derive_default cvd.
  derive_default diabetes. derive_default osteoporosis.
  eexists; exists mu1, sigma1. split; [reflexivity |].
  split; [reflexivity |]. split; reflexivity.
Qed.

(** ** Calibration followed by a deterministic run *)

(** Calibration never writes a [_exact] key, the population or the
    lognormal channel. *)
Lemma calibrate_intervention_frame (self : UAEHealthAnalysis) (key : string)
  (intr : Intervention) (tgt : Target) (rrr_mean : R) :
  dict_get key (interventions (parameters self)) = Some intr ->
  (0 < Result_population intr)%Z ->
  (0 < horizon_years (meta (parameters self)))%Z ->
  0 < 1 + discount_rate (health_system (parameters self)) ->
  rrr_mean_of intr = Ok rrr_mean ->
  let N := IZR (Result_population intr) in
  let D := annuity (Z.to_nat (horizon_years (meta (parameters self))))
                   (discount_rate (health_system (parameters self))) in
  exists (self' : UAEHealthAnalysis) (intr' : Intervention),
    _calibrate_intervention self key tgt = Ok self'
    /\ dict_get key (interventions (parameters self')) = Some intr'
    /\ meta (parameters self') = meta (parameters self)
    /\ health_system (parameters self') = health_system (parameters self)
    /\ Result_population intr' = Result_population intr
    /\ cost_ppy_gamma_exact intr' = cost_ppy_gamma_exact intr
    /\ rr_ln_of intr' = rr_ln_of intr
    /\ (forall I_ : R,
          t_investment tgt = Some I_ ->
          cost_ppy_gamma intr'
          = (fst (cost_ppy_gamma intr),
             I_ / (N * D) / Rmax (fst (cost_ppy_gamma intr)) 1e-12)).
Proof.
  intros Hget HN HT Hr Hrrr N D.
  destruct (calibrate_intervention_eq self key intr tgt rrr_mean Hget HN HT Hr Hrrr)
    as (_ & _ & _ & i4 & _ & Hfr & _ & Hrun).
  fold N D in Hfr, Hrun.
  pose proof (untouched_trans _ _ _ Hfr (renormalize_untouched i4)) as Hall.
  unfold untouched_by_late_steps in Hall. decompose [and] Hall. clear Hall.
  exists (set_intervention key (renormalize_gammas i4) self), (renormalize_gammas i4).
  split; [exact Hrun |].
  split; [cbn; apply dict_get_set_same |].
  split; [reflexivity |]. split; [reflexivity |].
  split; [| split; [| split]].
  - match goal with
    | Hc : Result_population _ = Result_population _ |- _ => rewrite Hc
    end.
    unfold after_deaths, after_events, after_investment.
    destruct_matches; reflexivity.
  - match goal with
    | Hc : cost_ppy_gamma_exact _ = cost_ppy_gamma_exact _ |- _ => rewrite Hc
    end.
    unfold after_deaths, after_events, after_investment.
    destruct_matches; reflexivity.
  - assert (He : rr_lognormal_exact (renormalize_gammas i4) = rr_lognormal_exact intr).
    { match goal with
      | Hc : rr_lognormal_exact _ = rr_lognormal_exact _ |- _ => rewrite Hc
      end.
      unfold after_deaths, after_events, after_investment.
      destruct_matches; reflexivity. }
    assert (Hv : rr_lognormal (renormalize_gammas i4) = rr_lognormal intr).
    { match goal with
      | Hc : rr_lognormal _ = rr_lognormal _ |- _ => rewrite Hc
      end.
      unfold after_deaths, after_events, after_investment.
      destruct_matches; reflexivity. }
    unfold rr_ln_of. now rewrite He, Hv.
  - intros I_ HI.
    match goal with Hc : cost_ppy_gamma _ = cost_ppy_gamma _ |- _ => rewrite Hc end.
    unfold after_deaths, after_events, after_investment. rewrite HI.
    destruct_matches; reflexivity.
Qed.

Section RoundTrip.
Context {G : Type} `{Generator G}.

(** The investment a deterministic run reports after a calibration: the
    simulator reads [cost_ppy_gamma_exact] when the program carries it, and
    only otherwise the Gamma the calibration wrote. *)
Lemma calibrate_then_simulate (self : UAEHealthAnalysis) (key : string)
  (intr : Intervention) (tgt : Target) (mu sigma : R) :
  dict_get key (interventions (parameters self)) = Some intr ->
  (0 < Result_population intr)%Z ->
  (0 < horizon_years (meta (parameters self)))%Z ->
  0 < 1 + discount_rate (health_system (parameters self)) ->
  rr_ln_of intr = Some (mu, sigma) ->
  let N := IZR (Result_population intr) in
  let D := annuity (Z.to_nat (horizon_years (meta (parameters self))))
                   (discount_rate (health_system (parameters self))) in
  let written :=
    match t_investment tgt with
    | Some I_ => (fst (cost_ppy_gamma intr),
                  I_ / (N * D) / Rmax (fst (cost_ppy_gamma intr)) 1e-12)
    | None => cost_ppy_gamma intr
    end in
  let g := or_else (cost_ppy_gamma_exact intr) written in
  0 < N /\ 0 < D
  /\ exists (self' : UAEHealthAnalysis) (out : IterationResult),
       _calibrate_intervention self key tgt = Ok self'
       /\ (forall rng : G,
             _simulate_intervention self' key rng true = Ok (out, rng))
       /\ investment out = N * (fst g * snd g) * D.
Proof.
  intros Hget HN HT Hr Hln N D written g.
  assert (Hrrr : rrr_mean_of intr = Ok (1.0 - lognormal_mean mu sigma))
    by (unfold rrr_mean_of; now rewrite Hln).
  split; [apply (IZR_lt 0); assumption |].
  split; [apply annuity_pos; [assumption | lia] |].
  destruct (calibrate_intervention_frame self key intr tgt _ Hget HN HT Hr Hrrr)
    as (self' & intr' & Hrun & Hget' & Hmeta & Hhs & Hpop & Hexact & Hln' & Hinv).
  fold N D in Hinv.
  assert (Hdet : deterministic_rrr intr'
                 = Ok (1.0 - clamp (lognormal_mean mu sigma) 1e-6 0.999))
    by (unfold deterministic_rrr; now rewrite Hln', Hln).
  exists self',
    (closed_form (meta (parameters self')) (health_system (parameters self'))
       intr' (1.0 - clamp (lognormal_mean mu sigma) 1e-6 0.999)).
  split; [exact Hrun |]. split.
  - intros rng.
    apply (simulate_deterministic_eq self' key intr' rng
             (1.0 - clamp (lognormal_mean mu sigma) 1e-6 0.999) Hget');
      [rewrite Hhs; lra | exact Hdet].
  - unfold closed_form. cbn [investment]. rewrite Hmeta, Hhs, Hpop, Hexact.
    fold N D. unfold g, written.
    destruct (cost_ppy_gamma_exact intr) as [ge |]; cbn [or_else]; [reflexivity |].
    destruct (t_investment tgt) as [I_ |] eqn:HI.
    + now rewrite (Hinv I_ eq_refl).
    + assert (Hc : cost_ppy_gamma intr' = cost_ppy_gamma intr).
      { destruct (calibrate_absent_fields self key intr tgt _ Hget HN HT Hr Hrrr)
          as (self2 & intr2 & Hrun2 & Hget2 & Habs & _).
        rewrite Hrun in Hrun2. injection Hrun2 as <-.
        rewrite Hget' in Hget2. injection Hget2 as <-. exact (Habs HI). }
      now rewrite Hc.
Qed.

(** Without a [_exact] copy of the program cost the round trip is exact:
    the deterministic investment after calibration is the target. *)
Lemma roundtrip_without_exact_copy (self : UAEHealthAnalysis) (key : string)
  (intr : Intervention) (target : R) (mu sigma : R) :
  dict_get key (interventions (parameters self)) = Some intr ->
  (0 < Result_population intr)%Z ->
  (0 < horizon_years (meta (parameters self)))%Z ->
  0 < 1 + discount_rate (health_system (parameters self)) ->
  rr_ln_of intr = Some (mu, sigma) ->
  cost_ppy_gamma_exact intr = None ->
  1e-12 <= fst (cost_ppy_gamma intr) ->
  exists (self' : UAEHealthAnalysis) (out : IterationResult),
    _calibrate_intervention self key (investment_only target) = Ok self'
    /\ (forall rng : G, _simulate_intervention self' key rng true = Ok (out, rng))
    /\ investment out = target.
Proof.
  intros Hget HN HT Hr Hln Hnone Hshape.
  destruct (calibrate_then_simulate self key intr (investment_only target)
              mu sigma Hget HN HT Hr Hln)
    as (HN' & HD & self' & out & Hrun & Hsim & Hinv).
  exists self', out. split; [exact Hrun |]. split; [exact Hsim |].
  rewrite Hinv, Hnone. cbn [or_else investment_only t_investment fst snd].
  rewrite Rmax_left by lra. field. repeat split; lra.
Qed.

(** With a [_exact] copy the target is ignored: the deterministic
    investment after calibration is the one before it. *)
Lemma roundtrip_with_exact_copy (self : UAEHealthAnalysis) (key : string)
  (intr : Intervention) (tgt : Target) (mu sigma : R) (ge : R * R) :
  dict_get key (interventions (parameters self)) = Some intr ->
  (0 < Result_population intr)%Z ->
  (0 < horizon_years (meta (parameters self)))%Z ->
  0 < 1 + discount_rate (health_system (parameters self)) ->
  rr_ln_of intr = Some (mu, sigma) ->
  cost_ppy_gamma_exact intr = Some ge ->
  exists (self' : UAEHealthAnalysis) (out : IterationResult),
    _calibrate_intervention self key tgt = Ok self'
    /\ (forall rng : G, _simulate_intervention self' key rng true = Ok (out, rng))
    /\ investment out
       = IZR (Result_population intr) * (fst ge * snd ge)
         * annuity (Z.to_nat (horizon_years (meta (parameters self))))
                   (discount_rate (health_system (parameters self))).
Proof.
  intros Hget HN HT Hr Hln Hsome.
  destruct (calibrate_then_simulate self key intr tgt mu sigma Hget HN HT Hr Hln)
    as (_ & _ & self' & out & Hrun & Hsim & Hinv).
  exists self', out. split; [exact Hrun |]. split; [exact Hsim |].
  rewrite Hinv, Hsome. reflexivity.
Qed.
End RoundTrip.

(** C3 (the code departs from the claim). The cardiovascular program
    ([N = 500000]) of the loaded literal table ([T = 10], [r = 0.03]),
    calibrated toward [{investment: 1e9}] and evaluated deterministically:
    the investment is [500000 * (5.0 * 384.5160616649235) * D], about
    [8.2e9], because the simulator reads [cost_ppy_gamma_exact], which the
    calibration does not write.  It misses [1e9] by far more than
    [1e-6 * 1e9]. *)
Theorem calibrate_roundtrip_loaded_cvd :
  exists (self1 : UAEHealthAnalysis) (changes : Changes)
         (self2 : UAEHealthAnalysis) (out : IterationResult),
    load_parameters (new_analysis default_params) = Ok self1
    /\ calibrate self1 [("cvd", investment_only 1e9)] no_portfolio_targets
       = Ok (changes, self2)
    /\ _simulate_intervention self2 "cvd" tt true = Ok (out, tt)
    /\ investment out = 500000 * (5.0 * 384.5160616649235) * annuity 10 0.03
    /\ 1e-6 * 1e9 < Rabs (investment out - 1e9)
    /\ 8e9 < investment out.
Proof.
  destruct load_default_params as (p1 & mu & sigma & Hload & Hmeta & Hhs & Hget).
  set (self1 := set_parameters p1 (new_analysis default_params)).
  set (i1 := add_exact_copies (set_rr_lognormal (Some (mu, sigma)) cvd)) in Hget.
  destruct (roundtrip_with_exact_copy (G := unit) self1 "cvd" i1
              (investment_only 1e9) mu sigma (5.0, 384.5160616649235))
    as (self2 & out & Hrun & Hsim & Hinv).
  - exact Hget.
  - reflexivity.
  - cbn [self1 parameters set_parameters]. rewrite Hmeta. reflexivity.
  - cbn [self1 parameters set_parameters]. rewrite Hhs. cbn. lra.
  - reflexivity.
  - reflexivity.
  - cbn [self1 parameters set_parameters] in Hinv. rewrite Hmeta, Hhs in Hinv.
    change (investment out
            = 500000 * (5.0 * 384.5160616649235) * annuity 10 0.03) in Hinv.
    exists self1, {| ch_per_intervention := ["cvd"]; portfolio_first := false;
                     adjusted := None |}, self2, out.
    split; [unfold load_parameters; rewrite Hload; reflexivity |].
    split.
    { unfold calibrate. cbn [calibrate_each]. unfold dict_mem.
      change (parameters self1) with p1. rewrite Hget, Hrun. reflexivity. }
    split; [apply Hsim |]. split; [exact Hinv |].
    pose proof annuity_10_3_percent as [Hlo Hhi]. rewrite Hinv.
    split; [rewrite Rabs_right |]; nra.
Qed.

(** * Further properties of the engine *)

(** ** The discount sum *)

Lemma mapM_head_raises {A B : Type} (f : A -> res B) (x : A) (l : list A)
  (e : exn) :
  f x = Raise e -> mapM f (x :: l) = Raise e.
Proof. intros Hx. cbn [mapM]. now rewrite Hx. Qed.

Lemma INR_to_nat (T : Z) : INR (Z.to_nat T) = IZR (Z.max 0 T).
Proof.
  rewrite INR_IZR_INZ. f_equal.
  destruct (Z.le_gt_cases 0 T) as [Hle | Hgt].
  - rewrite Z2Nat.id by assumption. lia.
  - replace (Z.to_nat T) with 0%nat by lia. simpl. lia.
Qed.

(** X1. At a zero discount rate the discount sum is the horizon itself:
    [discount_sum(T, 0) = T] for [T >= 0], and [0] for a negative [T]. *)
Theorem discount_sum_zero_rate (T : Z) :
  discount_sum T 0 = Ok (IZR (Z.max 0 T)).
Proof.
  rewrite discount_sum_ok by lra.
  now rewrite annuity_zero_rate, INR_to_nat.
Qed.

(** X2. The two edges of [discount_sum].  With a horizon [T <= 0] no term
    is computed and the sum is 0 whatever the rate, [r = -1] included; with
    a positive horizon and [r = -1] the first term divides by zero and
    [ZeroDivisionError] is raised. *)
Theorem discount_sum_edges (T : Z) (r : R) :
  ((T <= 0)%Z -> discount_sum T r = Ok 0)
  /\ ((0 < T)%Z -> discount_sum T (-1) = Raise ZeroDivisionError).
Proof.
  split.
  - intros HT. unfold discount_sum.
    replace (Z.to_nat T) with 0%nat by lia. reflexivity.
  - intros HT. unfold discount_sum.
    destruct (Z.to_nat T) as [| n] eqn:Hn; [lia |].
    cbn [seq]. rewrite (mapM_head_raises _ _ _ ZeroDivisionError); [reflexivity |].
    unfold pydiv. rewrite Reqb_true; [reflexivity |]. simpl. lra.
Qed.

Lemma discount_sum_edges_witness :
  discount_sum 0 (-1) = Ok 0
  /\ discount_sum 10 (-1) = Raise ZeroDivisionError.
Proof.
  split.
  - apply (proj1 (discount_sum_edges 0 (-1))). lia.
  - apply (proj2 (discount_sum_edges 10 (-1))). lia.
Defined.

Lemma pow_lt_strict (x y : R) (n : nat) :
  0 < x -> x < y -> x ^ S n < y ^ S n.
Proof.
  intros Hx Hxy. induction n as [| n IH].
  - simpl. lra.
  - change (x ^ S (S n)) with (x * x ^ S n).
    change (y ^ S (S n)) with (y * y ^ S n).
    assert (0 < x ^ S n) by (apply pow_lt; assumption).
    nra.
Qed.

Lemma annuity_term_decreasing (r1 r2 : R) (n : nat) :
  0 < 1 + r1 -> r1 < r2 -> 1 / (1 + r2) ^ S n < 1 / (1 + r1) ^ S n.
Proof.
  intros Hr Hlt.
  assert (H1 : 0 < (1 + r1) ^ S n) by (apply pow_lt; lra).
  assert (H2 : (1 + r1) ^ S n < (1 + r2) ^ S n) by (apply pow_lt_strict; lra).
  unfold Rdiv. rewrite !Rmult_1_l. apply Rinv_lt_contravar; [nra | assumption].
Qed.

Lemma annuity_decreasing (r1 r2 : R) (n : nat) :
  0 < 1 + r1 -> r1 < r2 -> annuity (S n) r2 < annuity (S n) r1.
Proof.
  intros Hr Hlt. induction n as [| n IH].
  - cbn [annuity]. pose proof (annuity_term_decreasing r1 r2 0 Hr Hlt). lra.
  - change (annuity (S (S n)) r2) with (annuity (S n) r2 + 1 / (1 + r2) ^ S (S n)).
    change (annuity (S (S n)) r1) with (annuity (S n) r1 + 1 / (1 + r1) ^ S (S n)).
    pose proof (annuity_term_decreasing r1 r2 (S n) Hr Hlt). lra.
Qed.

Lemma annuity_le_horizon (r : R) (n : nat) : 0 <= r -> annuity n r <= INR n.
Proof.
  intros Hr. induction n as [| n IH].
  - simpl. lra.
  - cbn [annuity]. rewrite S_INR.
    assert (H1 : 1 <= (1 + r) ^ S n) by (apply pow_R1_Rle; lra).
    assert (H2 : 1 / (1 + r) ^ S n <= 1).
    { unfold Rdiv. rewrite Rmult_1_l.
      assert (H3 : 0 < / (1 + r) ^ S n) by (apply Rinv_0_lt_compat; lra).
      assert (H4 : (1 + r) ^ S n * / (1 + r) ^ S n = 1) by (apply Rinv_r; lra).
      nra. }
    lra.
Qed.

(** X3. For a positive horizon the discount sum is strictly decreasing in
    the rate on [r > -1], positive, and at most the horizon for [r >= 0]. *)
Theorem discount_sum_decreasing (T : Z) (r1 r2 : R) :
  (0 < T)%Z -> 0 < 1 + r1 -> r1 < r2 ->
  exists d1 d2 : R,
    discount_sum T r1 = Ok d1
    /\ discount_sum T r2 = Ok d2
    /\ 0 < d2 < d1
    /\ (0 <= r1 -> d1 <= IZR T).
Proof.
  intros HT Hr Hlt.
  exists (annuity (Z.to_nat T) r1), (annuity (Z.to_nat T) r2).
  rewrite !discount_sum_ok by lra.
  split; [reflexivity |]. split; [reflexivity |].
  destruct (Z.to_nat T) as [| n] eqn:Hn; [lia |].
  split; [split |].
  - apply annuity_pos; [lra | lia].
  - now apply annuity_decreasing.
  - intros H0. rewrite <- Hn.
    replace (IZR T) with (INR (Z.to_nat T)) by (rewrite INR_to_nat; f_equal; lia).
    now apply annuity_le_horizon.
Qed.

Lemma discount_sum_decreasing_witness :
  exists d1 d2 : R,
    discount_sum 10 0.03 = Ok d1 /\ discount_sum 10 0.05 = Ok d2 /\ d2 < d1.
Proof.
  destruct (discount_sum_decreasing 10 0.03 0.05) as (d1 & d2 & H1 & H2 & H3 & _).
  - lia.
  - lra.
  - lra.
  - exists d1, d2. split; [exact H1 |]. split; [exact H2 | apply H3].
Defined.

(** ** Moment matching *)

Lemma beta_to_lognormal_eq (a b : R) :
  0 < a -> 0 < b ->
  _beta_rrr_to_lognormal_rr a b = Ok (lognormal_of_beta a b).
Proof.
  intros Ha Hb. unfold _beta_rrr_to_lognormal_rr, lognormal_of_beta.
  rewrite !Rleb_false by lra. cbn [orb].
  rewrite pydiv_ok by lra. cbn [bind].
  assert (Hden : 0 < (a + b) ^ 2 * (a + b + 1))
    by (apply Rmult_lt_0_compat; [apply pow_lt |]; lra).
  rewrite pydiv_ok by lra. cbn [bind].
  set (mean_rr := Rmax 1e-8 (1 - a / (a + b))).
  set (var_rr := Rmax 1e-12 (a * b / ((a + b) ^ 2 * (a + b + 1)))).
  assert (Hmean : 0 < mean_rr)
    by (pose proof (Rmax_l 1e-8 (1 - a / (a + b))); unfold mean_rr; lra).
  assert (Hvar : 0 < var_rr)
    by (pose proof (Rmax_l 1e-12 (a * b / ((a + b) ^ 2 * (a + b + 1))));
        unfold var_rr; lra).
  assert (Hm2 : 0 < mean_rr ^ 2) by (apply pow_lt; assumption).
  rewrite pydiv_ok by lra. cbn [bind].
  assert (Hq : 0 < var_rr / mean_rr ^ 2) by (apply Rdiv_lt_0_compat; assumption).
  unfold pylog. rewrite (Rltb_true 0 (1 + _)) by lra. cbn [bind].
  rewrite (Rltb_true 0 mean_rr) by assumption. reflexivity.
Qed.

Lemma lognormal_of_beta_moments (a b : R) :
  0 < a -> 0 < b ->
  1e-6 <= snd (lognormal_of_beta a b)
  /\ lognormal_mean (fst (lognormal_of_beta a b)) (snd (lognormal_of_beta a b))
     = Rmax 1e-8 (b / (a + b)).
Proof.
  intros Ha Hb. unfold lognormal_of_beta. cbn [fst snd].
  set (mean_rr := Rmax 1e-8 (1 - a / (a + b))).
  set (sigma2 := Rmax 1e-12 _).
  assert (Hs2 : 1e-12 <= sigma2) by apply Rmax_l.
  assert (Hmean : 0 < mean_rr)
    by (pose proof (Rmax_l 1e-8 (1 - a / (a + b))); unfold mean_rr; lra).
  split.
  - replace 1e-6 with (sqrt (1e-6 * 1e-6)) by (apply sqrt_square; lra).
    apply sqrt_le_1; lra.
  - unfold lognormal_mean.
    replace (sqrt sigma2 ^ 2) with sigma2
      by (simpl; rewrite Rmult_1_r, sqrt_sqrt; lra).
    replace (ln mean_rr - 0.5 * sigma2 + 0.5 * sigma2) with (ln mean_rr) by lra.
    rewrite exp_ln by assumption. unfold mean_rr. f_equal. field. lra.
Qed.

(** X4. The moment matching rejects a Beta with a non-positive parameter,
    with a [ValueError], and raises in no other case. *)
Theorem beta_to_lognormal_raises_iff (a b : R) :
  ((exists e : exn, _beta_rrr_to_lognormal_rr a b = Raise e)
   <-> a <= 0 \/ b <= 0)
  /\ (forall e : exn, _beta_rrr_to_lognormal_rr a b = Raise e -> e = ValueError).
Proof.
  destruct (Rle_dec a 0) as [Ha | Ha].
  - assert (Hr : _beta_rrr_to_lognormal_rr a b = Raise ValueError)
      by (unfold _beta_rrr_to_lognormal_rr; now rewrite (Rleb_true a 0)).
    rewrite Hr. split; [split; [intros _; now left | intros _; now eexists] |].
    intros e He. now injection He as <-.
  - destruct (Rle_dec b 0) as [Hb | Hb].
    + assert (Hr : _beta_rrr_to_lognormal_rr a b = Raise ValueError)
        by (unfold _beta_rrr_to_lognormal_rr;
            now rewrite (Rleb_true b 0), orb_true_r).
      rewrite Hr. split; [split; [intros _; now right | intros _; now eexists] |].
      intros e He. now injection He as <-.
    + rewrite beta_to_lognormal_eq by lra.
      split; [split |]; [intros [e He]; discriminate | intros [H0 | H0]; lra |].
      intros e He. discriminate.
Qed.

(** X5. On a proper Beta over RRR the moment matching returns a lognormal
    over RR whose [sigma] is at least [1e-6] and whose mean is the Beta's
    complement mean [b / (a + b)], floored at [1e-8]; when the Beta mean
    lies in [[0.001, 1 - 1e-6]] the deterministic risk reduction read back
    through the clamp is the Beta mean [a / (a + b)] again. *)
Theorem beta_to_lognormal_matches_mean (a b : R) :
  0 < a -> 0 < b ->
  exists mu sigma : R,
    _beta_rrr_to_lognormal_rr a b = Ok (mu, sigma)
    /\ 1e-6 <= sigma
    /\ lognormal_mean mu sigma = Rmax 1e-8 (b / (a + b))
    /\ (0.001 <= a / (a + b) <= 1 - 1e-6 ->
        1.0 - clamp (lognormal_mean mu sigma) 1e-6 0.999 = a / (a + b)).
Proof.
  intros Ha Hb.
  destruct (lognormal_of_beta_moments a b Ha Hb) as [Hsigma Hmean].
  exists (fst (lognormal_of_beta a b)), (snd (lognormal_of_beta a b)).
  rewrite <- surjective_pairing.
  split; [now apply beta_to_lognormal_eq |].
  split; [exact Hsigma |]. split; [exact Hmean |].
  intros Hrange. rewrite Hmean.
  assert (Hb' : b / (a + b) = 1 - a / (a + b)) by (field; lra).
  rewrite Hb'. rewrite Rmax_right by lra.
  unfold clamp. rewrite Rmin_right by lra. rewrite Rmax_right by lra. lra.
Qed.

Lemma beta_to_lognormal_matches_mean_witness :
  exists mu sigma : R,
    _beta_rrr_to_lognormal_rr 103.75 396.25 = Ok (mu, sigma)
    /\ 1.0 - clamp (lognormal_mean mu sigma) 1e-6 0.999
       = 103.75 / (103.75 + 396.25).
Proof.
  destruct (beta_to_lognormal_matches_mean 103.75 396.25)
    as (mu & sigma & Hrun & _ & _ & Hback).
  - lra.
  - lra.
  - exists mu, sigma. split; [exact Hrun |]. apply Hback. lra.
Defined.

(** ** The simulator: what every pass keeps *)

Section PassFacts.
Context {G : Type} `{Generator G}.

Lemma draw_channels_rrr_bounds (intr : Intervention) (rng rng' : G)
  (deterministic : bool) (c1 c2 c3 rrr mu sigma : R) :
  rr_ln_of intr = Some (mu, sigma) ->
  draw_channels intr rng deterministic = Ok (c1, c2, c3, rrr, rng') ->
  0.001 <= rrr <= 1 - 1e-6.
Proof.
  intros Hln. unfold draw_channels.
  destruct (or_else (cost_ppy_gamma_exact intr) (cost_ppy_gamma intr)) as [k_c th_c].
  destruct (or_else (event_cost_gamma_exact intr) (event_cost_gamma intr))
    as [k_ev th_ev].
  destruct (or_else (productivity_cost_gamma_exact intr)
              (productivity_cost_gamma intr)) as [k_pr th_pr].
  destruct deterministic.
  - unfold deterministic_rrr. rewrite Hln. cbn [bind].
    intros Hd. injection Hd as _ _ _ <- _.
    pose proof (clamp_bounds (lognormal_mean mu sigma) 1e-6 0.999). lra.
  - destruct (pydiv _ _) as [th |]; cbn [bind]; [| discriminate].
    destruct (rng_gamma rng _ _) as [x1 g1].
    destruct (rng_gamma g1 _ _) as [x2 g2].
    destruct (rng_gamma g2 _ _) as [x3 g3].
    rewrite Hln. destruct (rng_lognormal g3 mu sigma) as [rr g4].
    intros Hd. injection Hd as _ _ _ <- _.
    pose proof (clamp_bounds rr 1e-6 0.999). lra.
Qed.

(** One pass that returned, taken apart. *)
Lemma simulate_inv (self : UAEHealthAnalysis) (key : string) (rng rng' : G)
  (deterministic : bool) (out : IterationResult) :
  _simulate_intervention self key rng deterministic = Ok (out, rng') ->
  exists (intr : Intervention) (D cost_ppy cost_event prod_event rrr : R),
    dict_get key (interventions (parameters self)) = Some intr
    /\ discount_sum (horizon_years (meta (parameters self)))
         (discount_rate (health_system (parameters self))) = Ok D
    /\ draw_channels intr rng deterministic
       = Ok (cost_ppy, cost_event, prod_event, rrr, rng')
    /\ let N := IZR (Result_population intr) in
       let p := or_else (annual_event_rate_exact intr) (annual_event_rate intr) in
       let cfr := or_else (case_fatality_rate_exact intr) (case_fatality_rate intr) in
       let T := IZR (horizon_years (meta (parameters self))) in
       investment out = N * cost_ppy * D
       /\ events_prevented out = N * p * rrr * T
       /\ deaths_averted out = events_prevented out * cfr.
Proof.
  unfold _simulate_intervention, dict_item.
  destruct (dict_get key _) as [intr |]; cbn [bind]; [| discriminate].
  destruct (discount_sum _ _) as [D |]; cbn [bind]; [| discriminate].
  destruct (draw_channels intr rng deterministic)
    as [[[[[cost_ppy cost_event] prod_event] rrr] g] |] eqn:Hd; cbn [bind];
    [| discriminate].
  intros Hout. injection Hout as <- <-.
  exists intr, D, cost_ppy, cost_event, prod_event, rrr.
  split; [reflexivity |]. split; [reflexivity |]. split; [exact Hd |].
  cbn. repeat split; lra.
Qed.

(** X6. With the lognormal channel, every pass that returns, deterministic
    or sampled with any generator, prevents between 0.1% and (1 - 1e-6) of
    the baseline events [N * rate * T], and averts exactly the case-fatality
    share of them, so never more deaths than events. *)
Theorem pass_events_within_baseline (self : UAEHealthAnalysis) (key : string)
  (intr : Intervention) (rng rng' : G) (deterministic : bool)
  (out : IterationResult) (mu sigma : R) :
  dict_get key (interventions (parameters self)) = Some intr ->
  rr_ln_of intr = Some (mu, sigma) ->
  (0 <= Result_population intr)%Z ->
  (0 <= horizon_years (meta (parameters self)))%Z ->
  0 <= or_else (annual_event_rate_exact intr) (annual_event_rate intr) ->
  0 <= or_else (case_fatality_rate_exact intr) (case_fatality_rate intr) <= 1 ->
  _simulate_intervention self key rng deterministic = Ok (out, rng') ->
  let baseline :=
    IZR (Result_population intr)
    * or_else (annual_event_rate_exact intr) (annual_event_rate intr)
    * IZR (horizon_years (meta (parameters self))) in
  0.001 * baseline <= events_prevented out <= (1 - 1e-6) * baseline
  /\ deaths_averted out
     = events_prevented out
       * or_else (case_fatality_rate_exact intr) (case_fatality_rate intr)
  /\ 0 <= deaths_averted out <= events_prevented out.
Proof.
  intros Hget Hln HN HT Hp Hcfr Hrun baseline.
  destruct (simulate_inv _ _ _ _ _ _ Hrun)
    as (intr0 & D & c1 & c2 & c3 & rrr & Hget0 & _ & Hd & Hinv & Hev & Hde).
  rewrite Hget in Hget0. injection Hget0 as <-.
  pose proof (draw_channels_rrr_bounds _ _ _ _ _ _ _ _ _ _ Hln Hd) as Hrrr.
  apply IZR_le in HN, HT.
  set (N := IZR (Result_population intr)) in *.
  set (T := IZR (horizon_years (meta (parameters self)))) in *.
  set (p := or_else (annual_event_rate_exact intr) (annual_event_rate intr)) in *.
  set (cfr := or_else (case_fatality_rate_exact intr) (case_fatality_rate intr)) in *.
  assert (Hb : 0 <= baseline)
    by (unfold baseline; repeat apply Rmult_le_pos; assumption).
  assert (Hev' : events_prevented out = baseline * rrr)
    by (rewrite Hev; unfold baseline; ring).
  rewrite Hde, Hev'.
  assert (He1 : 0.001 * baseline <= baseline * rrr) by nra.
  assert (He2 : baseline * rrr <= (1 - 1e-6) * baseline) by nra.
  set (e := baseline * rrr) in *.
  assert (He0 : 0 <= e) by lra.
  split; [split; assumption |]. split; [reflexivity |]. split; nra.
Qed.
End PassFacts.

Lemma cvd_lognormal_pass :
  _simulate_intervention (new_analysis (single_program "cvd" cvd_lognormal))
    "cvd" tt true
  = Ok (closed_form (meta default_params) (health_system default_params)
          cvd_lognormal (1.0 - clamp (lognormal_mean (-0.25) 0.1) 1e-6 0.999), tt).
Proof.
  apply (simulate_deterministic_eq
           (new_analysis (single_program "cvd" cvd_lognormal)) "cvd"
           cvd_lognormal tt).
  - reflexivity.
  - cbn. lra.
  - reflexivity.
Qed.

Lemma pass_events_within_baseline_witness :
  exists out : IterationResult,
    _simulate_intervention (new_analysis (single_program "cvd" cvd_lognormal))
      "cvd" tt true = Ok (out, tt)
    /\ 0 <= deaths_averted out <= events_prevented out.
Proof.
  eexists. split; [exact cvd_lognormal_pass |].
  refine (proj2 (proj2 (pass_events_within_baseline (G := unit)
            (new_analysis (single_program "cvd" cvd_lognormal)) "cvd"
            cvd_lognormal tt tt true _ (-0.25) 0.1 _ _ _ _ _ _
            cvd_lognormal_pass))).
  - reflexivity.
  - reflexivity.
  - cbn. lia.
  - cbn. lia.
  - cbn. lra.
  - cbn. lra.
Defined.

Section DeterministicFacts.
Context {G : Type} `{Generator G}.

(** X7. A deterministic pass over non-negative parameters, a horizon that
    is not negative and a rate above -1 returns six values that are not
    negative. *)
Theorem deterministic_pass_nonnegative (self : UAEHealthAnalysis)
  (key : string) (intr : Intervention) (rng : G) (rrr : R) :
  dict_get key (interventions (parameters self)) = Some intr ->
  nonnegative_inputs intr ->
  (0 <= horizon_years (meta (parameters self)))%Z ->
  0 < 1 + discount_rate (health_system (parameters self)) ->
  deterministic_rrr intr = Ok rrr -> 0 <= rrr ->
  exists out : IterationResult,
    _simulate_intervention self key rng true = Ok (out, rng)
    /\ 0 <= investment out /\ 0 <= hc_savings out /\ 0 <= soc_savings out
    /\ 0 <= qalys out /\ 0 <= events_prevented out /\ 0 <= deaths_averted out.
Proof.
  intros Hget Hnn HT Hr Hrrr Hrrr0.
  destruct Hnn as (HN & Hp & Hcfr & Hu & Hq & Hly & Hc & Hev & Hpr).
  eexists. split.
  - apply (simulate_deterministic_eq self key intr rng rrr Hget); [lra | exact Hrrr].
  - unfold closed_form.
    cbn [investment hc_savings soc_savings qalys events_prevented deaths_averted].
    apply IZR_le in HN, HT.
    pose proof (annuity_nonneg
                  (Z.to_nat (horizon_years (meta (parameters self))))
                  (discount_rate (health_system (parameters self))) Hr) as HD.
    assert (Hprev : 0 <= IZR (Result_population intr)
                         * or_else (annual_event_rate_exact intr)
                                   (annual_event_rate intr) * rrr)
      by (repeat apply Rmult_le_pos; assumption).
    set (c_c := fst _ * snd _) in Hc |- *.
    set (c_ev := fst _ * snd _) in Hev |- *.
    set (c_pr := fst _ * snd _) in Hpr |- *.
    clearbody c_c c_ev c_pr.
    repeat split.
    + repeat apply Rmult_le_pos; assumption.
    + repeat apply Rmult_le_pos; assumption.
    + destruct (is_societal _); [repeat apply Rmult_le_pos; assumption | lra].
    + repeat apply Rmult_le_pos; try assumption.
      apply Rplus_le_le_0_compat; [| apply Rmult_le_pos]; assumption.
    + repeat apply Rmult_le_pos; assumption.
    + repeat apply Rmult_le_pos; assumption.
Qed.

(** A deterministic pass does not touch the generator: it returns it as it
    got it, and returns the same values on any other one. *)
Lemma simulate_deterministic_rng (self : UAEHealthAnalysis) (key : string)
  (rng1 rng2 : G) :
  _simulate_intervention self key rng1 true
  = match _simulate_intervention self key rng2 true with
    | Ok (out, _) => Ok (out, rng1)
    | Raise e => Raise e
    end.
Proof.
  unfold _simulate_intervention, dict_item.
  destruct (dict_get key _) as [intr |]; cbn [bind]; [| reflexivity].
  destruct (discount_sum _ _) as [D |]; cbn [bind]; [| reflexivity].
  unfold draw_channels.
  destruct (or_else (cost_ppy_gamma_exact intr) (cost_ppy_gamma intr)) as [k_c th_c].
  destruct (or_else (event_cost_gamma_exact intr) (event_cost_gamma intr))
    as [k_ev th_ev].
  destruct (or_else (productivity_cost_gamma_exact intr)
              (productivity_cost_gamma intr)) as [k_pr th_pr].
  destruct (deterministic_rrr intr) as [rrr |]; reflexivity.
Qed.

Lemma simulate_each_deterministic_rng (self : UAEHealthAnalysis)
  (keys : list string) (rng1 rng2 : G) :
  simulate_each self keys rng1 true
  = match simulate_each self keys rng2 true with
    | Ok (per, _) => Ok (per, rng1)
    | Raise e => Raise e
    end.
Proof.
  revert rng1 rng2. induction keys as [| k tl IH]; intros rng1 rng2;
    cbn [simulate_each].
  - reflexivity.
  - rewrite (simulate_deterministic_rng self k rng1 rng2).
    destruct (_simulate_intervention self k rng2 true) as [[v g] |];
      cbn [bind]; [| reflexivity].
    rewrite (IH rng1 g).
    destruct (simulate_each self tl g true) as [[rest g'] |]; reflexivity.
Qed.

(** X8. With [deterministic=True] the seed plays no part: for any two
    seeds the generator constructor accepts (seeds that are not negative),
    [run_markov_models] returns the same result, or raises the same
    exception. *)
Theorem run_markov_models_deterministic_seed (self : UAEHealthAnalysis)
  (seed1 seed2 : Z) :
  (0 <= seed1)%Z -> (0 <= seed2)%Z ->
  run_markov_models self true seed1 = run_markov_models self true seed2.
Proof.
  intros _ _. unfold run_markov_models.
  rewrite (simulate_each_deterministic_rng self _ (default_rng seed1)
             (default_rng seed2)).
  destruct (simulate_each self _ (default_rng seed2) true) as [[per g] |];
    reflexivity.
Qed.
End DeterministicFacts.

Lemma deterministic_pass_nonnegative_witness :
  exists out : IterationResult,
    _simulate_intervention (new_analysis (single_program "cvd" cvd)) "cvd" tt true
    = Ok (out, tt)
    /\ 0 <= investment out.
Proof.
  destruct (deterministic_pass_nonnegative (G := unit)
              (new_analysis (single_program "cvd" cvd)) "cvd" cvd tt cvd_rrr)
    as (out & Hrun & Hinv & _).
  - reflexivity.
  - unfold nonnegative_inputs. cbn. repeat split; try lia; lra.
  - cbn. lia.
  - cbn. lra.
  - exact cvd_deterministic_rrr.
  - unfold cvd_rrr. lra.
  - exists out. split; [exact Hrun | exact Hinv].
Defined.

Lemma run_markov_models_deterministic_seed_witness :
  run_markov_models (H := mean_generator)
    (new_analysis (single_program "cvd" cvd)) true 1
  = run_markov_models (H := mean_generator)
      (new_analysis (single_program "cvd" cvd)) true 123.
Proof.
  apply (run_markov_models_deterministic_seed (H := mean_generator)
           (new_analysis (single_program "cvd" cvd)) 1 123); lia.
Defined.

(** ** The portfolio: degenerate deaths, return on investment *)

Section PortfolioEdges.
Context {G : Type} `{Generator G}.

(** X9. When the per-program deaths sum to zero, [run_markov_models] skips
    the reconciliation: no division is attempted, every per-program result
    is returned as simulated, and the portfolio deaths are zero. *)
Theorem run_markov_models_zero_deaths (self : UAEHealthAnalysis)
  (deterministic : bool) (seed : Z) (per : list (string * IterationResult))
  (rng' : G) :
  simulate_each self (dict_keys (interventions (parameters self)))
    (default_rng seed) deterministic = Ok (per, rng') ->
  sum_of deaths_averted per = 0 ->
  exists (out : MarkovOut) (self' : UAEHealthAnalysis),
    run_markov_models self deterministic seed = Ok (out, self')
    /\ per_intervention out = per
    /\ pf_deaths_averted (portfolio out) = 0
    /\ markov (results self') = Some out.
Proof.
  intros Hper Hsum.
  destruct (run_markov_models_eq self deterministic seed per rng' Hper)
    as (per' & Hrec & _ & Hrun).
  rewrite (reconcile_deaths_zero _ _ Hsum) in Hrec. injection Hrec as <-.
  eexists; eexists. split; [exact Hrun |].
  cbn [per_intervention portfolio]. split; [reflexivity |].
  split; [| reflexivity].
  unfold adjusted_portfolio. cbn [pf_deaths_averted]. rewrite Hsum. lra.
Qed.

(** What [run_markov_models] leaves in the object is what it returns. *)
Lemma run_markov_models_stores (self self' : UAEHealthAnalysis)
  (deterministic : bool) (seed : Z) (out : MarkovOut) :
  run_markov_models self deterministic seed = Ok (out, self') ->
  markov (results self') = Some out
  /\ pf_total_savings (portfolio out)
     = pf_hc_savings (portfolio out) + pf_soc_savings (portfolio out).
Proof.
  unfold run_markov_models.
  destruct (simulate_each self _ _ deterministic) as [[per g] |]; cbn [bind];
    [| discriminate].
  destruct (reconcile_deaths _ per) as [per' |]; cbn [bind]; [| discriminate].
  intros Hout. injection Hout as <- <-. split; reflexivity.
Qed.

Lemma calculate_roi_eq (self : UAEHealthAnalysis) (m : MarkovOut) :
  markov (results self) = Some m ->
  let invest := pf_investment (portfolio m) in
  let savings := pf_hc_savings (portfolio m) + pf_soc_savings (portfolio m) in
  calculate_roi self
  = Ok {| total_investment := invest;
          total_savings := savings;
          net_benefit := savings - invest;
          roi_percentage :=
            (if Rlt_dec 0 invest then (savings - invest) / invest else 0.0) * 100.0;
          roi_ratio := (if Rlt_dec 0 invest then savings / invest else 0.0);
          total_events_prevented := pf_events_prevented (portfolio m);
          total_deaths_averted := pf_deaths_averted (portfolio m);
          total_qalys_gained := pf_qalys (portfolio m) |}.
Proof.
  intros Hm. cbv zeta. unfold calculate_roi. rewrite Hm. unfold Rltb.
  destruct (Rlt_dec 0 (pf_investment (portfolio m))) as [Hi | Hi].
  - rewrite !pydiv_ok by lra. reflexivity.
  - reflexivity.
Qed.

(** X10. [calculate_roi] needs the Markov results: on an object that has
    not run [run_markov_models] it raises [KeyError("markov")].  After a run
    it returns; its totals are the portfolio's, the net benefit is savings
    minus investment, and for a positive investment
    [roi_percentage = 100 * (roi_ratio - 1)], so the benefit-cost ratio
    exceeds one exactly when the net benefit is positive; for an investment
    that is not positive both figures are 0. *)
Theorem calculate_roi_after_markov (self self' : UAEHealthAnalysis)
  (deterministic : bool) (seed : Z) (out : MarkovOut) :
  run_markov_models self deterministic seed = Ok (out, self') ->
  (markov (results self) = None -> calculate_roi self = Raise (KeyError "markov"))
  /\ exists roi : RoiOut,
       calculate_roi self' = Ok roi
       /\ total_investment roi = pf_investment (portfolio out)
       /\ total_savings roi = pf_total_savings (portfolio out)
       /\ net_benefit roi = total_savings roi - total_investment roi
       /\ (0 < total_investment roi ->
           roi_percentage roi = 100 * (roi_ratio roi - 1)
           /\ (1 < roi_ratio roi <-> 0 < net_benefit roi))
       /\ (total_investment roi <= 0 ->
           roi_percentage roi = 0 /\ roi_ratio roi = 0).
Proof.
  intros Hrun. split.
  { intros Hnone. unfold calculate_roi. now rewrite Hnone. }
  destruct (run_markov_models_stores _ _ _ _ _ Hrun) as [Hm Htot].
  eexists. split; [apply (calculate_roi_eq self' out Hm) |].
  cbn [total_investment total_savings net_benefit roi_percentage roi_ratio].
  set (invest := pf_investment (portfolio out)).
  set (savings := pf_hc_savings (portfolio out) + pf_soc_savings (portfolio out)).
  split; [reflexivity |]. split; [now rewrite Htot |]. split; [reflexivity |].
  split.
  - intros Hpos. destruct (Rlt_dec 0 invest) as [_ | Hn]; [| contradiction].
    assert (H100 : 100.0 = 100) by lra. rewrite H100.
    split; [field; lra |].
    assert (Hq : savings / invest * invest = savings) by (field; lra).
    split; intros Hlt; nra.
  - intros Hle. destruct (Rlt_dec 0 invest) as [Hp | _]; [lra |]. split; lra.
Qed.
End PortfolioEdges.

Lemma run_markov_models_zero_deaths_witness :
  exists (out : MarkovOut) (self' : UAEHealthAnalysis),
    run_markov_models (new_analysis no_programs) true 123 = Ok (out, self')
    /\ per_intervention out = [].
Proof.
  destruct (run_markov_models_zero_deaths (G := unit) (new_analysis no_programs)
              true 123 [] tt)
    as (out & self' & Hrun & Hper & _).
  - reflexivity.
  - reflexivity.
  - exists out, self'. split; [exact Hrun | exact Hper].
Defined.

Lemma calculate_roi_after_markov_witness :
  exists (self' : UAEHealthAnalysis) (roi : RoiOut),
    calculate_roi self' = Ok roi
    /\ net_benefit roi = total_savings roi - total_investment roi.
Proof.
  destruct (run_markov_models_eq (G := unit)
              (new_analysis (single_program "cvd" cvd)) true 123
              [("cvd", cvd_result)] tt single_cvd_simulate_each)
    as (per' & _ & _ & Hrun).
  destruct (calculate_roi_after_markov _ _ _ _ _ Hrun)
    as (_ & roi & Hroi & _ & _ & Hnet & _).
  eexists; exists roi. split; [exact Hroi | exact Hnet].
Defined.

(** ** Monte Carlo: adjustments and the affine map *)

Section MonteCarloEdges.
Context {G : Type} `{Generator G}.

Lemma mc_iteration_adjustments (self : UAEHealthAnalysis)
  (visible exact : option (list (string * R))) (rng : G) :
  mc_iteration (set_portfolio_adjustments visible exact self) rng
  = mc_iteration self rng.
Proof.
  unfold mc_iteration.
  change (dict_keys (interventions
            (parameters (set_portfolio_adjustments visible exact self))))
    with (dict_keys (interventions (parameters self))).
  now rewrite simulate_each_adjustments.
Qed.

Lemma mc_loop_adjustments (self : UAEHealthAnalysis)
  (visible exact : option (list (string * R))) (n : nat) (rng : G) :
  mc_loop (set_portfolio_adjustments visible exact self) n rng
  = mc_loop self n rng.
Proof.
  revert rng. induction n as [| n IH]; intros rng; cbn [mc_loop].
  - reflexivity.
  - rewrite mc_iteration_adjustments.
    destruct (mc_iteration self rng) as [[row g] |]; cbn [bind]; [| reflexivity].
    now rewrite IH.
Qed.

(** X11. The Monte-Carlo runner never reads the portfolio adjustments: with
    any other multipliers it draws the same samples and returns the same
    summary, or raises the same exception. *)
Theorem monte_carlo_ignores_adjustments (self : UAEHealthAnalysis)
  (visible exact : option (list (string * R))) (n_iterations seed : Z) :
  mc_samples (set_portfolio_adjustments visible exact self) n_iterations seed
  = mc_samples self n_iterations seed
  /\ match run_monte_carlo self n_iterations seed,
           run_monte_carlo (set_portfolio_adjustments visible exact self)
             n_iterations seed with
     | Ok (summary, _), Ok (summary2, _) => summary = summary2
     | Raise e, Raise e2 => e = e2
     | _, _ => False
     end.
Proof.
  assert (Hs : mc_samples (set_portfolio_adjustments visible exact self)
                 n_iterations seed = mc_samples self n_iterations seed)
    by (unfold mc_samples; now rewrite mc_loop_adjustments).
  split; [exact Hs |].
  unfold run_monte_carlo. rewrite Hs.
  destruct (mc_samples self n_iterations seed) as [rows |]; cbn [bind];
    [| reflexivity].
  destruct (summarize_samples rows) as [summary |]; cbn [bind]; reflexivity.
Qed.
End MonteCarloEdges.

(** X12. On an interval at least [1e-12] wide, [_affine_stats] returns, sends
    the computed bounds onto the target bounds, and keeps a mean that lay
    between the computed bounds between the target bounds. *)
Theorem affine_stats_maps_interval (d : Stats) (lo hi m lo_tgt hi_tgt : R) :
  ci_lower d = Num lo -> ci_upper d = Num hi -> mean d = Num m ->
  1e-12 <= hi - lo -> lo <= m <= hi -> lo_tgt <= hi_tgt ->
  exists (d' : Stats) (m' : R),
    _affine_stats d lo_tgt hi_tgt = Ok d'
    /\ ci_lower d' = Num lo_tgt
    /\ ci_upper d' = Num hi_tgt
    /\ mean d' = Num m'
    /\ lo_tgt <= m' <= hi_tgt
    /\ (m = lo -> m' = lo_tgt)
    /\ (m = hi -> m' = hi_tgt).
Proof.
  intros Hlo Hhi Hm Hwide Hin Htgt.
  rewrite affine_stats_total. unfold affine_rescaled, affine_coeffs_pure.
  rewrite Hlo, Hhi, Hm. cbn [fl_sub fl_lift2 fl_abs fl_ltb fl_mul fl_add].
  rewrite Rltb_false by (rewrite Rabs_right; lra).
  eexists; eexists. split; [reflexivity |].
  cbn [ci_lower ci_upper mean fl_add fl_mul fl_lift2 fl_sub].
  split; [reflexivity |]. split; [reflexivity |]. split; [reflexivity |].
  set (beta := (hi_tgt - lo_tgt) / (hi - lo)).
  assert (Hb : beta * (hi - lo) = hi_tgt - lo_tgt) by (unfold beta; field; lra).
  assert (Hb0 : 0 <= beta)
    by (unfold beta; apply Rmult_le_pos; [lra |];
        apply Rlt_le, Rinv_0_lt_compat; lra).
  split; [split; nra |]. split; intros ->; nra.
Qed.

Lemma affine_stats_maps_interval_witness :
  exists (d' : Stats) (m' : R),
    _affine_stats {| mean := Num 2; median := Num 2; std := Num 1;
                     ci_lower := Num 1; ci_upper := Num 4 |} 1.19 1.96 = Ok d'
    /\ mean d' = Num m' /\ 1.19 <= m' <= 1.96.
Proof.
  destruct (affine_stats_maps_interval
              {| mean := Num 2; median := Num 2; std := Num 1;
                 ci_lower := Num 1; ci_upper := Num 4 |} 1 4 2 1.19 1.96)
    as (d' & m' & Hrun & _ & _ & Hm & Hin & _).
  - reflexivity.
  - reflexivity.
  - reflexivity.
  - lra.
  - lra.
  - lra.
  - exists d', m'. split; [exact Hrun |]. split; [exact Hm | exact Hin].
Defined.

(** ** The calibrator: guards and frame *)

Lemma bind_Ok_inv {A B : Type} (m : res A) (k : A -> res B) (b : B) :
  bind m k = Ok b -> exists a, m = Ok a /\ k a = Ok b.
Proof.
  destruct m as [a | e]; cbn [bind]; intros Hb; [| discriminate].
  exists a. split; [reflexivity | assumption].
Qed.

Ltac step_cases :=
  repeat match goal with
         | |- context [bind ?m _] => destruct m; cbn [bind]
         | |- context [match ?x with _ => _ end] => destruct x
         end.

Lemma exact_frame_refl (i : Intervention) : exact_frame i i.
Proof. unfold exact_frame. repeat split. Qed.

Lemma exact_frame_trans (i j k : Intervention) :
  exact_frame i j -> exact_frame j k -> exact_frame i k.
Proof.
  unfold exact_frame. intros Hij Hjk.
  decompose [and] Hij. decompose [and] Hjk. repeat split; congruence.
Qed.

Lemma keeps_rates_refl (i : Intervention) : keeps_rates i i.
Proof. unfold keeps_rates. split; now left. Qed.

Lemma keeps_rates_trans (i j k : Intervention) :
  keeps_rates i j -> keeps_rates j k -> keeps_rates i k.
Proof.
  unfold keeps_rates. intros [[Ha | Ha] [Hc | Hc]] [[Ha' | Ha'] [Hc' | Hc']];
    split; try (right; lra); try (left; congruence);
    try (right; rewrite Ha'; lra); try (right; rewrite Hc'; lra).
Qed.

Lemma calibrate_investment_inv (tgt : Target) (N D : R) (i i' : Intervention) :
  calibrate_investment tgt N D i = Ok i' -> exact_frame i i' /\ keeps_rates i i'.
Proof.
  unfold calibrate_investment. step_cases; intros Hi; try discriminate;
    injection Hi as <-;
    (split; [unfold exact_frame; repeat split
            | unfold keeps_rates; split; left; reflexivity]).
Qed.

Lemma calibrate_events_inv (tgt : Target) (N T rrr_mean E : R)
  (i i' : Intervention) :
  calibrate_events tgt N T rrr_mean i = Ok (E, i') ->
  exact_frame i i' /\ keeps_rates i i'.
Proof.
  unfold calibrate_events.
  destruct (present_and_truthy (t_events_prevented tgt)) as [E0 |].
  - destruct (pydiv _ _) as [q |]; cbn [bind]; intros Hi; [| discriminate].
    injection Hi as _ <-. split; [unfold exact_frame; repeat split |].
    unfold keeps_rates. split; [right | left; reflexivity].
    cbn [annual_event_rate set_annual_event_rate].
    apply clamp_bounds. lra.
  - intros Hi. injection Hi as _ <-.
    split; [apply exact_frame_refl | apply keeps_rates_refl].
Qed.

Lemma calibrate_deaths_inv (tgt : Target) (E : R) (i i' : Intervention) :
  calibrate_deaths tgt E i = Ok i' -> exact_frame i i' /\ keeps_rates i i'.
Proof.
  unfold calibrate_deaths.
  destruct (present_and_truthy (t_deaths_averted tgt)) as [Dth |].
  - destruct (Rltb 0 E).
    + destruct (pydiv _ _) as [q |]; cbn [bind]; intros Hi; [| discriminate].
      injection Hi as <-. split; [unfold exact_frame; repeat split |].
      unfold keeps_rates. split; [left; reflexivity | right].
      cbn [case_fatality_rate set_case_fatality_rate].
      pose proof (clamp_bounds q 0.0 0.95). lra.
    + intros Hi. injection Hi as <-.
      split; [apply exact_frame_refl | apply keeps_rates_refl].
  - intros Hi. injection Hi as <-.
    split; [apply exact_frame_refl | apply keeps_rates_refl].
Qed.

Lemma calibrate_cost_per_qaly_inv (tgt : Target) (T D E : R)
  (i i' : Intervention) :
  calibrate_cost_per_qaly tgt T D E i = Ok i' ->
  exact_frame i i' /\ keeps_rates i i'.
Proof.
  unfold calibrate_cost_per_qaly. step_cases; intros Hi; try discriminate;
    injection Hi as <-;
    (split; [unfold exact_frame; repeat split
            | unfold keeps_rates; split; left; reflexivity]).
Qed.

Lemma renormalize_frame (i : Intervention) :
  exact_frame i (renormalize_gammas i) /\ keeps_rates i (renormalize_gammas i).
Proof.
  unfold renormalize_gammas.
  destruct (event_cost_gamma i), (productivity_cost_gamma i).
  split; [unfold exact_frame; repeat split
         | unfold keeps_rates; split; left; reflexivity].
Qed.

(** Whenever [_calibrate_intervention] returns, it has replaced the one
    program [key] by a program that differs in none of the fields above. *)
Lemma calibrate_intervention_inv (self self' : UAEHealthAnalysis)
  (key : string) (tgt : Target) :
  _calibrate_intervention self key tgt = Ok self' ->
  exists intr intr' : Intervention,
    dict_get key (interventions (parameters self)) = Some intr
    /\ self' = set_intervention key intr' self
    /\ exact_frame intr intr'
    /\ keeps_rates intr intr'.
Proof.
  unfold _calibrate_intervention, dict_item. intros Hrun.
  apply bind_Ok_inv in Hrun. destruct Hrun as (D & _ & Hrun).
  destruct (dict_get key _) as [intr |]; cbn [bind] in Hrun; [| discriminate].
  exists intr.
  destruct (Result_population intr <=? 0)%Z.
  { injection Hrun as <-. exists intr.
    repeat split; first [apply exact_frame_refl | apply keeps_rates_refl | idtac]. }
  apply bind_Ok_inv in Hrun. destruct Hrun as (rrr_mean & _ & Hrun).
  apply bind_Ok_inv in Hrun. destruct Hrun as (i1 & H1 & Hrun).
  apply bind_Ok_inv in Hrun. destruct Hrun as ([E i2] & H2 & Hrun).
  apply bind_Ok_inv in Hrun. destruct Hrun as (i3 & H3 & Hrun).
  apply bind_Ok_inv in Hrun. destruct Hrun as (i4 & H4 & Hrun).
  injection Hrun as <-. exists (renormalize_gammas i4).
  destruct (calibrate_investment_inv _ _ _ _ _ H1) as [F1 K1].
  destruct (calibrate_events_inv _ _ _ _ _ _ _ H2) as [F2 K2].
  destruct (calibrate_deaths_inv _ _ _ _ H3) as [F3 K3].
  destruct (calibrate_cost_per_qaly_inv _ _ _ _ _ _ H4) as [F4 K4].
  destruct (renormalize_frame i4) as [F5 K5].
  split; [reflexivity |]. split; [reflexivity |]. split.
  - eauto using exact_frame_trans.
  - eauto using keeps_rates_trans.
Qed.

Lemma dict_get_set_other {V : Type} (k k' : string) (v : V)
  (d : list (string * V)) :
  k' <> k -> dict_get k' (dict_set k v d) = dict_get k' d.
Proof.
  intros Hne. induction d as [| [k0 v0] tl IH]; simpl.
  - destruct (String.eqb_spec k' k); [contradiction | reflexivity].
  - destruct (String.eqb_spec k k0) as [-> | Hk]; simpl.
    + destruct (String.eqb_spec k' k0); [contradiction | reflexivity].
    + destruct (String.eqb_spec k' k0); [reflexivity | exact IH].
Qed.

Lemma dict_keys_set_present {V : Type} (k : string) (v v0 : V)
  (d : list (string * V)) :
  dict_get k d = Some v0 -> dict_keys (dict_set k v d) = dict_keys d.
Proof.
  unfold dict_keys. induction d as [| [k1 v1] tl IH]; simpl; intros Hget.
  - discriminate.
  - destruct (String.eqb_spec k k1) as [-> | Hk]; simpl.
    + reflexivity.
    + now rewrite IH.
Qed.

(** X13. The two guards of [_calibrate_intervention], once the discount sum
    is computed: a key that is not in the table raises [KeyError] on that
    key, and a program whose population is zero or negative is written back
    as it was, whatever the target asks. *)
Theorem calibrate_intervention_guards (self : UAEHealthAnalysis)
  (key : string) (tgt : Target) :
  1 + discount_rate (health_system (parameters self)) <> 0 ->
  (dict_get key (interventions (parameters self)) = None ->
   _calibrate_intervention self key tgt = Raise (KeyError key))
  /\ (forall intr : Intervention,
        dict_get key (interventions (parameters self)) = Some intr ->
        (Result_population intr <= 0)%Z ->
        _calibrate_intervention self key tgt = Ok self).
Proof.
  intros Hr. unfold _calibrate_intervention, dict_item.
  rewrite (discount_sum_ok _ _ Hr). cbn [bind]. split.
  - intros ->. reflexivity.
  - intros intr Hget HN. rewrite Hget. cbn [bind].
    replace (Result_population intr <=? 0)%Z with true
      by (symmetry; apply Z.leb_le; assumption).
    now rewrite (set_intervention_same _ _ _ Hget).
Qed.

Lemma calibrate_intervention_guards_witness :
  _calibrate_intervention
    (new_analysis (single_program "cvd" cvd_negative_population)) "stroke"
    (investment_only 1e9) = Raise (KeyError "stroke")
  /\ _calibrate_intervention
       (new_analysis (single_program "cvd" cvd_negative_population)) "cvd"
       (investment_only 1e9)
     = Ok (new_analysis (single_program "cvd" cvd_negative_population)).
Proof.
  destruct (calibrate_intervention_guards
              (new_analysis (single_program "cvd" cvd_negative_population))
              "stroke" (investment_only 1e9)) as [Hmiss _].
  { cbn. lra. }
  destruct (calibrate_intervention_guards
              (new_analysis (single_program "cvd" cvd_negative_population))
              "cvd" (investment_only 1e9)) as [_ Hneg].
  { cbn. lra. }
  split.
  - apply Hmiss. reflexivity.
  - apply (Hneg cvd_negative_population); [reflexivity |].
    cbn. lia.
Defined.

(** ** The calibrator: what a whole calibration keeps *)

Lemma same_configuration_refl (p : Parameters) : same_configuration p p.
Proof. unfold same_configuration. repeat split. Qed.

Lemma same_configuration_trans (p q r : Parameters) :
  same_configuration p q -> same_configuration q r -> same_configuration p r.
Proof.
  unfold same_configuration. intros Hpq Hqr.
  decompose [and] Hpq. decompose [and] Hqr. repeat split; congruence.
Qed.

Lemma programs_framed_refl (p : Parameters) : programs_framed p p.
Proof.
  intros k i Hget. exists i.
  split; [assumption |]. split; [apply exact_frame_refl | apply keeps_rates_refl].
Qed.

Lemma programs_framed_trans (p q r : Parameters) :
  programs_framed p q -> programs_framed q r -> programs_framed p r.
Proof.
  intros Hpq Hqr k i Hget.
  destruct (Hpq k i Hget) as (j & Hj & F1 & K1).
  destruct (Hqr k j Hj) as (l & Hl & F2 & K2).
  exists l. split; [assumption |].
  split; [eapply exact_frame_trans | eapply keeps_rates_trans]; eassumption.
Qed.

Lemma calibrate_intervention_configuration (self self' : UAEHealthAnalysis)
  (key : string) (tgt : Target) :
  _calibrate_intervention self key tgt = Ok self' ->
  same_configuration (parameters self) (parameters self')
  /\ programs_framed (parameters self) (parameters self').
Proof.
  intros Hrun.
  destruct (calibrate_intervention_inv _ _ _ _ Hrun)
    as (intr & intr' & Hget & -> & Hfr & Hk).
  split.
  - unfold same_configuration. cbn.
    repeat split. apply (dict_keys_set_present _ _ _ _ Hget).
  - intros k i Hi. cbn.
    destruct (String.eqb_spec k key) as [-> | Hne].
    + rewrite dict_get_set_same. exists intr'.
      rewrite Hget in Hi. injection Hi as <-.
      split; [reflexivity |]. split; assumption.
    + rewrite (dict_get_set_other _ _ _ _ Hne). exists i.
      split; [assumption |].
      split; [apply exact_frame_refl | apply keeps_rates_refl].
Qed.

Section CalibrateInvariant.
Context {G : Type} `{Generator G}.
Variable Rel : Parameters -> Parameters -> Prop.
Hypothesis Rel_refl : forall p, Rel p p.
Hypothesis Rel_trans : forall p q r, Rel p q -> Rel q r -> Rel p r.
Hypothesis Rel_step :
  forall (self self' : UAEHealthAnalysis) (key : string) (tgt : Target),
    _calibrate_intervention self key tgt = Ok self' ->
    Rel (parameters self) (parameters self').

Lemma run_markov_models_parameters (self self' : UAEHealthAnalysis)
  (deterministic : bool) (seed : Z) (out : MarkovOut) :
  run_markov_models self deterministic seed = Ok (out, self') ->
  parameters self' = parameters self.
Proof.
  unfold run_markov_models.
  destruct (simulate_each self _ _ deterministic) as [[per g] |]; cbn [bind];
    [| discriminate].
  destruct (reconcile_deaths _ per) as [per' |]; cbn [bind]; [| discriminate].
  intros Hout. injection Hout as _ <-. reflexivity.
Qed.

(** A relation every single calibration keeps is kept by the loop over the
    per-program targets. *)
Lemma calibrate_each_invariant (per : list (string * Target)) :
  forall self self' : UAEHealthAnalysis,
    calibrate_each self per = Ok self' ->
    Rel (parameters self) (parameters self').
Proof.
  induction per as [| [k t] tl IH]; intros self self' Hrun;
    cbn [calibrate_each] in Hrun.
  - injection Hrun as <-. apply Rel_refl.
  - apply bind_Ok_inv in Hrun. destruct Hrun as (self1 & H1 & Hrun).
    apply (Rel_trans _ (parameters self1)); [| now apply IH].
    destruct (dict_mem k _).
    + now apply (Rel_step _ _ k t).
    + injection H1 as <-. apply Rel_refl.
Qed.

(** ... and by [calibrate], whose portfolio step calibrates one more
    program between two deterministic runs. *)
Lemma calibrate_invariant (self self' : UAEHealthAnalysis)
  (per : list (string * Target)) (port : PortfolioTargets) (ch : Changes) :
  calibrate self per port = Ok (ch, self') ->
  Rel (parameters self) (parameters self').
Proof.
  unfold calibrate. intros Hrun.
  apply bind_Ok_inv in Hrun. destruct Hrun as (self1 & H1 & Hrun).
  apply (Rel_trans _ (parameters self1));
    [now apply (calibrate_each_invariant per) |].
  destruct (present_and_truthy (benefits_total port)) as [bt |].
  2:{ injection Hrun as _ <-. apply Rel_refl. }
  apply bind_Ok_inv in Hrun. destruct Hrun as ([out self2] & H2 & Hrun).
  rewrite <- (run_markov_models_parameters _ _ _ _ _ H2).
  destruct (negb (dict_mem _ (interventions (parameters self2))));
    cbn [bind] in Hrun; [discriminate |].
  apply bind_Ok_inv in Hrun. destruct Hrun as (v & _ & Hrun).
  destruct (Rltb 0 (investment v)).
  2:{ injection Hrun as _ <-. apply Rel_refl. }
  apply bind_Ok_inv in Hrun. destruct Hrun as (q & _ & Hrun).
  apply bind_Ok_inv in Hrun. destruct Hrun as (self3 & H3 & Hrun).
  apply bind_Ok_inv in Hrun. destruct Hrun as ([out4 self4] & H4 & Hrun).
  injection Hrun as _ <-.
  rewrite (run_markov_models_parameters _ _ _ _ _ H4).
  now apply (Rel_step _ _ _ _ H3).
Qed.
End CalibrateInvariant.

Section CalibrateKeeps.
Context {G : Type} `{Generator G}.

(** X14. Whenever [calibrate] returns, the horizon, the discount rate, the
    perspective, the portfolio adjustments and the list of program keys are
    those it started from; every program keeps its population, its [_exact]
    copies, its lognormal, its utility weight and its life years lost, and
    its event rate and case fatality are either the old ones or lie in the
    calibration ranges [1e-8, 0.95] and [0, 0.95]. *)
Theorem calibrate_keeps_configuration (self self' : UAEHealthAnalysis)
  (per : list (string * Target)) (port : PortfolioTargets) (ch : Changes) :
  calibrate self per port = Ok (ch, self') ->
  same_configuration (parameters self) (parameters self')
  /\ programs_framed (parameters self) (parameters self').
Proof.
  apply (calibrate_invariant
           (fun p p' => same_configuration p p' /\ programs_framed p p')).
  - intros p. split;
      [apply same_configuration_refl | apply programs_framed_refl].
  - intros p q r [C1 F1] [C2 F2]. split;
      [eapply same_configuration_trans | eapply programs_framed_trans];
      eassumption.
  - intros s s' key tgt. apply calibrate_intervention_configuration.
Qed.
End CalibrateKeeps.

Lemma calibrate_keeps_configuration_witness :
  exists (ch : Changes) (self' : UAEHealthAnalysis),
    calibrate (H := mean_generator) (new_analysis (single_program "cvd" cvd))
      [("cvd", investment_only 1e9)] no_portfolio_targets = Ok (ch, self')
    /\ same_configuration (single_program "cvd" cvd) (parameters self')
    /\ programs_framed (single_program "cvd" cvd) (parameters self').
Proof.
  destruct (calibrate_intervention_frame
              (new_analysis (single_program "cvd" cvd)) "cvd" cvd
              (investment_only 1e9) cvd_rrr)
    as (self' & intr' & Hrun & _).
  - reflexivity.
  - cbn. lia.
  - cbn. lia.
  - cbn. lra.
  - exact cvd_rrr_mean.
  - assert (Hcal : calibrate (H := mean_generator)
                     (new_analysis (single_program "cvd" cvd))
                     [("cvd", investment_only 1e9)] no_portfolio_targets
                   = Ok ({| ch_per_intervention := ["cvd"];
                            portfolio_first := false; adjusted := None |},
                         self')).
    { unfold calibrate. cbn [calibrate_each].
      change (dict_mem "cvd"
                (interventions
                   (parameters (new_analysis (single_program "cvd" cvd)))))
        with true.
      cbv iota. rewrite Hrun. reflexivity. }
    eexists; exists self'. split; [exact Hcal |].
    exact (calibrate_keeps_configuration _ _ _ _ _ Hcal).
Defined.

Lemma dict_mem_not_in_keys {V : Type} (k : string) (d : list (string * V)) :
  ~ In k (dict_keys d) -> dict_mem k d = false.
Proof.
  unfold dict_mem, dict_keys. induction d as [| [k' v'] tl IH]; simpl; intros Hnin.
  - reflexivity.
  - destruct (String.eqb_spec k k') as [-> | Hne].
    + exfalso. apply Hnin. now left.
    + apply IH. intros Hin. apply Hnin. now right.
Qed.

Lemma calibrate_each_configuration (per : list (string * Target))
  (self self' : UAEHealthAnalysis) :
  calibrate_each self per = Ok self' ->
  same_configuration (parameters self) (parameters self')
  /\ programs_framed (parameters self) (parameters self').
Proof.
  apply (calibrate_each_invariant
           (fun p p' => same_configuration p p' /\ programs_framed p p')).
  - intros p. split;
      [apply same_configuration_refl | apply programs_framed_refl].
  - intros p q r [C1 F1] [C2 F2]. split;
      [eapply same_configuration_trans | eapply programs_framed_trans];
      eassumption.
  - intros s s' key tgt. apply calibrate_intervention_configuration.
Qed.

Section CalibrateFallback.
Context {G : Type} `{Generator G}.

(** X15. The portfolio step of [calibrate] cannot fall back: when the
    portfolio target [benefits_total] is present and not zero, the
    per-program calibrations and the deterministic run have returned, and the
    program to adjust ([adjust_intervention], by default "alzheimers") is not
    a key of the table, [calibrate] raises [NameError] on the unbound name
    [adjust_intervention]. *)
Theorem calibrate_unbound_fallback (self self1 self2 : UAEHealthAnalysis)
  (per : list (string * Target)) (port : PortfolioTargets) (bt : R)
  (out : MarkovOut) :
  calibrate_each self per = Ok self1 ->
  benefits_total port = Some bt -> bt <> 0 ->
  run_markov_models self1 true 123 = Ok (out, self2) ->
  ~ In (or_else (adjust_intervention port) "alzheimers")
       (dict_keys (interventions (parameters self))) ->
  calibrate self per port = Raise (NameError "adjust_intervention").
Proof.
  intros Heach Hbt Hbt0 Hrun Hnin.
  destruct (calibrate_each_configuration _ _ _ Heach) as [Hcfg _].
  destruct Hcfg as (_ & _ & _ & _ & Hkeys).
  unfold calibrate. rewrite Heach. cbn [bind].
  rewrite Hbt. cbn [present_and_truthy]. rewrite (truthy_true _ Hbt0).
  rewrite Hrun. cbn [bind].
  rewrite (run_markov_models_parameters _ _ _ _ _ Hrun).
  rewrite dict_mem_not_in_keys by (rewrite Hkeys; exact Hnin).
  reflexivity.
Qed.
End CalibrateFallback.

Lemma calibrate_unbound_fallback_witness :
  calibrate (H := mean_generator) (new_analysis (single_program "cvd" cvd)) []
    {| benefits_total := Some 1e9; adjust_intervention := None |}
  = Raise (NameError "adjust_intervention").
Proof.
  destruct (run_markov_models_eq (H := mean_generator)
              (new_analysis (single_program "cvd" cvd)) true 123
              [("cvd", cvd_result)] tt single_cvd_simulate_each)
    as (per' & _ & _ & Hrun).
  eapply (calibrate_unbound_fallback
            (new_analysis (single_program "cvd" cvd))
            (new_analysis (single_program "cvd" cvd))).
  - reflexivity.
  - reflexivity.
  - lra.
  - exact Hrun.
  - cbn. intros [Heq | []]. discriminate.
Defined.

(** ** Calibrator: unknown keys and absent fields, on every input *)

Lemma dict_mem_same_keys {V : Type} (k : string) (d d' : list (string * V)) :
  dict_keys d = dict_keys d' -> dict_mem k d = dict_mem k d'.
Proof.
  unfold dict_mem, dict_keys. revert d'.
  induction d as [| [k0 v0] tl IH]; intros [| [k1 v1] tl'] Hk;
    cbn [map fst] in Hk; try discriminate; [reflexivity |].
  injection Hk as -> Htl. cbn [dict_get].
  destruct (String.eqb k k1); [reflexivity | now apply IH].
Qed.

Lemma loaded_targets_same_keys (self s : UAEHealthAnalysis)
  (per : list (string * Target)) :
  dict_keys (interventions (parameters s))
  = dict_keys (interventions (parameters self)) ->
  loaded_targets s per = loaded_targets self per.
Proof.
  intros Hk. unfold loaded_targets. apply filter_ext.
  intros kt. now apply dict_mem_same_keys.
Qed.

(** The loop over the per-program targets does on the whole list what it
    does on the entries that name a loaded program. *)
Lemma calibrate_each_loaded_targets (per : list (string * Target)) :
  forall self : UAEHealthAnalysis,
    calibrate_each self (loaded_targets self per) = calibrate_each self per.
Proof.
  induction per as [| [k t] tl IH]; intros self; [reflexivity |].
  unfold loaded_targets. cbn [filter fst].
  destruct (dict_mem k (interventions (parameters self))) eqn:Hmem;
    fold (loaded_targets self tl); cbn [calibrate_each]; rewrite Hmem.
  - destruct (_calibrate_intervention self k t) as [s | e] eqn:Hc;
      cbn [bind]; [| reflexivity].
    destruct (calibrate_intervention_configuration _ _ _ _ Hc)
      as [(_ & _ & _ & _ & Hkeys) _].
    rewrite <- (loaded_targets_same_keys self s tl Hkeys). apply IH.
  - cbn [bind]. apply IH.
Qed.

Lemma dict_get_loaded_targets (self : UAEHealthAnalysis)
  (per : list (string * Target)) (k : string) :
  dict_mem k (interventions (parameters self)) = true ->
  dict_get k (loaded_targets self per) = dict_get k per.
Proof.
  intros Hmem. unfold loaded_targets.
  induction per as [| [k0 t0] tl IH]; [reflexivity |].
  cbn [filter fst dict_get].
  destruct (String.eqb_spec k k0) as [<- | Hne].
  - rewrite Hmem. cbn [dict_get]. now rewrite String.eqb_refl.
  - destruct (dict_mem k0 (interventions (parameters self))); [| exact IH].
    cbn [dict_get]. destruct (String.eqb_spec k k0); [contradiction | exact IH].
Qed.

Section CalibrateClaims.
Context {G : Type} `{Generator G}.

Lemma calibrate_loaded_targets (self : UAEHealthAnalysis)
  (per : list (string * Target)) (port : PortfolioTargets) :
  same_outcome (calibrate self per port)
               (calibrate self (loaded_targets self per) port).
Proof.
  unfold calibrate, same_outcome. rewrite calibrate_each_loaded_targets.
  destruct (calibrate_each self per) as [s1 | e] eqn:Heach; cbn [bind];
    [| reflexivity].
  destruct (calibrate_each_configuration _ _ _ Heach)
    as [(_ & _ & _ & _ & Hkeys) _].
  destruct (present_and_truthy (benefits_total port)) as [bt |];
    [| repeat split].
  destruct (run_markov_models s1 true 123) as [[out s2] | e] eqn:Hrun;
    cbn [bind]; [| reflexivity].
  pose proof (run_markov_models_parameters _ _ _ _ _ Hrun) as Hpar.
  destruct (dict_mem (or_else (adjust_intervention port) "alzheimers")
              (interventions (parameters s2))) eqn:Hmem;
    cbn [negb bind]; [| reflexivity].
  destruct (dict_item _ (per_intervention out)) as [v | e]; cbn [bind];
    [| reflexivity].
  destruct (Rltb 0 (investment v)); [| repeat split].
  destruct (pydiv _ (investment v)) as [q | e]; cbn [bind]; [| reflexivity].
  rewrite dict_get_loaded_targets.
  2:{ rewrite (dict_mem_same_keys _ _ (interventions (parameters s1)))
        by (symmetry; exact Hkeys).
      rewrite <- Hpar. exact Hmem. }
  destruct (_calibrate_intervention s2 _ _) as [s3 | e]; cbn [bind];
    [| reflexivity].
  destruct (run_markov_models s3 true 123) as [[out4 s4] | e]; cbn [bind];
    [repeat split | reflexivity].
Qed.

Lemma calibrate_lists_every_key (self s : UAEHealthAnalysis)
  (per : list (string * Target)) (port : PortfolioTargets) (ch : Changes) :
  calibrate self per port = Ok (ch, s) ->
  ch_per_intervention ch = dict_keys per.
Proof.
  unfold calibrate. intros Hrun.
  apply bind_Ok_inv in Hrun. destruct Hrun as (s1 & _ & Hrun).
  destruct (present_and_truthy (benefits_total port)) as [bt |].
  2:{ injection Hrun as <- _. reflexivity. }
  apply bind_Ok_inv in Hrun. destruct Hrun as ([out s2] & _ & Hrun).
  destruct (negb (dict_mem _ (interventions (parameters s2))));
    cbn [bind] in Hrun; [discriminate |].
  apply bind_Ok_inv in Hrun. destruct Hrun as (v & _ & Hrun).
  destruct (Rltb 0 (investment v)).
  2:{ injection Hrun as <- _. reflexivity. }
  apply bind_Ok_inv in Hrun. destruct Hrun as (q & _ & Hrun).
  apply bind_Ok_inv in Hrun. destruct Hrun as (s3 & _ & Hrun).
  apply bind_Ok_inv in Hrun. destruct Hrun as ([out4 s4] & _ & Hrun).
  injection Hrun as <- _. reflexivity.
Qed.

(** C5 (amended). On every calibration input, the per-program targets
    whose key is not a loaded program are skipped: [calibrate] ends as it
    does on the input without them (the same exception, or the same object
    and portfolio outcome), and its change record still lists every key it
    was given.  In any target of a loaded program, an absent field leaves
    the parameter of its step untouched, and a target with no field leaves
    the object as it was. *)
Theorem calibrate_skips_unknown_keys_and_absent_fields
  (self : UAEHealthAnalysis) (per_results : list (string * Target))
  (port_results : PortfolioTargets) :
  same_outcome (calibrate self per_results port_results)
               (calibrate self (loaded_targets self per_results) port_results)
  /\ (forall (ch : Changes) (s : UAEHealthAnalysis),
        calibrate self per_results port_results = Ok (ch, s) ->
        ch_per_intervention ch = dict_keys per_results)
  /\ (forall (key : string) (intr : Intervention) (tgt : Target) (rrr_mean : R),
        dict_get key (interventions (parameters self)) = Some intr ->
        (0 < Result_population intr)%Z ->
        (0 < horizon_years (meta (parameters self)))%Z ->
        0 < 1 + discount_rate (health_system (parameters self)) ->
        rrr_mean_of intr = Ok rrr_mean ->
        exists (self' : UAEHealthAnalysis) (intr' : Intervention),
          _calibrate_intervention self key tgt = Ok self'
          /\ dict_get key (interventions (parameters self')) = Some intr'
          /\ (t_investment tgt = None ->
              cost_ppy_gamma intr' = cost_ppy_gamma intr)
          /\ (t_events_prevented tgt = None ->
              annual_event_rate intr' = annual_event_rate intr
              /\ rrr_beta intr' = rrr_beta intr)
          /\ (t_deaths_averted tgt = None ->
              case_fatality_rate intr' = case_fatality_rate intr)
          /\ (t_c_per_qaly tgt = None ->
              qalys_lost_per_event intr' = qalys_lost_per_event intr))
  /\ (forall (key : string) (intr : Intervention) (rrr_mean : R),
        1 + discount_rate (health_system (parameters self)) <> 0 ->
        dict_get key (interventions (parameters self)) = Some intr ->
        rrr_mean_of intr = Ok rrr_mean ->
        gamma_in_range (event_cost_gamma intr) ->
        gamma_in_range (productivity_cost_gamma intr) ->
        _calibrate_intervention self key empty_target = Ok self).
Proof.
  split; [apply calibrate_loaded_targets |].
  split; [intros ch s; apply calibrate_lists_every_key |].
  split.
  - intros key intr tgt rrr_mean. apply calibrate_absent_fields.
  - intros key intr rrr_mean Hr Hget Hrrr Hev Hpr.
    exact (calibrate_empty_target_noop self key intr rrr_mean Hr Hget Hrrr Hev Hpr).
Qed.
End CalibrateClaims.

Lemma calibrate_skips_unknown_keys_and_absent_fields_witness :
  same_outcome
    (calibrate (H := mean_generator) (new_analysis default_params)
       [("stroke", investment_only 1e9); ("cvd", investment_only 1e9)]
       no_portfolio_targets)
    (calibrate (H := mean_generator) (new_analysis default_params)
       [("cvd", investment_only 1e9)] no_portfolio_targets)
  /\ _calibrate_intervention (new_analysis default_params) "cvd" empty_target
     = Ok (new_analysis default_params).
Proof.
  destruct (calibrate_skips_unknown_keys_and_absent_fields
              (H := mean_generator) (new_analysis default_params)
              [("stroke", investment_only 1e9); ("cvd", investment_only 1e9)]
              no_portfolio_targets) as (Hsame & _ & _ & Hempty).
  split; [exact Hsame |].
  apply (Hempty "cvd" cvd cvd_rrr).
  - cbn. lra.
  - reflexivity.
  - exact cvd_rrr_mean.
  - unfold gamma_in_range; split; cbn; lra.
  - unfold gamma_in_range; split; cbn; lra.
Defined.

(** ** Validation *)

Lemma py_assert_ok (b : bool) : py_assert b = Ok tt <-> b = true.
Proof. destruct b; cbn; split; intros Hb; congruence. Qed.

Lemma py_assert_raises (b : bool) (e : exn) :
  py_assert b = Raise e -> e = AssertionError.
Proof. destruct b; cbn; intros Hb; congruence. Qed.

Lemma Rleb_iff (x y : R) : Rleb x y = true <-> x <= y.
Proof. unfold Rleb. destruct (Rle_dec x y); split; intros Hb; congruence. Qed.

Lemma Rltb_iff (x y : R) : Rltb x y = true <-> x < y.
Proof. unfold Rltb. destruct (Rlt_dec x y); split; intros Hb; congruence. Qed.

Lemma validate_intervention_iff (intr : Intervention) :
  validate_intervention intr = Ok tt <-> rates_in_bounds intr.
Proof.
  unfold validate_intervention, rates_in_bounds. split.
  - intros Hv.
    apply bind_Ok_inv in Hv. destruct Hv as ([] & H1 & Hv).
    apply bind_Ok_inv in Hv. destruct Hv as ([] & H2 & H3).
    apply py_assert_ok, andb_prop in H1. apply py_assert_ok, andb_prop in H2.
    apply py_assert_ok, andb_prop in H3.
    rewrite !Rleb_iff in H1, H2. rewrite Rleb_iff, Rltb_iff in H3. tauto.
  - intros (H1 & H2 & H3).
    rewrite (proj2 (py_assert_ok _)); cbn [bind].
    2:{ apply andb_true_intro. rewrite !Rleb_iff. tauto. }
    rewrite (proj2 (py_assert_ok _)); cbn [bind].
    2:{ apply andb_true_intro. rewrite !Rleb_iff. tauto. }
    apply py_assert_ok, andb_true_intro. rewrite Rleb_iff, Rltb_iff. tauto.
Qed.

Lemma validate_intervention_raises (intr : Intervention) (e : exn) :
  validate_intervention intr = Raise e -> e = AssertionError.
Proof.
  unfold validate_intervention.
  destruct (py_assert _) as [[] |] eqn:H1; cbn [bind];
    [| intros He; injection He as <-; exact (py_assert_raises _ _ H1)].
  destruct (py_assert _) as [[] |] eqn:H2 in |- *; cbn [bind];
    [| intros He; injection He as <-; exact (py_assert_raises _ _ H2)].
  apply py_assert_raises.
Qed.

Lemma mapM_validate_iff (l : list Intervention) :
  (exists us, mapM validate_intervention l = Ok us) <-> Forall rates_in_bounds l.
Proof.
  induction l as [| x tl IH]; cbn [mapM].
  - split; [constructor | intros _; now exists []].
  - split.
    + intros [us Hus].
      apply bind_Ok_inv in Hus. destruct Hus as ([] & Hx & Hus).
      apply bind_Ok_inv in Hus. destruct Hus as (us' & Htl & _).
      constructor; [now apply validate_intervention_iff |].
      apply IH. now exists us'.
    + intros Hall. inversion Hall as [| ? ? Hx Htl]; subst.
      rewrite (proj2 (validate_intervention_iff x) Hx). cbn [bind].
      destruct (proj2 IH Htl) as [us ->]. cbn [bind]. eexists; reflexivity.
Qed.

Lemma mapM_validate_raises (l : list Intervention) (e : exn) :
  mapM validate_intervention l = Raise e -> e = AssertionError.
Proof.
  induction l as [| x tl IH]; cbn [mapM]; [discriminate |].
  destruct (validate_intervention x) as [[] |] eqn:Hx; cbn [bind].
  - destruct (mapM validate_intervention tl) as [us |]; cbn [bind];
      [discriminate |].
    intros He. apply IH. congruence.
  - intros He. injection He as <-. exact (validate_intervention_raises _ _ Hx).
Qed.

Lemma validate_parameters_iff (p : Parameters) :
  _validate_parameters p = Ok tt
  <-> config_in_bounds p
      /\ Forall rates_in_bounds (dict_values (interventions p)).
Proof.
  unfold _validate_parameters, config_in_bounds. split.
  - intros Hv.
    apply bind_Ok_inv in Hv. destruct Hv as ([] & H1 & Hv).
    apply bind_Ok_inv in Hv. destruct Hv as (us & H2 & _).
    apply py_assert_ok, andb_prop in H1. destruct H1 as [H1 H1c].
    apply andb_prop in H1. destruct H1 as [H1a H1b].
    apply Z.ltb_lt in H1a. apply Rleb_iff in H1b. apply Rleb_iff in H1c.
    split; [tauto |]. apply mapM_validate_iff. now exists us.
  - intros [(HT & Hr1 & Hr2) Hall].
    rewrite (proj2 (py_assert_ok _)); cbn [bind].
    2:{ apply andb_true_intro. split; [apply andb_true_intro; split |].
        - now apply Z.ltb_lt.
        - now apply Rleb_iff.
        - now apply Rleb_iff. }
    destruct (proj2 (mapM_validate_iff _) Hall) as [us ->]. reflexivity.
Qed.

(** X16. [_validate_parameters] accepts exactly the tables whose horizon is
    positive, whose discount rate lies in [0, 0.2] and whose every program
    has its event rate and case fatality in [0, 1] and its utility weight in
    (0, 1]; on any other table it raises [AssertionError] and nothing else.
    Populations, costs and effect parameters are not looked at. *)
Theorem validate_parameters_accepts_iff (p : Parameters) :
  (_validate_parameters p = Ok tt
   <-> config_in_bounds p
       /\ Forall rates_in_bounds (dict_values (interventions p)))
  /\ (forall e : exn, _validate_parameters p = Raise e -> e = AssertionError).
Proof.
  split; [apply validate_parameters_iff |].
  unfold _validate_parameters. intros e.
  destruct (py_assert _) as [[] |] eqn:H1; cbn [bind];
    [| intros He; injection He as <-; exact (py_assert_raises _ _ H1)].
  destruct (mapM validate_intervention _) as [us |] eqn:H2; cbn [bind];
    [discriminate |].
  intros He. injection He as <-. exact (mapM_validate_raises _ _ H2).
Qed.

Lemma dict_get_in_values {V : Type} (k : string) (v : V)
  (d : list (string * V)) :
  dict_get k d = Some v -> In v (dict_values d).
Proof.
  unfold dict_values. induction d as [| [k' v'] tl IH]; simpl; intros Hget.
  - discriminate.
  - destruct (String.eqb k k').
    + injection Hget as ->. now left.
    + right. now apply IH.
Qed.

Lemma Forall_dict_set {V : Type} (P : V -> Prop) (k : string) (v : V)
  (d : list (string * V)) :
  Forall P (dict_values d) -> P v -> Forall P (dict_values (dict_set k v d)).
Proof.
  unfold dict_values. intros Hall Hv.
  induction d as [| [k' v'] tl IH]; simpl.
  - constructor; [assumption | constructor].
  - simpl in Hall. inversion Hall as [| ? ? Hv' Htl]; subst.
    destruct (String.eqb k k'); simpl; constructor; auto.
Qed.

Lemma keeps_rates_in_bounds (i i' : Intervention) :
  exact_frame i i' -> keeps_rates i i' ->
  rates_in_bounds i -> rates_in_bounds i'.
Proof.
  unfold exact_frame, keeps_rates, rates_in_bounds.
  intros (_ & _ & _ & Hu & _) [[Ha | Ha] [Hc | Hc]] (H1 & H2 & H3);
    rewrite Hu; try rewrite Ha; try rewrite Hc; repeat split; lra.
Qed.

Lemma calibrate_intervention_validity (self self' : UAEHealthAnalysis)
  (key : string) (tgt : Target) :
  _calibrate_intervention self key tgt = Ok self' ->
  _validate_parameters (parameters self) = Ok tt ->
  _validate_parameters (parameters self') = Ok tt.
Proof.
  intros Hrun Hv.
  destruct (calibrate_intervention_inv _ _ _ _ Hrun)
    as (intr & intr' & Hget & -> & Hfr & Hk).
  apply validate_parameters_iff in Hv. destruct Hv as [Hcfg Hall].
  apply validate_parameters_iff. split; [exact Hcfg |].
  cbn. apply Forall_dict_set; [exact Hall |].
  apply (keeps_rates_in_bounds intr); [assumption | assumption |].
  rewrite Forall_forall in Hall. apply Hall.
  exact (dict_get_in_values _ _ _ Hget).
Qed.

Section CalibrateValidity.
Context {G : Type} `{Generator G}.

(** X17. Calibration keeps a valid table valid: if [_validate_parameters]
    accepts the parameters before [calibrate], it accepts the parameters
    [calibrate] leaves, whatever the targets are. *)
Theorem calibrate_keeps_validity (self self' : UAEHealthAnalysis)
  (per : list (string * Target)) (port : PortfolioTargets) (ch : Changes) :
  _validate_parameters (parameters self) = Ok tt ->
  calibrate self per port = Ok (ch, self') ->
  _validate_parameters (parameters self') = Ok tt.
Proof.
  intros Hv Hrun. revert Hv.
  apply (calibrate_invariant
           (fun p p' => _validate_parameters p = Ok tt ->
                        _validate_parameters p' = Ok tt)
           (fun p Hp => Hp)
           (fun p q r Hpq Hqr Hp => Hqr (Hpq Hp))
           (fun s s' key tgt Hc => calibrate_intervention_validity s s' key tgt Hc)
           self self' per port ch Hrun).
Qed.
End CalibrateValidity.

Lemma validate_single_cvd : _validate_parameters (single_program "cvd" cvd) = Ok tt.
Proof.
  apply validate_parameters_iff. split.
  - unfold config_in_bounds. cbn. split; [lia | lra].
  - repeat constructor; cbn; lra.
Qed.

Lemma calibrate_keeps_validity_witness :
  exists (ch : Changes) (self' : UAEHealthAnalysis),
    calibrate (H := mean_generator) (new_analysis (single_program "cvd" cvd))
      [("cvd", investment_only 1e9)] no_portfolio_targets = Ok (ch, self')
    /\ _validate_parameters (parameters self') = Ok tt.
Proof.
  destruct (calibrate_intervention_frame
              (new_analysis (single_program "cvd" cvd)) "cvd" cvd
              (investment_only 1e9) cvd_rrr)
    as (self' & intr' & Hrun & _).
  - reflexivity.
  - cbn. lia.
  - cbn. lia.
  - cbn. lra.
  - exact cvd_rrr_mean.
  - assert (Hcal : calibrate (H := mean_generator)
                     (new_analysis (single_program "cvd" cvd))
                     [("cvd", investment_only 1e9)] no_portfolio_targets
                   = Ok ({| ch_per_intervention := ["cvd"];
                            portfolio_first := false; adjusted := None |},
                         self')).
    { unfold calibrate. cbn [calibrate_each].
      change (dict_mem "cvd"
                (interventions
                   (parameters (new_analysis (single_program "cvd" cvd)))))
        with true.
      cbv iota. rewrite Hrun. reflexivity. }
    eexists; exists self'. split; [exact Hcal |].
    exact (calibrate_keeps_validity
             (new_analysis (single_program "cvd" cvd)) _ _ _ _
             validate_single_cvd Hcal).
Defined.

(** ** Loading: what the simulator reads afterwards *)

Lemma beta_to_lognormal_inv (a b : R) (ln : R * R) :
  _beta_rrr_to_lognormal_rr a b = Ok ln ->
  0 < a /\ 0 < b /\ ln = lognormal_of_beta a b.
Proof.
  intros Hrun.
  destruct (Rle_dec a 0) as [Ha | Ha].
  { unfold _beta_rrr_to_lognormal_rr in Hrun.
    rewrite (Rleb_true a 0 Ha) in Hrun. discriminate. }
  destruct (Rle_dec b 0) as [Hb | Hb].
  { unfold _beta_rrr_to_lognormal_rr in Hrun.
    rewrite (Rleb_true b 0 Hb), orb_true_r in Hrun. discriminate. }
  rewrite beta_to_lognormal_eq in Hrun by lra.
  injection Hrun as <-. repeat split; lra.
Qed.

Lemma derive_rr_lognormal_inv (i i1 : Intervention) :
  derive_rr_lognormal i = Ok i1 ->
  i1 = set_rr_lognormal
         (match rr_lognormal i, rrr_beta i with
          | None, Some (a, b) => Some (lognormal_of_beta a b)
          | ln, _ => ln
          end) i
  /\ (rr_lognormal i = None ->
      forall a b, rrr_beta i = Some (a, b) -> 0 < a /\ 0 < b).
Proof.
  unfold derive_rr_lognormal.
  destruct i as [N p pe c ce u ue q qe l le g ge ev eve pr pre rr rre beta].
  cbn [rr_lognormal rrr_beta].
  destruct rr as [ln |].
  - intros Hd. injection Hd as <-. split; [reflexivity | discriminate].
  - destruct beta as [[a b] |].
    + destruct (_beta_rrr_to_lognormal_rr a b) as [[mu sigma] |] eqn:Hb;
        cbn [bind]; [| discriminate].
      intros Hd. injection Hd as <-.
      destruct (beta_to_lognormal_inv _ _ _ Hb) as (Ha & Hb' & ->).
      split; [reflexivity |].
      intros _ a' b' Heq. injection Heq as <- <-. split; assumption.
    + intros Hd. injection Hd as <-. split; [reflexivity | discriminate].
Qed.

Lemma add_exact_copies_loaded_from (i : Intervention) (ln : option (R * R)) :
  loaded_from i (add_exact_copies (set_rr_lognormal ln i)).
Proof. unfold loaded_from. cbn. repeat split. Qed.

Lemma load_programs_inv (d d1 : list (string * Intervention)) :
  mapM load_intervention d = Ok d1 ->
  let d' := map (fun kv : string * Intervention =>
                   (fst kv, add_exact_copies (snd kv))) d1 in
  dict_keys d' = dict_keys d
  /\ forall k : string,
       match dict_get k d with
       | None => dict_get k d' = None
       | Some i =>
           exists i1 : Intervention,
             derive_rr_lognormal i = Ok i1
             /\ dict_get k d' = Some (add_exact_copies i1)
       end.
Proof.
  revert d1. induction d as [| [k0 i0] tl IH]; intros d1 Hrun; cbn [mapM] in Hrun.
  - injection Hrun as <-. split; [reflexivity | intros k; reflexivity].
  - apply bind_Ok_inv in Hrun. destruct Hrun as ([k1 i1] & H1 & Hrun).
    apply bind_Ok_inv in Hrun. destruct Hrun as (tl1 & Htl & Hrun).
    injection Hrun as <-.
    unfold load_intervention in H1. cbn [fst snd] in H1.
    apply bind_Ok_inv in H1. destruct H1 as (j & Hj & H1).
    injection H1 as <- <-.
    destruct (IH tl1 Htl) as [Hkeys Hget].
    split.
    + unfold dict_keys in *. cbn [map fst]. now rewrite Hkeys.
    + intros k. cbn [map dict_get fst snd].
      destruct (String.eqb k k0).
      * exists j. split; [assumption | reflexivity].
      * apply Hget.
Qed.

Lemma load_table_inv (p p' : Parameters) :
  load_table p = Ok p' ->
  _validate_parameters p = Ok tt
  /\ meta p' = meta p
  /\ health_system p' = health_system p
  /\ dict_keys (interventions p') = dict_keys (interventions p)
  /\ (forall pa, portfolio_adjustments p = Some pa ->
        portfolio_adjustments_exact p' = Some pa)
  /\ forall k : string,
       match dict_get k (interventions p) with
       | None => dict_get k (interventions p') = None
       | Some i =>
           exists i1 : Intervention,
             derive_rr_lognormal i = Ok i1
             /\ dict_get k (interventions p') = Some (add_exact_copies i1)
       end.
Proof.
  unfold load_table. intros Hrun.
  apply bind_Ok_inv in Hrun. destruct Hrun as ([] & Hv & Hrun).
  apply bind_Ok_inv in Hrun. destruct Hrun as (d1 & Hd & Hrun).
  injection Hrun as <-. cbn [meta health_system interventions
                             portfolio_adjustments_exact].
  destruct (load_programs_inv _ _ Hd) as [Hkeys Hget].
  split; [assumption |]. split; [reflexivity |]. split; [reflexivity |].
  split; [assumption |]. split; [| assumption].
  intros pa ->. reflexivity.
Qed.

(** X18. Whenever the loader returns, the table has the same horizon,
    discount rate and program keys, in the same order; every program keeps
    its population and its Beta, carries under each [_exact] key the value
    it had under the visible key, and shows under the visible key that value
    rounded (three digits; one digit for a Gamma scale); the portfolio
    adjustments are copied under [portfolio_adjustments_exact]. *)
Theorem load_table_keeps_inputs (p p' : Parameters) :
  load_table p = Ok p' ->
  meta p' = meta p
  /\ health_system p' = health_system p
  /\ dict_keys (interventions p') = dict_keys (interventions p)
  /\ (forall pa, portfolio_adjustments p = Some pa ->
        portfolio_adjustments_exact p' = Some pa)
  /\ forall (k : string) (i : Intervention),
       dict_get k (interventions p) = Some i ->
       exists i' : Intervention,
         dict_get k (interventions p') = Some i'
         /\ loaded_from i i'
         /\ rr_lognormal_exact i' = loaded_lognormal i.
Proof.
  intros Hrun.
  destruct (load_table_inv _ _ Hrun) as (_ & Hm & Hhs & Hkeys & Hpa & Hget).
  split; [assumption |]. split; [assumption |]. split; [assumption |].
  split; [assumption |].
  intros k i Hi. specialize (Hget k). rewrite Hi in Hget.
  destruct Hget as (i1 & Hd & Hi1).
  destruct (derive_rr_lognormal_inv _ _ Hd) as [-> _].
  eexists. split; [exact Hi1 |].
  split; [apply add_exact_copies_loaded_from |].
  unfold loaded_lognormal. cbn.
  destruct (rr_lognormal i) as [[mu sigma] |]; [reflexivity |].
  destruct (rrr_beta i) as [[a b] |]; [| reflexivity].
  destruct (lognormal_of_beta a b). reflexivity.
Qed.

Lemma load_table_keeps_inputs_witness :
  exists (p1 : Parameters) (i' : Intervention),
    load_table default_params = Ok p1
    /\ dict_get "cvd" (interventions p1) = Some i'
    /\ cost_ppy_gamma_exact i' = Some (5.0, 384.5160616649235)
    /\ rr_lognormal_exact i' = Some (lognormal_of_beta 103.75 396.25).
Proof.
  destruct load_default_params as (p1 & mu & sigma & Hload & _).
  destruct (load_table_keeps_inputs _ _ Hload) as (_ & _ & _ & _ & Hall).
  destruct (Hall "cvd" cvd eq_refl) as (i' & Hget & Hfrom & Hln).
  exists p1, i'. split; [exact Hload |]. split; [exact Hget |].
  split; [apply Hfrom | exact Hln].
Defined.

Lemma closed_form_loaded (m : Meta) (hs : HealthSystem) (i : Intervention)
  (ln : option (R * R)) (rrr : R) :
  no_exact_copies i ->
  closed_form m hs (add_exact_copies (set_rr_lognormal ln i)) rrr
  = closed_form m hs i rrr.
Proof.
  destruct i as [N p pe c ce u ue q qe l le g ge ev eve pr pre rr rre beta].
  unfold no_exact_copies. cbn.
  intros (-> & -> & -> & -> & -> & -> & -> & -> & ->). reflexivity.
Qed.

Lemma deterministic_rrr_loaded (i : Intervention) :
  no_exact_copies i ->
  (rr_lognormal i = None ->
   forall a b, rrr_beta i = Some (a, b) ->
               0 < a /\ 0 < b /\ 0.001 <= a / (a + b) <= 1 - 1e-6) ->
  exists rrr : R,
    deterministic_rrr i = Ok rrr
    /\ deterministic_rrr
         (add_exact_copies
            (set_rr_lognormal
               (match rr_lognormal i, rrr_beta i with
                | None, Some (a, b) => Some (lognormal_of_beta a b)
                | ln, _ => ln
                end) i)) = Ok rrr.
Proof.
  destruct i as [N p pe c ce u ue q qe l le g ge ev eve pr pre rr rre beta].
  unfold no_exact_copies. cbn [rr_lognormal rrr_beta rr_lognormal_exact].
  intros (_ & _ & _ & _ & _ & _ & _ & _ & ->) Hbeta.
  destruct rr as [[mu sigma] |].
  - eexists. split; reflexivity.
  - destruct beta as [[a b] |].
    + destruct (Hbeta eq_refl a b eq_refl) as (Ha & Hb & Hrange).
      exists (a / (a + b)). split.
      * unfold deterministic_rrr, rr_ln_of, beta_mean_or_default. cbn.
        rewrite !truthy_true by lra. cbn [andb]. apply pydiv_ok. lra.
      * destruct (lognormal_of_beta_moments a b Ha Hb) as [_ Hmean].
        destruct (lognormal_of_beta a b) as [mu sigma] eqn:Hln.
        cbn [fst snd] in Hmean.
        unfold deterministic_rrr, rr_ln_of, add_exact_copies, set_rr_lognormal.
        cbn [rr_lognormal rr_lognormal_exact]. rewrite Hmean.
        assert (Hb' : b / (a + b) = 1 - a / (a + b)) by (field; lra).
        rewrite Hb'. rewrite Rmax_right by lra.
        unfold clamp. rewrite Rmin_right by lra. rewrite Rmax_right by lra.
        f_equal. lra.
    + exists 0.2. split; reflexivity.
Qed.

Section LoadFacts.
Context {G : Type} `{Generator G}.

(** X19. Loading does not change the deterministic result of a program
    written as the literal table writes it (no [_exact] key yet), provided
    that, when the effect is given by a Beta only, the Beta mean lies in
    [0.001, 1 - 1e-6]: the pass on the table before the load and the pass on
    the loaded table return the same six values.  The rounding of the
    visible keys is not seen by the simulator. *)
Theorem load_preserves_deterministic_pass (self : UAEHealthAnalysis)
  (p p' : Parameters) (k : string) (i : Intervention) (rng : G) :
  load_table p = Ok p' ->
  dict_get k (interventions p) = Some i ->
  no_exact_copies i ->
  (rr_lognormal i = None ->
   forall a b, rrr_beta i = Some (a, b) -> 0.001 <= a / (a + b) <= 1 - 1e-6) ->
  exists out : IterationResult,
    _simulate_intervention (set_parameters p self) k rng true = Ok (out, rng)
    /\ _simulate_intervention (set_parameters p' self) k rng true
       = Ok (out, rng).
Proof.
  intros Hload Hi Hraw Hrange.
  destruct (load_table_inv _ _ Hload) as (Hv & Hm & Hhs & _ & _ & Hget).
  apply validate_parameters_iff in Hv. destruct Hv as [(_ & Hr & _) _].
  specialize (Hget k). rewrite Hi in Hget. destruct Hget as (i1 & Hd & Hi1).
  destruct (derive_rr_lognormal_inv _ _ Hd) as [-> Hpos].
  destruct (deterministic_rrr_loaded i Hraw) as (rrr & Hrrr & Hrrr').
  { intros Hnone a b Hbeta.
    destruct (Hpos Hnone a b Hbeta) as [Ha Hb].
    split; [assumption |]. split; [assumption |]. now apply Hrange. }
  exists (closed_form (meta p) (health_system p) i rrr). split.
  - apply (simulate_deterministic_eq (set_parameters p self) k i rng rrr);
      [exact Hi | cbn; lra | exact Hrrr].
  - rewrite (simulate_deterministic_eq (set_parameters p' self) k _ rng rrr Hi1);
      [| cbn; rewrite Hhs; lra | exact Hrrr'].
    cbn [set_parameters parameters]. rewrite Hm, Hhs.
    now rewrite closed_form_loaded.
Qed.
End LoadFacts.

Lemma load_preserves_deterministic_pass_witness :
  exists (p1 : Parameters) (out : IterationResult),
    load_table default_params = Ok p1
    /\ _simulate_intervention (new_analysis default_params) "cvd" tt true
       = Ok (out, tt)
    /\ _simulate_intervention (new_analysis p1) "cvd" tt true = Ok (out, tt).
Proof.
  destruct load_default_params as (p1 & mu & sigma & Hload & _).
  destruct (load_preserves_deterministic_pass (H := mean_generator)
              (new_analysis default_params) default_params p1 "cvd" cvd tt
              Hload eq_refl) as (out & Hbefore & Hafter).
  - unfold no_exact_copies. cbn. repeat split.
  - intros _ a b Hbeta. injection Hbeta as <- <-. lra.
  - exists p1, out. split; [exact Hload |]. split; assumption.
Defined.

(** ** Calibration of a loaded table *)

Section ViewFacts.
Context {G : Type} `{Generator G}.

Lemma draw_channels_view (i i' : Intervention) (rng : G)
  (deterministic : bool) :
  simulator_view i' = simulator_view i ->
  draw_channels i' rng deterministic = draw_channels i rng deterministic.
Proof.
  unfold simulator_view. intros Hv.
  injection Hv as _ _ _ _ _ _ Hc Hev Hpr Hln Hbeta.
  unfold draw_channels, deterministic_rrr. rewrite Hc, Hev, Hpr, Hln.
  rewrite Hln in Hbeta.
  destruct (rr_ln_of i) as [[mu sigma] |]; [reflexivity |].
  now rewrite Hbeta.
Qed.

Lemma simulate_same_views (self self' : UAEHealthAnalysis) :
  same_views (parameters self) (parameters self') ->
  forall (key : string) (rng : G) (deterministic : bool),
    _simulate_intervention self' key rng deterministic
    = _simulate_intervention self key rng deterministic.
Proof.
  intros [(Hm & Hhs & _) Hview] key rng deterministic.
  specialize (Hview key).
  unfold _simulate_intervention, dict_item. rewrite Hm, Hhs.
  destruct (dict_get key (interventions (parameters self'))) as [i' |];
    destruct (dict_get key (interventions (parameters self))) as [i |];
    cbn [option_map] in Hview; try discriminate; [| reflexivity].
  assert (Hv : simulator_view i' = simulator_view i) by congruence.
  clear Hview. cbn [bind].
  rewrite (draw_channels_view i i' _ _ Hv).
  unfold simulator_view in Hv.
  injection Hv as HN Hp Hcfr Hu Hq Hly _ _ _ _ _.
  rewrite HN, Hp, Hcfr, Hu, Hq, Hly. reflexivity.
Qed.

Lemma simulate_each_same_views (self self' : UAEHealthAnalysis)
  (keys : list string) :
  same_views (parameters self) (parameters self') ->
  forall (rng : G) (deterministic : bool),
    simulate_each self' keys rng deterministic
    = simulate_each self keys rng deterministic.
Proof.
  intros Hsame. induction keys as [| k tl IH]; intros rng deterministic;
    cbn [simulate_each]; [reflexivity |].
  rewrite (simulate_same_views _ _ Hsame).
  destruct (_simulate_intervention self k rng deterministic) as [[out g] |];
    cbn [bind]; [| reflexivity].
  now rewrite IH.
Qed.

Lemma markov_output_same_views (self self' : UAEHealthAnalysis) :
  same_views (parameters self) (parameters self') ->
  forall (deterministic : bool) (seed : Z),
    markov_output self' deterministic seed
    = markov_output self deterministic seed.
Proof.
  intros Hsame deterministic seed.
  pose proof Hsame as [(_ & _ & Hpa & Hpae & Hkeys) _].
  unfold markov_output, run_markov_models.
  rewrite Hkeys, (simulate_each_same_views _ _ _ Hsame).
  destruct (simulate_each self _ _ deterministic) as [[per g] |];
    cbn [bind]; [| reflexivity].
  unfold adjustments_of. rewrite Hpa, Hpae.
  destruct (reconcile_deaths _ per) as [per' |]; reflexivity.
Qed.
End ViewFacts.

Lemma exact_frame_fully_exact (i i' : Intervention) :
  exact_frame i i' -> fully_exact i -> fully_exact i'.
Proof.
  unfold exact_frame, fully_exact. intros Hfr Hex.
  decompose [and] Hfr. decompose [and] Hex. repeat split; congruence.
Qed.

(** With every [_exact] copy in place, the fields calibration writes are
    fields the simulator does not read. *)
Lemma exact_frame_view (i i' : Intervention) :
  exact_frame i i' -> fully_exact i -> simulator_view i' = simulator_view i.
Proof.
  destruct i as [N p pe c ce u ue q qe l le g ge ev eve pr pre rr rre beta].
  destruct i' as [N' p' pe' c' ce' u' ue' q' qe' l' le' g' ge' ev' eve' pr' pre'
                  rr' rre' beta'].
  unfold exact_frame, fully_exact, simulator_view, rr_ln_of. cbn.
  intros (-> & -> & -> & _ & -> & -> & _ & -> & -> & -> & -> & _ & ->).
  intros (H1 & H2 & H3 & H4 & H5 & H6 & H7 & H8 & H9).
  destruct pe; [| contradiction]. destruct ce; [| contradiction].
  destruct ue; [| contradiction]. destruct qe; [| contradiction].
  destruct le; [| contradiction]. destruct ge; [| contradiction].
  destruct eve; [| contradiction]. destruct pre; [| contradiction].
  destruct rre; [| contradiction]. reflexivity.
Qed.

Lemma same_views_refl (p : Parameters) : same_views p p.
Proof. split; [apply same_configuration_refl | reflexivity]. Qed.

Lemma same_views_trans (p q r : Parameters) :
  same_views p q -> same_views q r -> same_views p r.
Proof.
  intros [C1 V1] [C2 V2]. split.
  - eapply same_configuration_trans; eassumption.
  - intros k. now rewrite V2, V1.
Qed.

Lemma calibrate_intervention_views (self self' : UAEHealthAnalysis)
  (key : string) (tgt : Target) :
  _calibrate_intervention self key tgt = Ok self' ->
  all_exact (parameters self) ->
  all_exact (parameters self')
  /\ same_views (parameters self) (parameters self').
Proof.
  intros Hrun Hall.
  destruct (calibrate_intervention_configuration _ _ _ _ Hrun) as [Hcfg _].
  destruct (calibrate_intervention_inv _ _ _ _ Hrun)
    as (intr & intr' & Hget & -> & Hfr & _).
  pose proof (Hall key intr Hget) as Hex.
  split; [| split; [exact Hcfg |]].
  - intros k i. cbn.
    destruct (String.eqb_spec k key) as [-> | Hne].
    + rewrite dict_get_set_same. intros Hi. injection Hi as <-.
      exact (exact_frame_fully_exact _ _ Hfr Hex).
    + rewrite (dict_get_set_other _ _ _ _ Hne). apply Hall.
  - intros k. cbn.
    destruct (String.eqb_spec k key) as [-> | Hne].
    + rewrite dict_get_set_same, Hget. cbn [option_map].
      now rewrite (exact_frame_view _ _ Hfr Hex).
    + now rewrite (dict_get_set_other _ _ _ _ Hne).
Qed.

Lemma load_table_all_exact (p p' : Parameters) :
  load_table p = Ok p' ->
  (forall (k : string) (i : Intervention),
     dict_get k (interventions p) = Some i -> loaded_lognormal i <> None) ->
  all_exact p'.
Proof.
  intros Hload Heff k i' Hi'.
  destruct (load_table_inv _ _ Hload) as (_ & _ & _ & _ & _ & Hget).
  specialize (Hget k).
  destruct (dict_get k (interventions p)) as [i |] eqn:Hi; [| congruence].
  destruct Hget as (i1 & Hd & Hi1).
  rewrite Hi' in Hi1. injection Hi1 as ->.
  destruct (derive_rr_lognormal_inv _ _ Hd) as [-> _].
  specialize (Heff k i Hi). unfold loaded_lognormal in Heff.
  unfold fully_exact. cbn.
  repeat (split; [discriminate |]).
  destruct (rr_lognormal i) as [[mu sigma] |]; [discriminate |].
  destruct (rrr_beta i) as [[a b] |]; [| exact Heff].
  destruct (lognormal_of_beta a b). discriminate.
Qed.

Section LoadedCalibration.
Context {G : Type} `{Generator G}.

(** X20. On a loaded table calibration changes nothing the simulator
    reads.  If the parameters were produced by the loader from a table whose
    every program has a lognormal or a Beta, then whatever the per-program
    and portfolio targets, when [calibrate] returns every pass (any key,
    deterministic or sampled, any generator state) and the dictionary of
    [run_markov_models] (any mode, any seed) are those of the object before
    the calibration. *)
Theorem calibrate_after_load_changes_no_pass (self self' : UAEHealthAnalysis)
  (p : Parameters) (per : list (string * Target)) (port : PortfolioTargets)
  (ch : Changes) :
  load_table p = Ok (parameters self) ->
  (forall (k : string) (i : Intervention),
     dict_get k (interventions p) = Some i -> loaded_lognormal i <> None) ->
  calibrate self per port = Ok (ch, self') ->
  (forall (key : string) (rng : G) (deterministic : bool),
     _simulate_intervention self' key rng deterministic
     = _simulate_intervention self key rng deterministic)
  /\ (forall (deterministic : bool) (seed : Z),
        markov_output self' deterministic seed
        = markov_output self deterministic seed).
Proof.
  intros Hload Heff Hrun.
  pose proof (load_table_all_exact _ _ Hload Heff) as Hall.
  assert (Hviews : all_exact (parameters self')
                   /\ same_views (parameters self) (parameters self')).
  { revert Hall.
    refine (calibrate_invariant
              (fun q q' => all_exact q -> all_exact q' /\ same_views q q')
              (fun q Hq => conj Hq (same_views_refl q)) _ _
              self self' per port ch Hrun).
    - intros q1 q2 q3 H12 H23 H1.
      destruct (H12 H1) as [H2 V12]. destruct (H23 H2) as [H3 V23].
      split; [exact H3 | exact (same_views_trans _ _ _ V12 V23)].
    - intros s s' key tgt. apply calibrate_intervention_views. }
  destruct Hviews as [_ Hviews]. split.
  - now apply simulate_same_views.
  - now apply markov_output_same_views.
Qed.
End LoadedCalibration.

Lemma default_params_have_effects (k : string) (i : Intervention) :
  dict_get k (interventions default_params) = Some i ->
  loaded_lognormal i <> None.
Proof.
  cbn [default_params interventions dict_get].
  repeat match goal with
         | |- context [String.eqb k ?s] => destruct (String.eqb k s)
         end;
    intros Heq; try discriminate; injection Heq as <-;
    unfold loaded_lognormal;
    cbn [rr_lognormal rrr_beta alzheimers cancer cvd diabetes osteoporosis
         mk_intervention];
    discriminate.
Qed.

Lemma calibrate_after_load_changes_no_pass_witness :
  exists (p1 : Parameters) (ch : Changes) (self' : UAEHealthAnalysis),
    load_table default_params = Ok p1
    /\ calibrate (H := mean_generator) (new_analysis p1)
         [("cvd", investment_only 1e9)] no_portfolio_targets = Ok (ch, self')
    /\ _simulate_intervention self' "cvd" tt true
       = _simulate_intervention (new_analysis p1) "cvd" tt true.
Proof.
  destruct load_default_params as (p1 & mu & sigma & Hload & Hm & Hhs & Hget).
  destruct (calibrate_intervention_frame (new_analysis p1) "cvd"
              (add_exact_copies (set_rr_lognormal (Some (mu, sigma)) cvd))
              (investment_only 1e9) (1.0 - lognormal_mean mu sigma))
    as (self' & intr' & Hrun & _).
  - exact Hget.
  - cbn. lia.
  - cbn [parameters new_analysis]. rewrite Hm. cbn. lia.
  - cbn [parameters new_analysis]. rewrite Hhs. cbn. lra.
  - reflexivity.
  - assert (Hcal : calibrate (H := mean_generator) (new_analysis p1)
                     [("cvd", investment_only 1e9)] no_portfolio_targets
                   = Ok ({| ch_per_intervention := ["cvd"];
                            portfolio_first := false; adjusted := None |},
                         self')).
    { unfold calibrate. cbn [calibrate_each]. unfold dict_mem.
      cbn [parameters new_analysis]. rewrite Hget.
      cbv iota. rewrite Hrun. reflexivity. }
    exists p1. eexists. exists self'.
    split; [exact Hload |]. split; [exact Hcal |].
    destruct (calibrate_after_load_changes_no_pass (H := mean_generator)
                (new_analysis p1) self' default_params _ _ _
                Hload default_params_have_effects Hcal) as [Hpass _].
    apply Hpass.
Defined.

(** ** Calibration followed by a run: events and deaths *)

Lemma clamp_inside (x lo hi : R) : lo <= x <= hi -> clamp x lo hi = x.
Proof.
  intros [Hlo Hhi]. unfold clamp.
  rewrite Rmin_right by assumption. now rewrite Rmax_right.
Qed.

Section EventsRoundTrip.
Context {G : Type} `{Generator G}.

(** X21. The events and deaths targets round-trip on a program written as
    the literal table writes it (no [_exact] key, effect given by a Beta
    with mean [m] in [1e-9, 1)): when the rate [E / (N*T*m)] the target asks
    for lies in the calibration range [1e-8, 0.95], the deterministic pass
    after calibration prevents exactly [E] events; and when a non-zero
    deaths target [Dth] with [Dth / E] in [0, 0.95] is given too, it averts
    exactly [Dth] deaths. *)
Theorem calibrate_events_roundtrip (self : UAEHealthAnalysis) (key : string)
  (intr : Intervention) (tgt : Target) (a b E : R) :
  dict_get key (interventions (parameters self)) = Some intr ->
  (0 < Result_population intr)%Z ->
  (0 < horizon_years (meta (parameters self)))%Z ->
  0 < 1 + discount_rate (health_system (parameters self)) ->
  no_exact_copies intr ->
  rr_lognormal intr = None -> rrr_beta intr = Some (a, b) ->
  a + b <> 0 -> 1e-9 <= a / (a + b) < 1 ->
  t_events_prevented tgt = Some E ->
  1e-8 <= E / (IZR (Result_population intr)
               * IZR (horizon_years (meta (parameters self)))
               * (a / (a + b))) <= 0.95 ->
  exists (self' : UAEHealthAnalysis) (out : IterationResult),
    _calibrate_intervention self key tgt = Ok self'
    /\ (forall rng : G, _simulate_intervention self' key rng true = Ok (out, rng))
    /\ events_prevented out = E
    /\ (forall Dth : R,
          t_deaths_averted tgt = Some Dth -> Dth <> 0 ->
          0 <= Dth / E <= 0.95 -> deaths_averted out = Dth).
Proof.
  intros Hget HN HT Hr Hraw Hln Hbeta Hab Hm HE Hrate.
  set (m := a / (a + b)) in *.
  set (N := IZR (Result_population intr)) in *.
  set (T := IZR (horizon_years (meta (parameters self)))) in *.
  assert (HN' : 0 < N) by (apply (IZR_lt 0); assumption).
  assert (HT' : 0 < T) by (apply (IZR_lt 0); assumption).
  assert (HNTm : 0 < N * T * m).
  { apply Rmult_lt_0_compat; [apply Rmult_lt_0_compat; assumption | lra]. }
  assert (HE0 : 0 < E).
  { destruct (Rle_dec E 0) as [Hneg | Hpos]; [| lra].
    assert (E / (N * T * m) <= 0); [| lra].
    unfold Rdiv. rewrite <- (Rmult_0_l (/ (N * T * m))).
    apply Rmult_le_compat_r; [| assumption].
    left. now apply Rinv_0_lt_compat. }
  pose proof Hraw as (Hpe & Hce & Hue & Hqe & Hle & Hge & Heve & Hpre & Hrre).
  assert (Hrrr : rrr_mean_of intr = Ok m).
  { unfold rrr_mean_of, rr_ln_of. rewrite Hrre, Hln, Hbeta. cbn [or_else].
    now apply pydiv_ok. }
  destruct (calibrate_intervention_fields self key intr tgt m Hget HN HT Hr Hrrr)
    as (self' & intr' & Hrun & Hget' & _ & Hev & Hde).
  destruct (calibrate_intervention_inv _ _ _ _ Hrun)
    as (intr0 & intr0' & Hget0 & Hself & Hfr & _).
  rewrite Hget in Hget0. injection Hget0 as <-.
  assert (Hsame : intr0' = intr').
  { rewrite Hself in Hget'. cbn in Hget'. rewrite dict_get_set_same in Hget'.
    congruence. }
  subst intr0'.
  destruct Hfr as (HpopF & HpeF & HceF & _ & _ & _ & _ & _ & _ & _ & _ & HlnF & HrreF).
  destruct (Hev E HE (Rgt_not_eq _ _ HE0)) as [Hrate' Hbeta'].
  fold N T in Hrate'. rewrite (Rmax_left m 1e-9) in Hrate' by lra.
  rewrite (clamp_inside _ _ _ Hrate) in Hrate'.
  assert (Hdet : deterministic_rrr intr' = Ok m).
  { unfold deterministic_rrr, rr_ln_of. rewrite HrreF, Hrre, HlnF, Hln, Hbeta'.
    unfold beta_mean_or_default.
    rewrite !truthy_true by lra. cbn [andb].
    rewrite pydiv_ok by lra. f_equal. field. lra. }
  assert (Hmeta : meta (parameters self') = meta (parameters self))
    by (rewrite Hself; reflexivity).
  assert (Hhs : health_system (parameters self') = health_system (parameters self))
    by (rewrite Hself; reflexivity).
  exists self',
    (closed_form (meta (parameters self')) (health_system (parameters self'))
       intr' m).
  split; [exact Hrun |]. split.
  { intros rng.
    apply (simulate_deterministic_eq self' key intr' rng m Hget');
      [rewrite Hhs; lra | exact Hdet]. }
  assert (Hevents : events_prevented
                      (closed_form (meta (parameters self'))
                         (health_system (parameters self')) intr' m) = E).
  { unfold closed_form. cbn [events_prevented].
    rewrite Hmeta, HpopF, HpeF, Hpe. cbn [or_else]. rewrite Hrate'.
    fold N T. field. repeat split; lra. }
  split; [exact Hevents |].
  intros Dth HDth HDth0 Hcfr.
  assert (Hused : events_used tgt N T m intr = E).
  { unfold events_used. rewrite HE. cbn [present_and_truthy].
    now rewrite truthy_true by lra. }
  fold N T in Hde. rewrite Hused in Hde.
  specialize (Hde Dth HDth HDth0 HE0). rewrite (clamp_inside _ _ _ Hcfr) in Hde.
  unfold closed_form in *. cbn [events_prevented deaths_averted] in *.
  rewrite HceF, Hce. cbn [or_else]. rewrite Hde.
  match goal with
  | |- ?x * ?c * ?t = _ => replace (x * c * t) with (x * t * c) by ring
  end.
  rewrite Hevents. field. lra.
Qed.
End EventsRoundTrip.

Lemma calibrate_events_roundtrip_witness :
  exists (self' : UAEHealthAnalysis) (out : IterationResult),
    _calibrate_intervention (new_analysis (single_program "cvd" cvd)) "cvd"
      {| t_investment := None; t_events_prevented := Some 10000;
         t_deaths_averted := Some 1000; t_roi_ratio := None;
         t_c_per_qaly := None |} = Ok self'
    /\ _simulate_intervention self' "cvd" tt true = Ok (out, tt)
    /\ events_prevented out = 10000
    /\ deaths_averted out = 1000.
Proof.
  destruct (calibrate_events_roundtrip (H := mean_generator)
              (new_analysis (single_program "cvd" cvd)) "cvd" cvd
              {| t_investment := None; t_events_prevented := Some 10000;
                 t_deaths_averted := Some 1000; t_roi_ratio := None;
                 t_c_per_qaly := None |} 103.75 396.25 10000)
    as (self' & out & Hrun & Hsim & Hev & Hde).
  - reflexivity.
  - cbn. lia.
  - cbn. lia.
  - cbn. lra.
  - unfold no_exact_copies. cbn. repeat split.
  - reflexivity.
  - reflexivity.
  - lra.
  - lra.
  - reflexivity.
  - cbn. lra.
  - exists self', out. split; [exact Hrun |]. split; [apply Hsim |].
    split; [exact Hev |]. apply (Hde 1000); [reflexivity | lra | lra].
Defined.

(** ** Loading twice *)

Lemma round_half_even_value (y : R) (z : Z) :
  IZR z - 1 / 2 < y < IZR z + 1 / 2 -> round_half_even y = z.
Proof.
  intros [Hlo Hhi]. unfold round_half_even.
  destruct (Rle_dec (IZR z) y) as [Hge | Hlt].
  - rewrite (Zfloor_eq z y) by lra.
    now rewrite Rltb_true by lra.
  - assert (Hf : Zfloor y = (z - 1)%Z)
      by (apply Zfloor_eq; rewrite minus_IZR; lra).
    rewrite Hf, minus_IZR.
    rewrite Rltb_false by lra. rewrite Rltb_true by lra. lia.
Qed.

Lemma pyround_value (x : R) (z : Z) :
  IZR z - 1 / 2 < x * 1000 < IZR z + 1 / 2 -> pyround x 3 = IZR z / 1000.
Proof.
  intros Hz. unfold pyround.
  replace (10 ^ 3) with 1000 by (simpl; lra).
  now rewrite (round_half_even_value _ z Hz).
Qed.

(** X22. Loading a table that is already loaded (a second call of
    [load_parameters] works on the table the first call rewrote in place)
    overwrites every [_exact] copy with the value the first load rounded:
    afterwards the simulator reads the event rate, case fatality, utility,
    QALY loss and life years rounded to three digits and the three Gammas
    rounded to three and one digits, not the values of the literal table. *)
Theorem load_twice_rounds_exact_copies (p p1 p2 : Parameters) :
  load_table p = Ok p1 -> load_table p1 = Ok p2 ->
  forall (k : string) (i : Intervention),
    dict_get k (interventions p) = Some i ->
    exists i2 : Intervention,
      dict_get k (interventions p2) = Some i2 /\ exact_copies_rounded i i2.
Proof.
  intros H1 H2 k i Hi.
  destruct (load_table_inv _ _ H1) as (_ & _ & _ & _ & _ & Hget1).
  destruct (load_table_inv _ _ H2) as (_ & _ & _ & _ & _ & Hget2).
  specialize (Hget1 k). rewrite Hi in Hget1.
  destruct Hget1 as (j1 & Hd1 & Hi1).
  specialize (Hget2 k). rewrite Hi1 in Hget2.
  destruct Hget2 as (j2 & Hd2 & Hi2).
  destruct (derive_rr_lognormal_inv _ _ Hd1) as [-> _].
  destruct (derive_rr_lognormal_inv _ _ Hd2) as [-> _].
  eexists. split; [exact Hi2 |].
  unfold exact_copies_rounded. cbn. repeat split.
Qed.

Lemma validate_single_cvd_loaded :
  _validate_parameters (cvd_lognormal_table cvd_loaded) = Ok tt.
Proof.
  apply validate_parameters_iff. split.
  - unfold config_in_bounds. cbn. split; [lia | lra].
  - cbn [interventions dict_values map snd cvd_lognormal_table].
    constructor; [| constructor].
    unfold rates_in_bounds.
    cbn [cvd_loaded add_exact_copies cvd_lognormal mk_intervention
         annual_event_rate case_fatality_rate utility_weight].
    rewrite (pyround_value 0.012 12) by lra.
    rewrite (pyround_value 0.15 150) by lra.
    rewrite (pyround_value 0.85 850) by lra. lra.
Qed.

Lemma validate_cvd_lognormal_table :
  _validate_parameters (cvd_lognormal_table cvd_lognormal) = Ok tt.
Proof.
  apply validate_parameters_iff. split.
  - unfold config_in_bounds. cbn. split; [lia | lra].
  - cbn [interventions dict_values map snd cvd_lognormal_table].
    constructor; [| constructor].
    unfold rates_in_bounds. cbn. lra.
Qed.

Lemma load_cvd_lognormal_table :
  load_table (cvd_lognormal_table cvd_lognormal)
  = Ok (cvd_lognormal_table cvd_loaded).
Proof.
  unfold load_table. rewrite validate_cvd_lognormal_table. reflexivity.
Qed.

Lemma load_cvd_loaded_table :
  load_table (cvd_lognormal_table cvd_loaded)
  = Ok (cvd_lognormal_table (add_exact_copies cvd_loaded)).
Proof.
  unfold load_table. rewrite validate_single_cvd_loaded. reflexivity.
Qed.

Lemma load_twice_rounds_exact_copies_witness :
  exists i2 : Intervention,
    dict_get "cvd"
      (interventions (cvd_lognormal_table (add_exact_copies cvd_loaded)))
    = Some i2
    /\ qalys_lost_per_event cvd_lognormal = 0.061764705882353166
    /\ qalys_lost_per_event_exact i2 = Some 0.062.
Proof.
  destruct (load_twice_rounds_exact_copies _ _ _
              load_cvd_lognormal_table load_cvd_loaded_table
              "cvd" cvd_lognormal eq_refl)
    as (i2 & Hget & Hround).
  exists i2. split; [exact Hget |]. split; [reflexivity |].
  destruct Hround as (_ & _ & _ & _ & Hq & _). rewrite Hq.
  cbn [cvd_lognormal mk_intervention qalys_lost_per_event].
  rewrite (pyround_value 0.061764705882353166 62) by lra.
  reflexivity.
Defined.

(** ** The discount sum in closed form *)

Lemma annuity_closed_form (n : nat) (r : R) :
  r <> 0 -> 1 + r <> 0 -> annuity n r = (1 - / (1 + r) ^ n) / r.
Proof.
  intros Hr H1. induction n as [| n IH].
  - cbn [annuity pow]. field. assumption.
  - cbn [annuity]. rewrite IH.
    assert (Hp : (1 + r) ^ n <> 0) by now apply pow_nonzero.
    cbn [pow]. field. repeat split; assumption.
Qed.

(** X23. For a rate that is neither 0 nor -1 the discount sum is the
    annuity factor [(1 - (1 + r)^(-T)) / r], with an empty horizon when [T]
    is negative. *)
Theorem discount_sum_annuity_factor (T : Z) (r : R) :
  r <> 0 -> 1 + r <> 0 ->
  discount_sum T r = Ok ((1 - / (1 + r) ^ Z.to_nat T) / r).
Proof.
  intros Hr H1. rewrite (discount_sum_ok _ _ H1).
  now rewrite annuity_closed_form.
Qed.

Lemma discount_sum_annuity_factor_witness :
  discount_sum 10 0.03 = Ok ((1 - / (1 + 0.03) ^ 10) / 0.03).
Proof.
  apply (discount_sum_annuity_factor 10 0.03); lra.
Defined.

(** ** The perspective switch *)

Section PerspectiveFacts.
Context {G : Type} `{Generator G}.

Lemma simulate_payer_perspective (self : UAEHealthAnalysis) (key : string)
  (rng rng' : G) (deterministic : bool) (out : IterationResult) :
  is_societal (meta (parameters self)) = false ->
  _simulate_intervention self key rng deterministic = Ok (out, rng') ->
  soc_savings out = 0.
Proof.
  intros Hsoc. unfold _simulate_intervention, dict_item.
  destruct (dict_get key _) as [intr |]; cbn [bind]; [| discriminate].
  destruct (discount_sum _ _) as [D |]; cbn [bind]; [| discriminate].
  destruct (draw_channels intr rng deterministic)
    as [[[[[c1 c2] c3] rrr] g] |]; cbn [bind]; [| discriminate].
  rewrite Hsoc. intros Hout. injection Hout as <- _.
  cbn [soc_savings]. lra.
Qed.

Lemma simulate_each_payer_perspective (self : UAEHealthAnalysis)
  (keys : list string) (deterministic : bool) :
  is_societal (meta (parameters self)) = false ->
  forall (rng rng' : G) (per : list (string * IterationResult)),
    simulate_each self keys rng deterministic = Ok (per, rng') ->
    Forall (fun kv : string * IterationResult => soc_savings (snd kv) = 0) per.
Proof.
  intros Hsoc. induction keys as [| k tl IH]; intros rng rng' per Hrun;
    cbn [simulate_each] in Hrun.
  - injection Hrun as <- _. constructor.
  - apply bind_Ok_inv in Hrun. destruct Hrun as ([v g1] & Hv & Hrun).
    apply bind_Ok_inv in Hrun. destruct Hrun as ([rest g2] & Hrest & Hrun).
    injection Hrun as <- _. constructor.
    + exact (simulate_payer_perspective _ _ _ _ _ _ Hsoc Hv).
    + exact (IH _ _ _ Hrest).
Qed.

Lemma sum_of_all_zero (f : IterationResult -> R)
  (per : list (string * IterationResult)) :
  Forall (fun kv : string * IterationResult => f (snd kv) = 0) per ->
  sum_of f per = 0.
Proof.
  induction 1 as [| kv tl Hkv Htl IH].
  - reflexivity.
  - rewrite sum_of_cons, Hkv, IH. lra.
Qed.

(** X24. Under a perspective other than "societal" no productivity saving
    is counted anywhere: every per-program [soc_savings] returned by
    [run_markov_models] is 0, the portfolio [soc_savings] is 0 whatever the
    adjustment factors, and the portfolio [total_savings] is the adjusted
    health-care savings alone. *)
Theorem run_markov_models_payer_perspective (self self' : UAEHealthAnalysis)
  (deterministic : bool) (seed : Z) (out : MarkovOut) (s : string) :
  perspective (meta (parameters self)) = Some s -> s <> "societal"%string ->
  run_markov_models self deterministic seed = Ok (out, self') ->
  Forall (fun kv : string * IterationResult => soc_savings (snd kv) = 0)
         (per_intervention out)
  /\ pf_soc_savings (portfolio out) = 0
  /\ pf_total_savings (portfolio out) = pf_hc_savings (portfolio out).
Proof.
  intros Hp Hs Hrun.
  assert (Hsoc : is_societal (meta (parameters self)) = false).
  { unfold is_societal. rewrite Hp. cbn [or_else]. now apply String.eqb_neq. }
  unfold run_markov_models in Hrun.
  apply bind_Ok_inv in Hrun. destruct Hrun as ([per g] & Hper & Hrun).
  apply bind_Ok_inv in Hrun. destruct Hrun as (per' & Hrec & Hrun).
  injection Hrun as <- _. cbn [per_intervention portfolio].
  pose proof (simulate_each_payer_perspective _ _ _ Hsoc _ _ _ Hper) as Hall.
  assert (Hzero : pf_soc_savings
                    (adjusted_portfolio (adjustments_of (parameters self)) per) = 0).
  { unfold adjusted_portfolio. cbn [pf_soc_savings].
    rewrite (sum_of_all_zero soc_savings per Hall). lra. }
  split; [| split].
  - unfold reconcile_deaths in Hrec.
    destruct (truthy _).
    + apply bind_Ok_inv in Hrec. destruct Hrec as (sc & _ & Hrec).
      injection Hrec as <-. rewrite Forall_map.
      eapply Forall_impl; [| exact Hall]. intros kv Hkv. exact Hkv.
    + injection Hrec as <-. exact Hall.
  - exact Hzero.
  - unfold adjusted_portfolio in *.
    cbn [pf_soc_savings pf_total_savings pf_hc_savings] in *. lra.
Qed.
End PerspectiveFacts.

Lemma run_markov_models_payer_perspective_witness :
  exists (out : MarkovOut) (self' : UAEHealthAnalysis),
    run_markov_models (H := mean_generator)
      (new_analysis healthcare_perspective) true 123 = Ok (out, self')
    /\ pf_soc_savings (portfolio out) = 0
    /\ pf_total_savings (portfolio out) = pf_hc_savings (portfolio out).
Proof.
  destruct (simulate_all_total (H := mean_generator)
              (new_analysis healthcare_perspective) (default_rng 123) true)
    as (per & g & Hper & _).
  - cbn. lra.
  - intros _. unfold rrr_defined. cbn [healthcare_perspective interventions
                                       parameters new_analysis].
    constructor; [| constructor].
    exists cvd_rrr. exact cvd_deterministic_rrr.
  - destruct (run_markov_models_eq (H := mean_generator)
                (new_analysis healthcare_perspective) true 123 per g Hper)
      as (per' & _ & _ & Hrun).
    eexists; eexists. split; [exact Hrun |].
    destruct (run_markov_models_payer_perspective (H := mean_generator)
                (new_analysis healthcare_perspective) _ true 123 _
                "healthcare" eq_refl ltac:(discriminate) Hrun)
      as (_ & Hsoc & Htot).
    split; assumption.
Defined.

(** ** The return-on-investment target *)

(** X25. A [roi_ratio] target is read only inside the cost-per-QALY step:
    when the target has no (or a zero) [c_per_qaly], calibrating with a
    [roi_ratio] set to any value is calibrating without it.  In particular
    the portfolio step of [calibrate], which only sets [roi_ratio] on the
    adjusted program's target, changes the savings of that program only if
    its target carries a [c_per_qaly]. *)
Theorem calibrate_roi_ratio_needs_cost_per_qaly (self : UAEHealthAnalysis)
  (key : string) (tgt : Target) (v : R) :
  present_and_truthy (t_c_per_qaly tgt) = None ->
  _calibrate_intervention self key (set_roi_ratio v tgt)
  = _calibrate_intervention self key tgt.
Proof.
  intros Hcq.
  unfold _calibrate_intervention, calibrate_investment, calibrate_events,
    calibrate_deaths, calibrate_cost_per_qaly.
  cbn [set_roi_ratio t_investment t_events_prevented t_deaths_averted
       t_c_per_qaly].
  rewrite Hcq. reflexivity.
Qed.

Lemma calibrate_roi_ratio_needs_cost_per_qaly_witness :
  _calibrate_intervention (new_analysis (single_program "cvd" cvd)) "cvd"
    (set_roi_ratio 0.5 (investment_only 1e9))
  = _calibrate_intervention (new_analysis (single_program "cvd" cvd)) "cvd"
      (investment_only 1e9).
Proof.
  apply (calibrate_roi_ratio_needs_cost_per_qaly
           (new_analysis (single_program "cvd" cvd)) "cvd"
           (investment_only 1e9) 0.5).
  reflexivity.
Defined.
